(** * dfo-byoc-wechat: the message-forwarding and resilience layer

    A shallow embedding of the bridge between the WeChat service account and
    CXone Digital Engagement:

    - [app/models/messages.py]      payload normaliser ([get_openid], [get_text]);
    - [app/exceptions.py]           the exception taxonomy;
    - [app/clients/base.py]         the resilient HTTP transport;
    - [app/clients/cxone_client.py], [app/clients/wechat_client.py]
                                    the two outbound adapters;
    - [app/routes/wechat.py], [app/routes/byoc.py] and the exception handlers
      of [app/main.py]              the request handlers.

    Python [str] and [bytes] values are Rocq strings (one [ascii] per
    character, respectively per byte); integers are [Z]; dictionaries are
    [gmap]s with string keys.  Effectful code runs in the monad [M] below: it
    threads the process-wide store, accumulates the observable events (log
    records, calls into third-party libraries, network attempts, sleeps) and
    either returns a value or raises a Python exception. *)

From Stdlib Require Import ZArith String Ascii List DecimalString Lia Bool.
From stdpp Require Import base option gmap strings list.

Open Scope string_scope.
Open Scope Z_scope.

(* ===================================================================== *)
(** ** Python builtins used by the code *)
(* ===================================================================== *)

Module Py.

(** A value of type [Any] as the code receives it from a decoded JSON
    document.  The code observes such a value through [bool(v)] and
    [str(v)] only, so floats, lists and dictionaries are kept as [PObj]:
    their truth value and their rendering, which is never empty
    (["0.0"], ["[]"], ["{}"] at the least). *)
Inductive pyval : Type :=
| PNone
| PBool (b : bool)
| PInt (z : Z)
| PStr (s : string)
| PObj (truthy : bool) (str_head : ascii) (str_tail : string).

(** [len(s)] *)
Definition len (s : string) : Z := Z.of_nat (String.length s).

(** [bool(s)] for a [str]: the empty string is falsy. *)
Definition str_truthy (s : string) : bool :=
  match s with
  | EmptyString => false
  | String _ _ => true
  end.

(** [bool(o)] for an [Optional[str]]. *)
Definition opt_truthy (o : option string) : bool :=
  match o with
  | Some s => str_truthy s
  | None => false
  end.

(** [str(z)] for an [int]. *)
Definition str_of_int (z : Z) : string := NilZero.string_of_int (Z.to_int z).

(** [bool(v)] *)
Definition truthy (v : pyval) : bool :=
  match v with
  | PNone => false
  | PBool b => b
  | PInt z => negb (z =? 0)
  | PStr s => str_truthy s
  | PObj t _ _ => t
  end.

(** [str(v)] *)
Definition str (v : pyval) : string :=
  match v with
  | PNone => "None"
  | PBool true => "True"
  | PBool false => "False"
  | PInt z => str_of_int z
  | PStr s => s
  | PObj _ c s => String c s
  end.

(** [s[:n]] *)
Definition slice_to (n : nat) (s : string) : string := String.substring 0 n s.

(** [s.startswith(p)] *)
Definition startswith (p s : string) : bool := String.prefix p s.

(** [s.rstrip('/')]: drop every trailing slash. *)
Fixpoint rstrip_slash (s : string) : string :=
  match s with
  | EmptyString => EmptyString
  | String c s' =>
      match rstrip_slash s' with
      | EmptyString => if Ascii.eqb c "/" then EmptyString else String c EmptyString
      | r => String c r
      end
  end.

(** [s.split(" ")]: the pieces between single spaces (never an empty list). *)
Fixpoint split_space (s : string) : list string :=
  match s with
  | EmptyString => [EmptyString]
  | String c s' =>
      if Ascii.eqb c " " then EmptyString :: split_space s'
      else match split_space s' with
           | piece :: rest => String c piece :: rest
           | [] => [String c EmptyString]
           end
  end.

(** Insertion into a list kept in increasing order of [String.leb], the
    code-point order Python uses to compare strings. *)
Fixpoint insert_sorted (x : string) (l : list string) : list string :=
  match l with
  | [] => [x]
  | y :: l' => if String.leb x y then x :: y :: l' else y :: insert_sorted x l'
  end.

(** [sorted(l)] *)
Definition sorted (l : list string) : list string :=
  fold_right insert_sorted [] l.

(** ["".join(l)] *)
Definition join (l : list string) : string :=
  fold_right String.append EmptyString l.

End Py.

(* ===================================================================== *)
(** ** SHA-1 ([hashlib.sha1(...).hexdigest()]), FIPS 180-4 *)
(* ===================================================================== *)

Module Sha1.

Definition mask32 (x : Z) : Z := Z.land x 4294967295.

Definition add32 (x y : Z) : Z := mask32 (x + y).

Definition rotl (n x : Z) : Z :=
  mask32 (Z.lor (Z.shiftl x n) (Z.shiftr x (32 - n))).

Definition not32 (x : Z) : Z := Z.lxor x 4294967295.

Definition byte_of (c : ascii) : Z := Z.of_N (N_of_ascii c).

Definition bytes_of (s : string) : list Z := map byte_of (list_ascii_of_string s).

(** Big-endian bytes of [x], [n] of them. *)
Fixpoint be_bytes (n : nat) (x : Z) : list Z :=
  match n with
  | O => []
  | S n' => Z.land (Z.shiftr x (8 * Z.of_nat n')) 255 :: be_bytes n' x
  end.

(** The message followed by the bit 1, zeros up to 56 modulo 64 and the
    bit length on 64 bits. *)
Definition pad (msg : list Z) : list Z :=
  let l := Z.of_nat (List.length msg) in
  let zeros := Z.to_nat ((55 - l) mod 64) in
  msg ++ 128 :: repeat 0 zeros ++ be_bytes 8 (8 * l).

Fixpoint words_of (fuel : nat) (bs : list Z) : list Z :=
  match fuel, bs with
  | S f, b0 :: b1 :: b2 :: b3 :: rest =>
      (Z.shiftl b0 24 + Z.shiftl b1 16 + Z.shiftl b2 8 + b3) :: words_of f rest
  | _, _ => []
  end.

(** The message schedule, most recent word first: [rev_w] holds
    [w[t-1]; w[t-2]; ...]. *)
Fixpoint schedule (n : nat) (rev_w : list Z) : list Z :=
  match n with
  | O => rev_w
  | S n' =>
      let w := rotl 1 (Z.lxor (Z.lxor (nth 2 rev_w 0) (nth 7 rev_w 0))
                              (Z.lxor (nth 13 rev_w 0) (nth 15 rev_w 0))) in
      schedule n' (w :: rev_w)
  end.

Definition hash_state : Type := (Z * Z * Z * Z * Z)%type.

Definition round (t : Z) (w : Z) (st : hash_state) : hash_state :=
  let '(a, b, c, d, e) := st in
  let '(f, k) :=
    if t <? 20 then (Z.lor (Z.land b c) (Z.land (not32 b) d), 1518500249)
    else if t <? 40 then (Z.lxor (Z.lxor b c) d, 1859775393)
    else if t <? 60 then
      (Z.lor (Z.lor (Z.land b c) (Z.land b d)) (Z.land c d), 2400959708)
    else (Z.lxor (Z.lxor b c) d, 3395469782) in
  let temp := add32 (add32 (add32 (add32 (rotl 5 a) f) e) k) w in
  (temp, a, rotl 30 b, c, d).

Fixpoint rounds (t : Z) (ws : list Z) (st : hash_state) : hash_state :=
  match ws with
  | [] => st
  | w :: ws' => rounds (t + 1) ws' (round t w st)
  end.

Definition compress (h : hash_state) (block : list Z) : hash_state :=
  let w := rev (schedule 64 (rev (words_of 16 block))) in
  let '(h0, h1, h2, h3, h4) := h in
  let '(a, b, c, d, e) := rounds 0 w h in
  (add32 h0 a, add32 h1 b, add32 h2 c, add32 h3 d, add32 h4 e).

Fixpoint blocks (fuel : nat) (h : hash_state) (bs : list Z) : hash_state :=
  match fuel with
  | O => h
  | S f =>
      match bs with
      | [] => h
      | _ => blocks f (compress h (firstn 64 bs)) (skipn 64 bs)
      end
  end.

Definition initial : hash_state :=
  (1732584193, 4023233417, 2562383102, 271733878, 3285377520).

Definition hex_digit (d : Z) : ascii :=
  ascii_of_N (Z.to_N (if d <? 10 then 48 + d else 87 + d)).

Fixpoint hex_of (digits : nat) (x : Z) : string :=
  match digits with
  | O => EmptyString
  | S n => String (hex_digit (Z.land (Z.shiftr x (4 * Z.of_nat n)) 15)) (hex_of n x)
  end.

(** Modelled from the spec: the SHA1 hex digest of a string
    ([hashlib.sha1(s).hexdigest()]), computed as FIPS 180-4 defines it. *)
Definition sha1_hex (s : string) : string :=
  let bs := pad (bytes_of s) in
  let '(h0, h1, h2, h3, h4) := blocks (List.length bs) initial bs in
  hex_of 8 h0 +:+ hex_of 8 h1 +:+ hex_of 8 h2 +:+ hex_of 8 h3 +:+ hex_of 8 h4.

End Sha1.

(* ===================================================================== *)
(** ** Results of fallible code *)
(* ===================================================================== *)

(** A computation either returns or raises. *)
Inductive result (E A : Type) : Type :=
| Ok (a : A)
| Raise (e : E).

Arguments Ok {E A} a.
Arguments Raise {E A} e.

(* ===================================================================== *)
(** ** app/models/messages.py *)
(* ===================================================================== *)

Module ThreadInfo.

Record t : Type := Build { idOnExternalPlatform : option string }.

(** [validate_openid]; the [ValueError] message on failure. *)
Definition validate_openid (v : option string) : result string (option string) :=
  match v with
  | Some s =>
      if Py.str_truthy s && (Py.len s >? 128)
      then Raise "idOnExternalPlatform must be 128 characters or less"
      else Ok v
  | None => Ok v
  end.

End ThreadInfo.

Module MessageContent.

Record t : Type := Build {
  text : option string;
  type : option string;
  content : option string
}.

(** [validate_text_length], applied to [text] and to [content]. *)
Definition validate_text_length (v : option string) : result string (option string) :=
  match v with
  | Some s =>
      if Py.str_truthy s && (Py.len s >? 10000)
      then Raise "Message text must be 10000 characters or less"
      else Ok v
  | None => Ok v
  end.

End MessageContent.

Module RecipientInfo.

Record t : Type := Build { idOnExternalPlatform : option string }.

End RecipientInfo.

Module CXoneMessagePayload.

Record t : Type := Build {
  thread : option ThreadInfo.t;
  recipient : option RecipientInfo.t;
  message : option MessageContent.t;
  text : option string;
  content : option string;
  externalId : option string;
  openid : option string;
  metadata : option (gmap string Py.pyval)
}.

(** [Field(None, max_length=10000)] *)
Definition max_length_10000 (v : option string) : bool :=
  match v with
  | Some s => Py.len s <=? 10000
  | None => true
  end.

(** Model validation as run when the payload object is constructed from
    the field values read from the body: the validators of the nested models and the
    [max_length] constraints.  [Raise] carries the offending field. *)
Definition validate (self : t) : result string t :=
  match
    match thread self with
    | Some th => ThreadInfo.validate_openid (ThreadInfo.idOnExternalPlatform th)
    | None => Ok None
    end
  with
  | Raise _ => Raise "thread.idOnExternalPlatform"
  | Ok _ =>
      match
        match message self with
        | Some m => MessageContent.validate_text_length (MessageContent.text m)
        | None => Ok None
        end
      with
      | Raise _ => Raise "message.text"
      | Ok _ =>
          match
            match message self with
            | Some m => MessageContent.validate_text_length (MessageContent.content m)
            | None => Ok None
            end
          with
          | Raise _ => Raise "message.content"
          | Ok _ =>
              if negb (max_length_10000 (text self)) then Raise "text"
              else if negb (max_length_10000 (content self)) then Raise "content"
              else Ok self
          end
      end
  end.

(** [bool(self.metadata)]: a non-empty dictionary. *)
Definition dict_truthy (m : gmap string Py.pyval) : bool :=
  negb (bool_decide (m = ∅)).

Definition get_openid (self : t) : option string :=
  if match thread self with
     | Some th => Py.opt_truthy (ThreadInfo.idOnExternalPlatform th)
     | None => false
     end
  then thread self ≫= ThreadInfo.idOnExternalPlatform
  else if match recipient self with
          | Some r => Py.opt_truthy (RecipientInfo.idOnExternalPlatform r)
          | None => false
          end
  then recipient self ≫= RecipientInfo.idOnExternalPlatform
  else if Py.opt_truthy (externalId self)
  then externalId self
  else
    let after_metadata :=
      if Py.opt_truthy (openid self) then openid self else None in
    match metadata self with
    | Some md =>
        if dict_truthy md then
          match md !! "openid" with
          | Some v => if Py.truthy v then Some (Py.str v) else after_metadata
          | None => after_metadata
          end
        else after_metadata
    | None => after_metadata
    end.

Definition get_text (self : t) : option string :=
  let after_message :=
    if Py.opt_truthy (text self) then text self
    else if Py.opt_truthy (content self) then content self
    else None in
  match message self with
  | Some m =>
      if Py.opt_truthy (MessageContent.text m) then MessageContent.text m
      else if Py.opt_truthy (MessageContent.content m) then MessageContent.content m
      else after_message
  | None => after_message
  end.

(** The extraction order in the words of the specification: the candidate
    fields in priority order, the first usable one wins.  A candidate is
    usable when it is present and not empty. *)
Definition first_usable (candidates : list (option string)) : option string :=
  head (omap (fun c => if Py.opt_truthy c then c else None) candidates).

Definition metadata_openid (self : t) : option string :=
  md ← metadata self;
  v ← md !! "openid";
  if Py.truthy v then Some (Py.str v) else None.

Definition openid_candidates (self : t) : list (option string) :=
  [ thread self ≫= ThreadInfo.idOnExternalPlatform;
    recipient self ≫= RecipientInfo.idOnExternalPlatform;
    externalId self;
    metadata_openid self;
    openid self ].

Definition text_candidates (self : t) : list (option string) :=
  [ message self ≫= MessageContent.text;
    message self ≫= MessageContent.content;
    text self;
    content self ].

End CXoneMessagePayload.

(* ===================================================================== *)
(** ** app/exceptions.py, and the third-party exceptions the code handles *)
(* ===================================================================== *)

Module Exceptions.

(** The classes below [ApplicationError]. *)
Inductive app_class : Type :=
| ApplicationErrorC
| ValidationErrorC
| AuthenticationErrorC
| AuthorizationErrorC
| ExternalAPIErrorC
| CXoneAPIErrorC
| WeChatAPIErrorC
| MessageProcessingErrorC.

(** A value stored in [details]. *)
Inductive detail : Type :=
| DStr (s : string)
| DPayload (p : CXoneMessagePayload.t).

Inductive exn : Type :=
| AppError (cls : app_class) (message : string) (status_code : Z)
           (details : gmap string detail)
| HTTPStatusError (status_code : Z) (text : string)   (* httpx, with its response *)
| TimeoutException (msg : string)                     (* httpx *)
| NetworkError (msg : string)                         (* httpx *)
| RetryError (last_exception : string)                (* tenacity *)
| CircuitBreakerError (msg : string)                  (* pybreaker *)
| PyException (type_name : string) (msg : string).    (* any other Exception *)

(** [ApplicationError.__init__] *)
Definition ApplicationError_init (cls : app_class) (message : string)
    (status_code : Z) (details : option (gmap string detail)) : exn :=
  AppError cls message status_code (default ∅ details).

Definition ValidationError (message : string)
    (details : option (gmap string detail)) : exn :=
  ApplicationError_init ValidationErrorC message 400 details.

Definition AuthenticationError (message : string) : exn :=
  ApplicationError_init AuthenticationErrorC message 401 None.

(** [ExternalAPIError.__init__]: the service is recorded in the details. *)
Definition ExternalAPIError_init (cls : app_class) (message service : string)
    (status_code : Z) (details : option (gmap string detail)) : exn :=
  let details := default ∅ details in
  let details := <["service" := DStr service]> details in
  ApplicationError_init cls message status_code (Some details).

Definition ExternalAPIError (message service : string) (status_code : Z)
    (details : option (gmap string detail)) : exn :=
  ExternalAPIError_init ExternalAPIErrorC message service status_code details.

Definition CXoneAPIError (message : string) (status_code : Z)
    (details : option (gmap string detail)) : exn :=
  ExternalAPIError_init CXoneAPIErrorC message "CXone" status_code details.

Definition WeChatAPIError (message : string) (status_code : Z)
    (details : option (gmap string detail)) : exn :=
  ExternalAPIError_init WeChatAPIErrorC message "WeChat" status_code details.

Definition MessageProcessingError (message : string)
    (details : option (gmap string detail)) : exn :=
  ApplicationError_init MessageProcessingErrorC message 422 details.

Definition app_class_eqb (a b : app_class) : bool :=
  match a, b with
  | ApplicationErrorC, ApplicationErrorC
  | ValidationErrorC, ValidationErrorC
  | AuthenticationErrorC, AuthenticationErrorC
  | AuthorizationErrorC, AuthorizationErrorC
  | ExternalAPIErrorC, ExternalAPIErrorC
  | CXoneAPIErrorC, CXoneAPIErrorC
  | WeChatAPIErrorC, WeChatAPIErrorC
  | MessageProcessingErrorC, MessageProcessingErrorC => true
  | _, _ => false
  end.

(** [issubclass(sub, sup)] *)
Definition subclass (sub sup : app_class) : bool :=
  match sup with
  | ApplicationErrorC => true
  | ExternalAPIErrorC =>
      match sub with
      | ExternalAPIErrorC | CXoneAPIErrorC | WeChatAPIErrorC => true
      | _ => false
      end
  | _ => app_class_eqb sub sup
  end.

(** [isinstance(e, cls)] for a class of the application. *)
Definition isinstance (e : exn) (cls : app_class) : bool :=
  match e with
  | AppError c _ _ _ => subclass c cls
  | _ => false
  end.

(** [e.__class__.__name__] *)
Definition class_name (e : exn) : string :=
  match e with
  | AppError ApplicationErrorC _ _ _ => "ApplicationError"
  | AppError ValidationErrorC _ _ _ => "ValidationError"
  | AppError AuthenticationErrorC _ _ _ => "AuthenticationError"
  | AppError AuthorizationErrorC _ _ _ => "AuthorizationError"
  | AppError ExternalAPIErrorC _ _ _ => "ExternalAPIError"
  | AppError CXoneAPIErrorC _ _ _ => "CXoneAPIError"
  | AppError WeChatAPIErrorC _ _ _ => "WeChatAPIError"
  | AppError MessageProcessingErrorC _ _ _ => "MessageProcessingError"
  | HTTPStatusError _ _ => "HTTPStatusError"
  | TimeoutException _ => "TimeoutException"
  | NetworkError _ => "NetworkError"
  | RetryError _ => "RetryError"
  | CircuitBreakerError _ => "CircuitBreakerError"
  | PyException n _ => n
  end.

(** [str(e)].  The text httpx gives its status error, which names the
    reason phrase and the URL, is abbreviated to the status code. *)
Definition str (e : exn) : string :=
  match e with
  | AppError _ message _ _ => message
  | HTTPStatusError status _ => "HTTP status " +:+ Py.str_of_int status
  | TimeoutException msg => msg
  | NetworkError msg => msg
  | RetryError last => "RetryError[" +:+ last +:+ "]"
  | CircuitBreakerError msg => msg
  | PyException _ msg => msg
  end.

End Exceptions.

(* ===================================================================== *)
(** ** app/config.py *)
(* ===================================================================== *)

Module Settings.

Record t : Type := Build {
  client_id : string;
  client_secret : string;
  jwt_secret : string;
  wechat_appid : string;
  wechat_appsecret : string;
  wechat_token : string;
  wechat_encoding_aes_key : string;
  cxone_base_url : string;
  cxone_bearer_token : string;
  cxone_channel_id : string;
  mock_mode : bool;
  http_timeout : Z;
  http_max_retries : Z
}.

Definition with_wechat_encoding_aes_key (s : t) (key : string) : t :=
  Build (client_id s) (client_secret s) (jwt_secret s) (wechat_appid s)
        (wechat_appsecret s) (wechat_token s) key (cxone_base_url s)
        (cxone_bearer_token s) (cxone_channel_id s) (mock_mode s)
        (http_timeout s) (http_max_retries s).

(** The defaults of the optional settings. *)
Definition default_wechat_encoding_aes_key : string := "".
Definition default_mock_mode : bool := false.
Definition default_http_timeout : Z := 30.
Definition default_http_max_retries : Z := 3.

End Settings.

(* ===================================================================== *)
(** ** Run-time objects, the environment and the effect monad *)
(* ===================================================================== *)

(** [httpx.Response], as far as the code reads it. *)
Module Response.
Record t : Type := Build { status_code : Z; text : string }.
End Response.

(** The keyword arguments [CXoneClient.post_message] hands to
    [BaseHTTPClient.post]: the JSON envelope and the headers. *)
Module RequestKwargs.
Record t : Type := Build {
  thread_idOnExternalPlatform : string;
  message_text : string;
  message_type : string;
  direction : string;
  headers : list (string * string)
}.
End RequestKwargs.

(** A message parsed by [wechatpy.parse_message], as far as the code reads it. *)
Module WeChatMessage.
Record t : Type := Build {
  type : string;
  source : option string;
  content : option string;
  id : option Py.pyval
}.
End WeChatMessage.

(** The circuit breaker object ([pybreaker.CircuitBreaker]); the package is
    not part of the repository, so the breaker is the state machine of the
    specification (sections 3 and 4.1). *)
Module CircuitBreaker.

(** Modelled from the spec: the circuit state of [pybreaker], the enum
    {Closed, Open, HalfOpen}. *)
Inductive state : Type := Closed | Open | HalfOpen.

(** Modelled from the spec: the breaker object of [pybreaker]: the failure
    count that opens the circuit, the cool-down, the state, the count of
    consecutive failures and the time the circuit opened. *)
Record t : Type := Build {
  fail_max : Z;
  reset_timeout : Z;
  current : state;
  fail_counter : Z;
  opened_at : Z
}.

(** Modelled from the spec: the constructor of [pybreaker.CircuitBreaker];
    the circuit starts closed with no failure counted. *)
Definition init (fail_max reset_timeout : Z) : t :=
  Build fail_max reset_timeout Closed 0 0.

(** Modelled from the spec: the [current_state] property of the breaker,
    the name of the stored state.  The stored state changes only inside a
    guarded call ([PyBreaker.call_async]). *)
Definition current_state (cb : t) : string :=
  match current cb with
  | Closed => "closed"
  | Open => "open"
  | HalfOpen => "half-open"
  end.

Definition with_state (cb : t) (s : state) (counter opened : Z) : t :=
  Build (fail_max cb) (reset_timeout cb) s counter opened.

End CircuitBreaker.

(** [BaseHTTPClient] and its subclass [CXoneClient]: the attributes set by
    the constructors.  The circuit breaker the constructor creates is the
    one mutable part; the application builds a single transport (the CXone
    client singleton), whose breaker is a cell of the store below. *)
Module ClientObject.
Record t : Type := Build {
  base_url : string;
  timeout : Z;
  max_retries : Z;
  channel_id : string;
  bearer_token : string
}.
End ClientObject.

Module Runtime.

Import Exceptions.

Inductive event : Type :=
| Log (level name : string)                        (* a structured log record *)
| HttpRequest (method url : string) (kwargs : RequestKwargs.t)
                                                   (* httpx: one network attempt *)
| Sleep (seconds : Z)                              (* tenacity waits *)
| WeChatSendText (openid content : string)         (* wechatpy: one network call *)
| MockWeChatSend (openid content : string)         (* MockWeChatClient *)
| DecryptMessage (xml msg_signature timestamp nonce : string)
| ParseMessage (xml : string).

(** A network attempt or a call to the messaging platform. *)
Definition is_network (ev : event) : bool :=
  match ev with
  | HttpRequest _ _ _ | WeChatSendText _ _ => true
  | _ => false
  end.

(** What a call into a third-party library does: it returns, or raises an
    exception of the library, given by its type name and message. *)
Definition lib_outcome (A : Type) : Type := result (string * string) A.

(** What one [httpx] request does. *)
Inductive net_outcome : Type :=
| NetResponse (status_code : Z) (text : string)
| NetTimeout (msg : string)
| NetNetworkError (msg : string)
| NetError (type_name msg : string).

(** What [response.json()] yields. *)
Inductive json : Type :=
| JsonDict (d : gmap string Py.pyval)
| JsonOther (v : Py.pyval).

(** What [jwt.decode] does. *)
Inductive jwt_outcome : Type :=
| JwtPayload (claims : gmap string Py.pyval)
| JwtExpiredSignatureError
| JwtInvalidTokenError
| JwtError (type_name msg : string).

(** The world outside the repository: the network and the libraries.
    The network answers the n-th attempt of the process with
    [http_request n]. *)
Record env : Type := Env {
  (* httpx: [self.client.request(...)], [response.json()] *)
  http_request : nat -> net_outcome;
  response_json : string -> lib_outcome json;
  (* wechatpy: [client.message.send_text(openid, content)],
     [WeChatCrypto(token, encoding_aes_key, appid)],
     [crypto.decrypt_message(xml, msg_signature, timestamp, nonce)],
     [parse_message(xml)] *)
  wechat_send_text : string -> string -> lib_outcome (gmap string Py.pyval);
  wechat_crypto_init : string -> string -> string -> lib_outcome unit;
  decrypt_message : string -> string -> string -> string -> lib_outcome string;
  parse_message : string -> lib_outcome WeChatMessage.t;
  (* [body_bytes.decode('utf-8')]: the text, or UnicodeDecodeError *)
  decode_utf8 : string -> lib_outcome string;
  (* PyJWT: [jwt.decode(token, secret, algorithms=["HS256"])] *)
  jwt_decode : string -> string -> jwt_outcome;
  (* [str(uuid.uuid4())], the n-th identifier generated by the process *)
  uuid4 : nat -> string
}.

(** The mutable state of the process: the clock, the module-level
    singletons and the counters of the calls made so far. *)
Record store : Type := Store {
  now : Z;
  net_attempts : nat;
  uuid_calls : nat;
  _cxone_client : option ClientObject.t;
  circuit_breaker : CircuitBreaker.t;
  _wechat_client : bool;                       (* the wrapper exists *)
  _mock_wechat_client : option (list (string * string))   (* sent_messages *)
}.

Definition set_now (s : store) (v : Z) : store :=
  Store v (net_attempts s) (uuid_calls s) (_cxone_client s)
        (circuit_breaker s) (_wechat_client s) (_mock_wechat_client s).

Definition set_net_attempts (s : store) (v : nat) : store :=
  Store (now s) v (uuid_calls s) (_cxone_client s)
        (circuit_breaker s) (_wechat_client s) (_mock_wechat_client s).

Definition set_uuid_calls (s : store) (v : nat) : store :=
  Store (now s) (net_attempts s) v (_cxone_client s)
        (circuit_breaker s) (_wechat_client s) (_mock_wechat_client s).

Definition set_cxone_client (s : store) (v : option ClientObject.t) : store :=
  Store (now s) (net_attempts s) (uuid_calls s) v
        (circuit_breaker s) (_wechat_client s) (_mock_wechat_client s).

Definition set_circuit_breaker (s : store) (v : CircuitBreaker.t) : store :=
  Store (now s) (net_attempts s) (uuid_calls s) (_cxone_client s)
        v (_wechat_client s) (_mock_wechat_client s).

Definition set_wechat_client (s : store) (v : bool) : store :=
  Store (now s) (net_attempts s) (uuid_calls s) (_cxone_client s)
        (circuit_breaker s) v (_mock_wechat_client s).

Definition set_mock_wechat_client (s : store)
    (v : option (list (string * string))) : store :=
  Store (now s) (net_attempts s) (uuid_calls s) (_cxone_client s)
        (circuit_breaker s) (_wechat_client s) v.

(** The store of a process that has just started. *)
Definition initial_store : store :=
  Store 0 0 0 None (CircuitBreaker.init 5 60) false None.

(** Effectful code: from a store to the events emitted, the new store and
    the outcome. *)
Definition M (A : Type) : Type := store -> list event * store * result exn A.

Definition ret {A} (a : A) : M A := fun s => ([], s, Ok a).

Definition raise {A} (e : exn) : M A := fun s => ([], s, Raise e).

Definition bind {A B} (m : M A) (k : A -> M B) : M B :=
  fun s =>
    match m s with
    | (tr, s', Ok a) =>
        match k a s' with
        | (tr', s'', r) => ((tr ++ tr')%list, s'', r)
        end
    | (tr, s', Raise e) => (tr, s', Raise e)
    end.

(** [try: body except ... as e: handler e]; a handler that does not take
    the exception re-raises it. *)
Definition try_except {A} (body : M A) (handler : exn -> M A) : M A :=
  fun s =>
    match body s with
    | (tr, s', Raise e) =>
        match handler e s' with
        | (tr', s'', r) => ((tr ++ tr')%list, s'', r)
        end
    | done => done
    end.

Definition emit (ev : event) : M unit := fun s => ([ev], s, Ok tt).

Definition log (level name : string) : M unit := emit (Log level name).

Definition get_store : M store := fun s => ([], s, Ok s).

(** Run [m] and hand its outcome over as a value. *)
Definition attempt {A} (m : M A) : M (result exn A) :=
  fun s =>
    match m s with
    | (tr, s', r) => (tr, s', Ok r)
    end.

Definition modify (f : store -> store) : M unit := fun s => ([], f s, Ok tt).

(** The outcome of a library call, raised or returned. *)
Definition lift {A} (o : lib_outcome A) : M A :=
  match o with
  | Ok a => ret a
  | Raise (type_name, msg) => raise (PyException type_name msg)
  end.

(** [await asyncio.sleep(seconds)] *)
Definition sleep (seconds : Z) : M unit :=
  fun s => ([Sleep seconds], set_now s (now s + seconds), Ok tt).

Definition events {A} (r : list event * store * result exn A) : list event :=
  fst (fst r).

Definition final {A} (r : list event * store * result exn A) : store :=
  snd (fst r).

Definition outcome {A} (r : list event * store * result exn A) : result exn A :=
  snd r.

(** The same run with [tr] emitted first. *)
Definition prepend_events {A} (tr : list event)
    (r : list event * store * result exn A) : list event * store * result exn A :=
  ((tr ++ events r)%list, final r, outcome r).

Declare Scope py_scope.
Delimit Scope py_scope with py.
Notation "x <- m ;; k" := (bind m (fun x => k))
  (at level 20, m at level 99, k at level 200, only parsing) : py_scope.
Notation "m ;; k" := (bind m (fun _ => k))
  (at level 100, k at level 200, right associativity, only parsing) : py_scope.

End Runtime.

(* ===================================================================== *)
(** ** The guarded call of [pybreaker] *)
(* ===================================================================== *)

Module PyBreaker.

Import Exceptions Runtime.
Local Open Scope py_scope.

(** Modelled from the spec: a transition of the [pybreaker] breaker; the
    new state is stored and the listeners are notified of the change. *)
Definition transition (listener : string -> M unit)
    (s : CircuitBreaker.state) (counter opened : Z) : M unit :=
  modify (fun st =>
    set_circuit_breaker st
      (CircuitBreaker.with_state (circuit_breaker st) s counter opened)) ;;
  st' <- get_store ;;
  listener (CircuitBreaker.current_state (circuit_breaker st')).

(** Modelled from the spec: the count of consecutive failures is updated. *)
Definition set_counter (counter : Z) : M unit :=
  modify (fun st =>
    let cb := circuit_breaker st in
    set_circuit_breaker st
      (CircuitBreaker.with_state cb (CircuitBreaker.current cb) counter
         (CircuitBreaker.opened_at cb))).

(** Modelled from the spec: the guarded call of [pybreaker] while the
    circuit is closed.  A success clears the count; a failure is counted,
    and the failure that reaches [fail_max] opens the circuit, the breaker
    raising its own error in place of the failure. *)
Definition call_closed {A} (listener : string -> M unit) (func : M A) : M A :=
  r <- attempt func ;;
  match r with
  | Ok a => set_counter 0 ;; ret a
  | Raise e =>
      st <- get_store ;;
      let cb := circuit_breaker st in
      let counter := CircuitBreaker.fail_counter cb + 1 in
      if CircuitBreaker.fail_max cb <=? counter then
        transition listener CircuitBreaker.Open counter (now st) ;;
        raise (CircuitBreakerError "Failures threshold reached, circuit breaker opened")
      else
        set_counter counter ;; raise e
  end.

(** Modelled from the spec: the trial call of [pybreaker] in the half-open
    state.  A success closes the circuit, a failure reopens it with a fresh
    cool-down window. *)
Definition call_half_open {A} (listener : string -> M unit) (func : M A) : M A :=
  r <- attempt func ;;
  match r with
  | Ok a => transition listener CircuitBreaker.Closed 0 0 ;; ret a
  | Raise e =>
      st <- get_store ;;
      let cb := circuit_breaker st in
      transition listener CircuitBreaker.Open
        (CircuitBreaker.fail_counter cb + 1) (now st) ;;
      raise (CircuitBreakerError "Trial call failed, circuit breaker opened")
  end.

(** Modelled from the spec: [call_async] of [pybreaker], the guarded call.
    With the circuit open it refuses until the cool-down has elapsed, then
    moves to half-open and lets one trial call through. *)
Definition call_async {A} (listener : string -> M unit) (func : M A) : M A :=
  st <- get_store ;;
  let cb := circuit_breaker st in
  match CircuitBreaker.current cb with
  | CircuitBreaker.Closed => call_closed listener func
  | CircuitBreaker.Open =>
      if now st <? CircuitBreaker.opened_at cb + CircuitBreaker.reset_timeout cb then
        raise (CircuitBreakerError "Timeout not elapsed yet, circuit breaker still open")
      else
        transition listener CircuitBreaker.HalfOpen
          (CircuitBreaker.fail_counter cb) (CircuitBreaker.opened_at cb) ;;
        call_half_open listener func
  | CircuitBreaker.HalfOpen => call_half_open listener func
  end.

End PyBreaker.

(* ===================================================================== *)
(** ** app/clients/base.py *)
(* ===================================================================== *)

Module BaseHTTPClient.

Import Exceptions Runtime.
Local Open Scope py_scope.

(** The defaults of the constructor's keyword arguments. *)
Definition default_circuit_breaker_failure_threshold : Z := 5.
Definition default_circuit_breaker_timeout : Z := 60.

(** [x or y] on an optional integer. *)
Definition or_int (x : option Z) (y : Z) : Z :=
  match x with
  | Some v => if v =? 0 then y else v
  | None => y
  end.

(** The response httpx returns, or the exception it raises. *)
Definition net_result (o : net_outcome) : result exn Response.t :=
  match o with
  | NetResponse code text => Ok (Response.Build code text)
  | NetTimeout msg => Raise (TimeoutException msg)
  | NetNetworkError msg => Raise (NetworkError msg)
  | NetError type_name msg => Raise (PyException type_name msg)
  end.

(** A network attempt that ends in an exception: what the circuit breaker,
    wrapped around the request alone, counts as a failure. *)
Definition is_failure (o : net_outcome) : bool :=
  match o with
  | NetResponse _ _ => false
  | _ => true
  end.

(** A network attempt that ends in one of the two exceptions the retry
    predicate accepts. *)
Definition is_retryable (o : net_outcome) : bool :=
  match o with
  | NetTimeout _ | NetNetworkError _ => true
  | _ => false
  end.

Section WithEnv.

Context (E : env) (settings : Settings.t).

(** [__init__]: the attributes, and a fresh circuit breaker. *)
Definition init (base_url : string) (timeout max_retries : option Z)
    (circuit_breaker_failure_threshold circuit_breaker_timeout : Z)
  : M ClientObject.t :=
  modify (fun st =>
    set_circuit_breaker st
      (CircuitBreaker.init circuit_breaker_failure_threshold
         circuit_breaker_timeout)) ;;
  ret (ClientObject.Build
         (Py.rstrip_slash base_url)
         (or_int timeout (Settings.http_timeout settings))
         (or_int max_retries (Settings.http_max_retries settings))
         "" "").

Definition _circuit_breaker_listener (self : ClientObject.t) (state : string)
  : M unit :=
  log "warning" "circuit_breaker_state_change".

(** [self.client.request(method=..., url=..., **kwargs)]: one network
    attempt, answered by the environment. *)
Definition client_request (self : ClientObject.t) (method url : string)
    (kwargs : RequestKwargs.t) : M Response.t :=
  fun st =>
    let n := net_attempts st in
    ([HttpRequest method url kwargs], set_net_attempts st (S n),
     net_result (http_request E n)).

(** [response.is_success] of httpx: a status code from 200 to 299. *)
Definition is_success (response : Response.t) : bool :=
  (200 <=? Response.status_code response)
  && (Response.status_code response <=? 299).

(** [response.raise_for_status()] of httpx: it returns for a successful
    response and raises [HTTPStatusError] for every other status code, an
    informational or a redirect one as well as a 4xx or a 5xx. *)
Definition raise_for_status (response : Response.t) : M unit :=
  if is_success response then ret tt
  else raise (HTTPStatusError (Response.status_code response)
                              (Response.text response)).

(** The body of the inner function [_make_request]: one attempt. *)
Definition _make_request (self : ClientObject.t) (method url : string)
    (kwargs : RequestKwargs.t) : M Response.t :=
  try_except
    (st <- get_store ;;
     if String.eqb (CircuitBreaker.current_state (circuit_breaker st)) "open"
     then
       raise (ExternalAPIError
                ("Circuit breaker is open for " +:+ ClientObject.base_url self)
                (ClientObject.base_url self) 503 None)
     else
       response <- PyBreaker.call_async (_circuit_breaker_listener self)
                     (client_request self method url kwargs) ;;
       raise_for_status response ;;
       ret response)
    (fun e =>
       match e with
       | HTTPStatusError status_code text =>
           if (400 <=? status_code) && (status_code <? 500) then
             raise (ExternalAPIError
                      ("Client error from " +:+ ClientObject.base_url self
                         +:+ ": " +:+ Py.str_of_int status_code)
                      (ClientObject.base_url self) status_code
                      (Some {[ "response" := DStr (Py.slice_to 500 text) ]}))
           else raise e
       | TimeoutException _ | NetworkError _ =>
           log "warning" "http_request_failed" ;; raise e
       | RetryError last_exception =>
           raise (ExternalAPIError
                    ("Request to " +:+ ClientObject.base_url self
                       +:+ " failed after "
                       +:+ Py.str_of_int (ClientObject.max_retries self)
                       +:+ " retries")
                    (ClientObject.base_url self) 502
                    (Some {[ "last_exception" := DStr last_exception ]}))
       | _ => raise e
       end).

(** [retry_if_exception_type((httpx.TimeoutException, httpx.NetworkError))] *)
Definition retry_if_exception_type (e : exn) : bool :=
  match e with
  | TimeoutException _ | NetworkError _ => true
  | _ => false
  end.

(** [wait_exponential(multiplier=1, min=2, max=10)] before the attempt
    that follows attempt [attempt_number]. *)
Definition wait_exponential (attempt_number : Z) : Z :=
  Z.max (Z.max 0 2) (Z.min (1 * 2 ^ (attempt_number - 1)) 10).

(** The [@retry] decorator with [stop_after_attempt] and [reraise=True]:
    [retries_left] is the number of attempts still allowed after this
    one.  An exception the predicate rejects propagates at once; when
    the attempts are used up the last exception is raised again. *)
Fixpoint retry {A} (retries_left : nat) (attempt_number : Z) (func : M A)
  : M A :=
  try_except func
    (fun e =>
       if retry_if_exception_type e then
         match retries_left with
         | O => raise e
         | S n =>
             sleep (wait_exponential attempt_number) ;;
             retry n (attempt_number + 1) func
         end
       else raise e).

Definition _request_with_retry (self : ClientObject.t) (method url : string)
    (kwargs : RequestKwargs.t) : M Response.t :=
  retry (Z.to_nat (ClientObject.max_retries self - 1)) 1
    (_make_request self method url kwargs).

Definition post (self : ClientObject.t) (url : string)
    (kwargs : RequestKwargs.t) : M Response.t :=
  _request_with_retry self "POST" url kwargs.

(** The store after [k] attempts in a row, whatever their outcomes. *)
Fixpoint after_attempts (k : nat) (self : ClientObject.t)
    (method url : string) (kwargs : RequestKwargs.t) (st : store) : store :=
  match k with
  | O => st
  | S k' =>
      after_attempts k' self method url kwargs
        (final (_make_request self method url kwargs st))
  end.

Definition get (self : ClientObject.t) (url : string)
    (kwargs : RequestKwargs.t) : M Response.t :=
  _request_with_retry self "GET" url kwargs.

End WithEnv.

End BaseHTTPClient.

(* ===================================================================== *)
(** ** app/clients/cxone_client.py *)
(* ===================================================================== *)

Module CXoneClient.

Import Exceptions Runtime.
Local Open Scope py_scope.

Section WithEnv.

Context (E : env) (settings : Settings.t).

(** [CXoneClient.__init__] *)
Definition init : M ClientObject.t :=
  base <- BaseHTTPClient.init settings
            (Settings.cxone_base_url settings)
            (Some (Settings.http_timeout settings)) None
            BaseHTTPClient.default_circuit_breaker_failure_threshold
            BaseHTTPClient.default_circuit_breaker_timeout ;;
  ret (ClientObject.Build
         (ClientObject.base_url base) (ClientObject.timeout base)
         (ClientObject.max_retries base)
         (Settings.cxone_channel_id settings)
         (Settings.cxone_bearer_token settings)).

(** [result.get("id")] *)
Definition json_get (result : json) (key : string) : M (option Py.pyval) :=
  match result with
  | JsonDict d => ret (d !! key)
  | JsonOther _ => raise (PyException "AttributeError" "object has no attribute 'get'")
  end.

Definition post_message (self : ClientObject.t) (openid text : string)
  : M json :=
  if negb (Py.str_truthy openid) then
    raise (MessageProcessingError "openid is required" None)
  else if negb (Py.str_truthy text) then
    raise (MessageProcessingError "message text is required" None)
  else
    let url := "/channels/" +:+ ClientObject.channel_id self +:+ "/messages" in
    let payload_and_headers :=
      RequestKwargs.Build openid text "text" "inbound"
        [ ("Authorization", "Bearer " +:+ ClientObject.bearer_token self);
          ("Content-Type", "application/json") ] in
    try_except
      (log "info" "posting_message_to_cxone" ;;
       response <- BaseHTTPClient.post E self url payload_and_headers ;;
       result <- lift (response_json E (Response.text response)) ;;
       _ <- json_get result "id" ;;
       log "info" "message_posted_to_cxone" ;;
       ret result)
      (fun e =>
         log "error" "failed_to_post_to_cxone" ;;
         if isinstance e CXoneAPIErrorC then raise e
         else
           raise (CXoneAPIError
                    ("Failed to post message to CXone: " +:+ Exceptions.str e)
                    502
                    (Some {[ "openid" := DStr openid;
                             "error" := DStr (Exceptions.str e) ]}))).

(** The module-level singleton. *)
Definition get_cxone_client : M ClientObject.t :=
  st <- get_store ;;
  match _cxone_client st with
  | None =>
      client <- init ;;
      modify (fun st => set_cxone_client st (Some client)) ;;
      ret client
  | Some client => ret client
  end.

End WithEnv.

End CXoneClient.

(* ===================================================================== *)
(** ** app/mock_clients.py and app/clients/wechat_client.py *)
(* ===================================================================== *)

Module MockWeChatClient.

Import Exceptions Runtime.
Local Open Scope py_scope.

(** [get_mock_wechat_client]: creates the mock singleton on first use. *)
Definition get_mock_wechat_client : M unit :=
  modify (fun st =>
    match _mock_wechat_client st with
    | None => set_mock_wechat_client st (Some [])
    | Some _ => st
    end).

(** [MockWeChatClient.send_text_message]: records the message. *)
Definition send_text_message (openid content : string)
  : M (gmap string Py.pyval) :=
  st <- get_store ;;
  let sent_messages :=
    (default [] (_mock_wechat_client st) ++ [(openid, content)])%list in
  modify (fun st => set_mock_wechat_client st (Some sent_messages)) ;;
  emit (MockWeChatSend openid content) ;;
  ret ({[ "errcode" := Py.PInt 0;
          "errmsg" := Py.PStr "ok";
          "msgid" := Py.PStr ("mock_msgid_"
                       +:+ Py.str_of_int (Z.of_nat (List.length sent_messages))) ]}
       : gmap string Py.pyval).

End MockWeChatClient.

Module WeChatClient.

Import Exceptions Runtime.
Local Open Scope py_scope.

(** What [get_wechat_client] returns. *)
Inductive client : Type :=
| WeChatClientWrapper
| MockWeChatClientWrapper.

Section WithEnv.

Context (E : env) (settings : Settings.t).

(** [WeChatClientWrapper.send_text_message] *)
Definition wrapper_send_text_message (openid content : string)
  : M (gmap string Py.pyval) :=
  if negb (Py.str_truthy openid) then
    raise (MessageProcessingError "openid is required" None)
  else if negb (Py.str_truthy content) then
    raise (MessageProcessingError "message content is required" None)
  else if Py.len content >? 10000 then
    raise (MessageProcessingError "message content exceeds 10000 characters" None)
  else
    try_except
      (log "info" "sending_wechat_message" ;;
       emit (WeChatSendText openid content) ;;
       result <- lift (wechat_send_text E openid content) ;;
       log "info" "wechat_message_sent" ;;
       ret result)
      (fun e =>
         log "error" "failed_to_send_wechat_message" ;;
         if isinstance e WeChatAPIErrorC then raise e
         else
           raise (WeChatAPIError
                    ("Failed to send message to WeChat: " +:+ Exceptions.str e)
                    502
                    (Some {[ "openid" := DStr openid;
                             "error" := DStr (Exceptions.str e) ]}))).

Definition get_wechat_client : M client :=
  if Settings.mock_mode settings then
    MockWeChatClient.get_mock_wechat_client ;;
    ret MockWeChatClientWrapper
  else
    modify (fun st => set_wechat_client st true) ;;
    ret WeChatClientWrapper.

(** [client.send_text_message(openid, content)] on either wrapper. *)
Definition client_send_text_message (c : client) (openid content : string)
  : M (gmap string Py.pyval) :=
  match c with
  | WeChatClientWrapper => wrapper_send_text_message openid content
  | MockWeChatClientWrapper => MockWeChatClient.send_text_message openid content
  end.

(** The module-level [send_text_message]. *)
Definition send_text_message (openid content : string)
  : M (gmap string Py.pyval) :=
  c <- get_wechat_client ;;
  client_send_text_message c openid content.

End WithEnv.

End WeChatClient.

(* ===================================================================== *)
(** ** The responses of the web framework *)
(* ===================================================================== *)

Module Http.

Inductive content : Type :=
| Empty
| PlainText (text : string)
| MessageResponse (idOnExternalPlatform : string)
| ErrorJson (error message : string) (details : gmap string Exceptions.detail).

Record response : Type := Build { status_code : Z; body : content }.

(** [Response(status_code=...)]: no body. *)
Definition Response (status_code : Z) : response := Build status_code Empty.

(** [PlainTextResponse(content=...)] *)
Definition PlainTextResponse (text : string) : response :=
  Build 200 (PlainText text).

(** [JSONResponse(status_code=..., content={error, message, details})] *)
Definition JSONResponse (status_code : Z) (error message : string)
    (details : gmap string Exceptions.detail) : response :=
  Build status_code (ErrorJson error message details).

End Http.

(* ===================================================================== *)
(** ** app/auth.py *)
(* ===================================================================== *)

Module Auth.

Import Exceptions Runtime.
Local Open Scope py_scope.

Section WithEnv.

Context (E : env) (settings : Settings.t).

Definition verify_token (token : string) : M (option (gmap string Py.pyval)) :=
  match jwt_decode E token (Settings.jwt_secret settings) with
  | JwtPayload claims => ret (Some claims)
  | JwtExpiredSignatureError => ret None
  | JwtInvalidTokenError => ret None
  | JwtError type_name msg => raise (PyException type_name msg)
  end.

End WithEnv.

End Auth.

(* ===================================================================== *)
(** ** app/routes/wechat.py *)
(* ===================================================================== *)

Module WeChatRoutes.

Import Exceptions Runtime.
Local Open Scope py_scope.

(** The request object: the query string and the raw body. *)
Record Request : Type := BuildRequest {
  query_params : gmap string string;
  body : string
}.

(** Modelled from the spec: [check_signature] of [wechatpy.utils], a
    library that is not part of the repository.  The verifier sorts token,
    timestamp and nonce lexicographically, concatenates them, takes the SHA1
    hex digest and compares it to the signature; it answers with a boolean,
    as the handlers use it. *)
Definition check_signature (token signature timestamp nonce : string) : bool :=
  String.eqb (Sha1.sha1_hex (Py.join (Py.sorted [token; timestamp; nonce])))
             signature.

Section WithEnv.

Context (E : env) (settings : Settings.t).

Definition wechat_webhook_get (signature timestamp nonce echostr : string)
  : M Http.response :=
  try_except
    (let is_valid :=
       check_signature (Settings.wechat_token settings)
         signature timestamp nonce in
     if is_valid then
       log "info" "wechat_webhook_validated" ;;
       ret (Http.PlainTextResponse echostr)
     else
       log "warning" "invalid_wechat_signature" ;;
       raise (ValidationError "Invalid WeChat signature" None))
    (fun e =>
       if isinstance e ValidationErrorC then raise e
       else
         log "error" "wechat_signature_validation_error" ;;
         raise (ValidationError "Signature validation failed" None)).

(** Lines 96-122 of [wechat_webhook_post], the decryption block: it
    runs only when an encoding AES key is configured and yields the XML
    to parse. *)
Definition decrypt_if_configured (request : Request)
    (timestamp nonce xml_content : string) : M string :=
  if Py.str_truthy (Settings.wechat_encoding_aes_key settings) then
    lift (wechat_crypto_init E (Settings.wechat_token settings)
            (Settings.wechat_encoding_aes_key settings)
            (Settings.wechat_appid settings)) ;;
    let msg_signature := default "" (query_params request !! "msg_signature") in
    try_except
      (emit (DecryptMessage xml_content msg_signature timestamp nonce) ;;
       decrypted_xml <-
         lift (decrypt_message E xml_content msg_signature timestamp nonce) ;;
       log "debug" "wechat_message_decrypted" ;;
       ret decrypted_xml)
      (fun e =>
         log "error" "wechat_decryption_failed" ;;
         ret xml_content)
  else ret xml_content.

(** Lines 149-175 of [wechat_webhook_post]: the post to CXone inside
    its [try], with both [except] clauses. *)
Definition forward_to_cxone (openid text : string) : M unit :=
  try_except
    (cxone_client <- CXoneClient.get_cxone_client settings ;;
     result <- CXoneClient.post_message E cxone_client openid text ;;
     _ <- CXoneClient.json_get result "id" ;;
     log "info" "wechat_message_forwarded_to_cxone")
    (fun e =>
       if isinstance e CXoneAPIErrorC then
         log "error" "failed_to_post_to_cxone"
       else
         log "error" "unexpected_error_posting_to_cxone").

(** Lines 124-184 of [wechat_webhook_post]: the message is parsed; a text
    message with a sender and a text is forwarded, anything else is only
    logged; the answer is a bare 200 either way. *)
Definition parse_and_forward (xml_content : string) : M Http.response :=
  emit (ParseMessage xml_content) ;;
  msg <- lift (parse_message E xml_content) ;;
  log "info" "wechat_message_received" ;;
  if String.eqb (WeChatMessage.type msg) "text" then
    let openid := WeChatMessage.source msg in
    let text := WeChatMessage.content msg in
    match openid, text with
    | Some openid', Some text' =>
        if negb (Py.str_truthy openid') || negb (Py.str_truthy text')
        then
          log "warning" "invalid_wechat_message" ;;
          ret (Http.Response 200)
        else
          forward_to_cxone openid' text' ;;
          ret (Http.Response 200)
    | _, _ =>
        log "warning" "invalid_wechat_message" ;;
        ret (Http.Response 200)
    end
  else
    log "info" "unsupported_message_type" ;;
    ret (Http.Response 200).

Definition wechat_webhook_post (request : Request)
    (signature timestamp nonce : string) : M Http.response :=
  try_except
    (let is_valid :=
       check_signature (Settings.wechat_token settings)
         signature timestamp nonce in
     if negb is_valid then
       log "warning" "invalid_wechat_signature" ;;
       raise (ValidationError "Invalid WeChat signature" None)
     else
       let body_bytes := body request in
       if Py.len body_bytes >? 100000 then
         raise (ValidationError "Request body too large" None)
       else
         xml_content <- lift (decode_utf8 E body_bytes) ;;
         xml_content <- decrypt_if_configured request timestamp nonce xml_content ;;
         parse_and_forward xml_content)
    (fun e =>
       if isinstance e ValidationErrorC then raise e
       else
         log "exception" "wechat_webhook_processing_error" ;;
         ret (Http.Response 200)).

End WithEnv.

End WeChatRoutes.

(* ===================================================================== *)
(** ** app/routes/byoc.py *)
(* ===================================================================== *)

Module ByocRoutes.

Import Exceptions Runtime.
Local Open Scope py_scope.

(** The request object: what [await request.json()] yields, as the field
    values the payload model is built from. *)
Record Request : Type := BuildRequest {
  json_body : lib_outcome CXoneMessagePayload.t
}.

Section WithEnv.

Context (E : env) (settings : Settings.t).

Definition get_bearer_token (authorization : option string) : M string :=
  match authorization with
  | Some header =>
      if negb (Py.str_truthy header) || negb (Py.startswith "Bearer " header)
      then raise (AuthenticationError "Missing or invalid Authorization header")
      else
        let token := nth 1 (Py.split_space header) "" in
        if negb (Py.str_truthy token) then
          raise (AuthenticationError "Token is empty")
        else
          payload <- Auth.verify_token E settings token ;;
          match payload with
          | Some claims =>
              if CXoneMessagePayload.dict_truthy claims then ret token
              else raise (AuthenticationError "Invalid or expired token")
          | None => raise (AuthenticationError "Invalid or expired token")
          end
  | None => raise (AuthenticationError "Missing or invalid Authorization header")
  end.

(** [str(uuid.uuid4())] *)
Definition fresh_uuid : M string :=
  fun st =>
    ([], set_uuid_calls st (S (uuid_calls st)), Ok (uuid4 E (uuid_calls st))).

Definition post_message (id : string) (request : Request) (token : string)
  : M Http.response :=
  if negb (Py.str_truthy id) || (Py.len id >? 128) then
    raise (ValidationError "Invalid post ID" None)
  else
    payload <-
      try_except
        (body <- lift (json_body request) ;;
         match CXoneMessagePayload.validate body with
         | Ok payload => ret payload
         | Raise field => raise (PyException "ValidationError" field)
         end)
        (fun e =>
           raise (ValidationError "Invalid request payload"
                    (Some {[ "error" := DStr (Exceptions.str e) ]}))) ;;
    log "info" "received_cxone_message" ;;
    let openid := CXoneMessagePayload.get_openid payload in
    let text := CXoneMessagePayload.get_text payload in
    if negb (Py.opt_truthy openid) then
      raise (MessageProcessingError
               "Could not extract openid from payload"
               (Some {[ "payload" := DPayload payload ]}))
    else if negb (Py.opt_truthy text) then
      raise (MessageProcessingError
               "Could not extract message text from payload"
               (Some {[ "payload" := DPayload payload ]}))
    else
      let openid := default "" openid in
      let text := default "" text in
      try_except
        (_ <- WeChatClient.send_text_message E settings openid text ;;
         log "info" "message_sent_to_wechat")
        (fun e =>
           if isinstance e WeChatAPIErrorC then
             log "error" "failed_to_send_to_wechat"
           else raise e) ;;
      message_id <- fresh_uuid ;;
      log "info" "message_processed" ;;
      ret (Http.Build 200 (Http.MessageResponse message_id)).

(** The endpoint as the framework runs it: the [Depends(get_bearer_token)]
    dependency first, then the handler. *)
Definition post_message_endpoint (authorization : option string)
    (id : string) (request : Request) : M Http.response :=
  token <- get_bearer_token authorization ;;
  post_message id request token.

End WithEnv.

End ByocRoutes.

(* ===================================================================== *)
(** ** app/main.py: the exception handlers *)
(* ===================================================================== *)

Module Main.

Import Exceptions Runtime.
Local Open Scope py_scope.

(** [application_error_handler] *)
Definition application_error_handler (exc : exn) : M Http.response :=
  log "error" "application_error" ;;
  match exc with
  | AppError _ message status_code details =>
      ret (Http.JSONResponse status_code (class_name exc) message details)
  | _ => ret (Http.JSONResponse 500 (class_name exc) (Exceptions.str exc) ∅)
  end.

(** [general_exception_handler] *)
Definition general_exception_handler (exc : exn) : M Http.response :=
  log "exception" "unexpected_error" ;;
  ret (Http.JSONResponse 500 "InternalServerError" "An unexpected error occurred" ∅).

(** A route as the application serves it: an exception of the handler is
    turned into a response by the handler registered for its class. *)
Definition serve (route : M Http.response) : M Http.response :=
  try_except route
    (fun exc =>
       if isinstance exc ApplicationErrorC then application_error_handler exc
       else general_exception_handler exc).

End Main.

(* ===================================================================== *)
(** ** Concrete settings, environments and requests *)
(* ===================================================================== *)

Module Samples.

Import Exceptions Runtime.

(** The settings of the test suite, with the optional ones at their
    defaults. *)
Definition settings : Settings.t :=
  Settings.Build "test_client_id" "test_client_secret" "test_jwt_secret"
    "test_wechat_appid" "test_wechat_secret" "test_wechat_token"
    Settings.default_wechat_encoding_aes_key
    "http://localhost:8001" "test_cxone_token" "test_channel_id"
    Settings.default_mock_mode Settings.default_http_timeout
    Settings.default_http_max_retries.

(** The same with an encoding AES key. *)
Definition settings_encrypted : Settings.t :=
  Settings.with_wechat_encoding_aes_key settings
    "abcdefghijklmnopqrstuvwxyz0123456789ABCDEFG".

(** The text message of the webhook test. *)
Definition text_message : WeChatMessage.t :=
  WeChatMessage.Build "text" (Some "fromUser") (Some "Hello WeChat")
    (Some (Py.PInt 1234567890123456)).

(** An environment in which both downstream platforms fail: every network
    attempt is refused and the messaging platform's client raises;
    decryption fails too.  Bodies decode to themselves and parse to
    [text_message]; tokens are accepted. *)
Definition downstream_down : env :=
  Env (fun _ => NetNetworkError "connection refused")
      (fun _ => Ok (JsonDict ∅))
      (fun _ _ => Raise ("WeChatClientException", "system busy"))
      (fun _ _ _ => Ok tt)
      (fun _ _ _ _ => Raise ("InvalidSignatureException", "invalid signature"))
      (fun _ => Ok text_message)
      (fun body => Ok body)
      (fun _ _ => JwtPayload {[ "client_id" := Py.PStr "test_client_id" ]})
      (fun n => "generated-id-" +:+ Py.str_of_int (Z.of_nat n)).

(** An environment in which CXone answers every request with [status]. *)
Definition cxone_answers (status : Z) (text : string) : env :=
  Env (fun _ => NetResponse status text)
      (fun _ => Ok (JsonDict {[ "id" := Py.PStr "m1" ]}))
      (fun _ _ => Ok ∅)
      (fun _ _ _ => Ok tt)
      (fun xml _ _ _ => Ok xml)
      (fun _ => Ok text_message)
      (fun body => Ok body)
      (fun _ _ => JwtPayload {[ "client_id" := Py.PStr "test_client_id" ]})
      (fun n => "generated-id-" +:+ Py.str_of_int (Z.of_nat n)).

Definition timestamp : string := "1234567890".
Definition nonce : string := "test_nonce".

(** The signature WeChat computes for [timestamp] and [nonce] under the
    token of [settings]. *)
Definition signature : string :=
  Sha1.sha1_hex
    (Py.join (Py.sorted [Settings.wechat_token settings; timestamp; nonce])).

Definition xml_text_message : string :=
  "<xml><FromUserName>fromUser</FromUserName><MsgType>text</MsgType><Content>Hello WeChat</Content></xml>".

Definition webhook_request : WeChatRoutes.Request :=
  WeChatRoutes.BuildRequest ∅ xml_text_message.

(** A body of [n] bytes. *)
Definition body_of_size (n : Z) : string :=
  string_of_list_ascii (repeat "a"%char (Z.to_nat n)).

Definition oversized_request : WeChatRoutes.Request :=
  WeChatRoutes.BuildRequest ∅ (body_of_size 100001).

(** The CXone client as [CXoneClient.__init__] builds it from [settings]. *)
Definition cxone_client : ClientObject.t :=
  ClientObject.Build "http://localhost:8001" 30 3 "test_channel_id" "test_cxone_token".

Definition kwargs : RequestKwargs.t :=
  RequestKwargs.Build "fromUser" "Hello WeChat" "text" "inbound"
    [ ("Authorization", "Bearer test_cxone_token");
      ("Content-Type", "application/json") ].

(** Payloads of the engagement platform. *)
Definition empty_payload : CXoneMessagePayload.t :=
  CXoneMessagePayload.Build None None None None None None None None.

(** The payload of the test suite: a thread id and a message text. *)
Definition thread_payload : CXoneMessagePayload.t :=
  CXoneMessagePayload.Build
    (Some (ThreadInfo.Build (Some "test_openid"))) None
    (Some (MessageContent.Build (Some "Hello from CXone") (Some "text") None))
    None None None None None.

(** An empty thread id next to a top-level [externalId]. *)
Definition empty_thread_id_payload : CXoneMessagePayload.t :=
  CXoneMessagePayload.Build
    (Some (ThreadInfo.Build (Some ""))) None
    (Some (MessageContent.Build (Some "hi") (Some "text") None))
    None None (Some "u2") None None.

End Samples.

(* ===================================================================== *)
(** ** Vocabulary of the statements *)
(* ===================================================================== *)

Module Spec.

Import Exceptions Runtime.

(** The number of network calls among the events. *)
Definition network_calls (tr : list event) : nat :=
  List.length (List.filter is_network tr).

(** [m] raises no [ValidationError], from any store. *)
Definition no_validation_error {A} (m : M A) : Prop :=
  forall st e, outcome (m st) = Raise e -> isinstance e ValidationErrorC = false.

(** A webhook computation that can only end in a bare 200, or in an
    exception other than [ValidationError]. *)
Definition acknowledges (m : M Http.response) : Prop :=
  forall st,
    match outcome (m st) with
    | Ok r => r = Http.Response 200
    | Raise e => isinstance e ValidationErrorC = false
    end.

(** The terminal condition the transport announces for used-up attempts. *)
Definition failed_after_retries (self : ClientObject.t) (e : exn) : Prop :=
  exists details,
    e = AppError ExternalAPIErrorC
          ("Request to " +:+ ClientObject.base_url self +:+ " failed after "
             +:+ Py.str_of_int (ClientObject.max_retries self) +:+ " retries")
          502 details.

(** The store after one failed network attempt counted by a closed
    breaker that stays closed. *)
Definition closed_failure_store (st : store) : store :=
  let st1 := set_net_attempts st (S (net_attempts st)) in
  let cb := circuit_breaker st1 in
  set_circuit_breaker st1
    (CircuitBreaker.with_state cb CircuitBreaker.Closed
       (CircuitBreaker.fail_counter cb + 1) (CircuitBreaker.opened_at cb)).

(** The error of an open circuit. *)
Definition circuit_open_error (self : ClientObject.t) : exn :=
  ExternalAPIError
    ("Circuit breaker is open for " +:+ ClientObject.base_url self)
    (ClientObject.base_url self) 503 None.

End Spec.

(* ===================================================================== *)
(** ** app/clients/cxone_client.py and app/main.py: the end of the client *)
(* ===================================================================== *)

Module Lifecycle.

Import Exceptions Runtime.
Local Open Scope py_scope.

(** [close_cxone_client]: the singleton is closed and forgotten. *)
Definition close_cxone_client : M unit :=
  st <- get_store ;;
  match _cxone_client st with
  | Some _ => modify (fun st => set_cxone_client st None)
  | None => ret tt
  end.

(** The shutdown half of [lifespan]. *)
Definition lifespan_shutdown : M unit :=
  log "info" "application_shutting_down" ;;
  close_cxone_client.

End Lifecycle.

(* ===================================================================== *)
(** ** app/routes/byoc.py and app/auth.py: the token endpoint *)
(* ===================================================================== *)

Module Validation.

(** One entry of [exc.errors()], the list pydantic reports for a request
    body.  The entry of a field constraint holds the location and the
    numbers of the constraint; the entry of a validator that raised holds,
    under its context, the [ValueError] object itself. *)
Inductive error_detail : Type :=
| ConstraintError (loc : string)
| ValidatorError (loc msg : string).

Definition loc (d : error_detail) : string :=
  match d with
  | ConstraintError loc => loc
  | ValidatorError loc _ => loc
  end.

(** Whether [json.dumps] can serialise the entries: it cannot serialise an
    exception object. *)
Definition json_serialisable (errors : list error_detail) : bool :=
  forallb (fun d => match d with
                    | ConstraintError _ => true
                    | ValidatorError _ _ => false
                    end) errors.

End Validation.

Module TokenRequest.

Record t : Type := Build {
  client_id : string;
  client_secret : string;
  grant_type : string
}.

(** [Field(..., min_length=lo, max_length=hi)] *)
Definition length_between (lo hi : Z) (s : string) : bool :=
  (lo <=? Py.len s) && (Py.len s <=? hi).

(** [validate_grant_type]; the [ValueError] message on failure. *)
Definition validate_grant_type (v : string) : result string string :=
  if negb (String.eqb v "client_credentials")
  then Raise "grant_type must be 'client_credentials'"
  else Ok v.

(** The errors of the request model: every field is checked against its
    length constraints, and the validator of [grant_type] runs on a value
    that passed them. *)
Definition errors (self : t) : list Validation.error_detail :=
  ((if length_between 1 128 (client_id self) then []
    else [Validation.ConstraintError "client_id"])
   ++ (if length_between 1 256 (client_secret self) then []
       else [Validation.ConstraintError "client_secret"])
   ++ (if length_between 1 50 (grant_type self) then
         match validate_grant_type (grant_type self) with
         | Ok _ => []
         | Raise msg => [Validation.ValidatorError "grant_type" msg]
         end
       else [Validation.ConstraintError "grant_type"]))%list.

(** Validation of the request model, as the framework runs it on the body
    before the handler is called.  [Raise] carries the errors. *)
Definition validate (self : t) : result (list Validation.error_detail) t :=
  match errors self with
  | [] => Ok self
  | errors => Raise errors
  end.

End TokenRequest.

Module TokenResponse.

Record t : Type := Build {
  access_token : string;
  token_type : string;
  expires_in : Z
}.

End TokenResponse.

Module TokenEndpoint.

Import Exceptions Runtime.
Local Open Scope py_scope.

Section WithJwt.

(** [jwt.encode(payload, secret, algorithm="HS256")] of PyJWT. *)
Context (jwt_encode : gmap string Py.pyval -> string -> string).
Context (settings : Settings.t).

(** The claims [create_access_token] signs: the client and the expiry, 24
    hours after the present time. *)
Definition token_claims (client_id : string) (issued_at : Z) : gmap string Py.pyval :=
  {[ "client_id" := Py.PStr client_id;
     "exp" := Py.PInt (issued_at + 24 * 3600) ]}.

(** [create_access_token] of [app/auth.py] *)
Definition create_access_token (client_id : string) : M string :=
  st <- get_store ;;
  let payload := token_claims client_id (now st) in
  ret (jwt_encode payload (Settings.jwt_secret settings)).

(** [get_token] *)
Definition get_token (token_request : TokenRequest.t) : M TokenResponse.t :=
  if negb (String.eqb (TokenRequest.client_id token_request)
                      (Settings.client_id settings))
     || negb (String.eqb (TokenRequest.client_secret token_request)
                         (Settings.client_secret settings))
  then raise (AuthenticationError "Invalid client credentials")
  else
    access_token <- create_access_token (TokenRequest.client_id token_request) ;;
    log "info" "token_generated" ;;
    ret (TokenResponse.Build access_token "Bearer" (24 * 60 * 60)).

(** The endpoint as the framework runs it: the body is validated against
    the request model, then the handler is called; a body that fails
    validation raises [RequestValidationError], naming the first field at
    fault. *)
Definition get_token_endpoint (body : TokenRequest.t) : M TokenResponse.t :=
  match TokenRequest.validate body with
  | Ok token_request => get_token token_request
  | Raise errors =>
      raise (PyException "RequestValidationError"
               (default "" (head (List.map Validation.loc errors))))
  end.

End WithJwt.

End TokenEndpoint.

(* ===================================================================== *)
(** ** app/main.py: the three exception handlers, for any response model *)
(* ===================================================================== *)

Module App.

Import Exceptions Runtime.
Local Open Scope py_scope.

(** What the client receives: the response model with status 200, or the
    JSON of an exception handler. *)
Inductive reply (A : Type) : Type :=
| Success (a : A)
| Failure (status_code : Z) (error message : string).

Arguments Success {A} a.
Arguments Failure {A} status_code error message.

Definition status_code {A} (r : reply A) : Z :=
  match r with
  | Success _ => 200
  | Failure status_code _ _ => status_code
  end.

(** [application_error_handler] *)
Definition application_error_handler {A} (exc : exn) : M (reply A) :=
  log "error" "application_error" ;;
  match exc with
  | AppError _ message status_code _ =>
      ret (Failure status_code (class_name exc) message)
  | _ => ret (Failure 500 (class_name exc) (Exceptions.str exc))
  end.

(** [general_exception_handler] *)
Definition general_exception_handler {A} (exc : exn) : M (reply A) :=
  log "exception" "unexpected_error" ;;
  ret (Failure 500 "InternalServerError" "An unexpected error occurred").

(** [validation_error_handler]: the record is logged, then the JSON
    response is built with [exc.errors()] as its details; building it
    raises [TypeError] when the details cannot be serialised. *)
Definition validation_error_handler {A} (errors : list Validation.error_detail)
  : M (reply A) :=
  log "warning" "validation_error" ;;
  if Validation.json_serialisable errors then
    ret (Failure 422 "ValidationError" "Request validation failed")
  else
    raise (PyException "TypeError"
             "Object of type ValueError is not JSON serializable").

(** A route as the application serves it: an exception of the route is
    turned into a response by the handler registered for its class. *)
Definition handle {A} (route : M A) : M (reply A) :=
  try_except (a <- route ;; ret (Success a))
    (fun exc =>
       if isinstance exc ApplicationErrorC then application_error_handler exc
       else general_exception_handler exc).

(** A route with a request model as the application serves it: the body
    is validated first; the errors of a body that fails go to
    [validation_error_handler], and an exception of that handler to the
    handler registered for [Exception]. *)
Definition handle_request {B A} (validate : B -> result (list Validation.error_detail) B)
    (route : B -> M A) (body : B) : M (reply A) :=
  match validate body with
  | Ok request => handle (route request)
  | Raise errors =>
      try_except (validation_error_handler errors) general_exception_handler
  end.

End App.

(* ===================================================================== *)
(** ** app/api/health.py *)
(* ===================================================================== *)

Module Health.

Import Exceptions Runtime.
Local Open Scope py_scope.

(** The status dictionary. *)
Record status : Type := Build {
  overall : string;                                  (* status["status"] *)
  version : string;
  dependencies : gmap string (gmap string string)
}.

(** [status["dependencies"][name] = report] *)
Definition set_dependency (s : status) (name : string)
    (report : gmap string string) : status :=
  Build (overall s) (version s) (<[name := report]> (dependencies s)).

(** [status["status"] = "degraded"] *)
Definition degraded (s : status) : status :=
  Build "degraded" (version s) (dependencies s).

Section WithEnv.

Context (settings : Settings.t).

Definition health : M status :=
  let status := Build "ok" "1.0.0" ∅ in
  status <-
    (if negb (Settings.mock_mode settings) then
       try_except
         (_ <- CXoneClient.get_cxone_client settings ;;
          ret (set_dependency status "cxone"
                 {[ "status" := "ok";
                    "base_url" := Settings.cxone_base_url settings ]}))
         (fun e =>
            log "warning" "cxone_health_check_failed" ;;
            ret (degraded
                   (set_dependency status "cxone"
                      {[ "status" := "error"; "error" := Exceptions.str e ]})))
     else ret (set_dependency status "cxone" {[ "status" := "mock_mode" ]})) ;;
  status <-
    (if negb (Settings.mock_mode settings) then
       try_except
         (_ <- WeChatClient.get_wechat_client settings ;;
          ret (set_dependency status "wechat"
                 {[ "status" := "ok";
                    "appid" := Py.slice_to 10 (Settings.wechat_appid settings)
                                 +:+ "..." ]}))
         (fun e =>
            log "warning" "wechat_health_check_failed" ;;
            ret (degraded
                   (set_dependency status "wechat"
                      {[ "status" := "error"; "error" := Exceptions.str e ]})))
     else ret (set_dependency status "wechat" {[ "status" := "mock_mode" ]})) ;;
  ret status.

(** [readiness] and [liveness] *)
Definition readiness : M string := ret "ready".
Definition liveness : M string := ret "alive".

End WithEnv.

End Health.

(* ===================================================================== *)
(** ** More vocabulary of the statements *)
(* ===================================================================== *)

Module Spec2.

Import Exceptions Runtime.

(** Every event [m] emits, from any store, satisfies [P]. *)
Definition emits_only {A} (P : event -> Prop) (m : M A) : Prop :=
  forall st, Forall P (events (m st)).

(** The waits among the events, in order. *)
Definition sleeps (tr : list event) : list Z :=
  omap (fun ev => match ev with Sleep seconds => Some seconds | _ => None end) tr.

(** An event that is no network call. *)
Definition local_event (ev : event) : Prop := is_network ev = false.

(** The client [CXoneClient.__init__] builds from the settings. *)
Definition built_client (settings : Settings.t) : ClientObject.t :=
  ClientObject.Build
    (Py.rstrip_slash (Settings.cxone_base_url settings))
    (BaseHTTPClient.or_int (Some (Settings.http_timeout settings))
       (Settings.http_timeout settings))
    (Settings.http_max_retries settings)
    (Settings.cxone_channel_id settings)
    (Settings.cxone_bearer_token settings).

(** The client [get_cxone_client] hands out in a store. *)
Definition current_client (settings : Settings.t) (st : store) : ClientObject.t :=
  default (built_client settings) (_cxone_client st).

(** The request [CXoneClient.post_message] sends for a message. *)
Definition cxone_url (self : ClientObject.t) : string :=
  "/channels/" +:+ ClientObject.channel_id self +:+ "/messages".

Definition cxone_kwargs (self : ClientObject.t) (openid text : string)
  : RequestKwargs.t :=
  RequestKwargs.Build openid text "text" "inbound"
    [ ("Authorization", "Bearer " +:+ ClientObject.bearer_token self);
      ("Content-Type", "application/json") ].

(** Two stores that differ at most in the clock, the count of network
    attempts and the state and counters of the circuit breaker. *)
Definition same_objects (st st' : store) : Prop :=
  uuid_calls st' = uuid_calls st
  /\ _cxone_client st' = _cxone_client st
  /\ _wechat_client st' = _wechat_client st
  /\ _mock_wechat_client st' = _mock_wechat_client st
  /\ CircuitBreaker.fail_max (circuit_breaker st')
     = CircuitBreaker.fail_max (circuit_breaker st)
  /\ CircuitBreaker.reset_timeout (circuit_breaker st')
     = CircuitBreaker.reset_timeout (circuit_breaker st).

(** [m] takes every store to one related to it by [R]. *)
Definition preserves {A} (R : store -> store -> Prop) (m : M A) : Prop :=
  forall st, R st (final (m st)).

(** A wait the retry policy can ask for. *)
Definition bounded_wait (ev : event) : Prop :=
  forall seconds, ev = Sleep seconds -> 2 <= seconds <= 10.

(** A string without the space character. *)
Fixpoint no_space (s : string) : bool :=
  match s with
  | EmptyString => true
  | String c s' => negb (Ascii.eqb c " ") && no_space s'
  end.

(** Whatever [m] raises, from any store, satisfies [P]. *)
Definition raises_only {A} (P : exn -> Prop) (m : M A) : Prop :=
  forall st e, outcome (m st) = Raise e -> P e.

(** The exceptions that leave the transport: its own error for an open
    circuit or a client error, the status error of httpx for an answer
    that is neither a 2xx nor a 4xx, a failure of the network, the error of
    the breaker. *)
Definition transport_error (e : exn) : Prop :=
  match e with
  | AppError cls _ status_code _ =>
      cls = ExternalAPIErrorC /\ (status_code = 503 \/ 400 <= status_code < 500)
  | HTTPStatusError status_code _ =>
      (status_code < 200 \/ 300 <= status_code)
      /\ (status_code < 400 \/ 500 <= status_code)
  | TimeoutException _ | NetworkError _ | CircuitBreakerError _
  | PyException _ _ => True
  | RetryError _ => False
  end.

(** What the guarded call lets out: a failure of httpx or the error of
    the breaker. *)
Definition guarded_error (e : exn) : Prop :=
  match e with
  | TimeoutException _ | NetworkError _ | CircuitBreakerError _
  | PyException _ _ => True
  | _ => False
  end.

(** The error [CXoneClient.post_message] wraps a cause in. *)
Definition cxone_bad_gateway (openid : string) (cause : exn) : exn :=
  CXoneAPIError
    ("Failed to post message to CXone: " +:+ Exceptions.str cause) 502
    (Some {[ "openid" := DStr openid; "error" := DStr (Exceptions.str cause) ]}).

(** The error [WeChatClientWrapper.send_text_message] wraps a cause in. *)
Definition wechat_bad_gateway (openid : string) (cause : exn) : exn :=
  WeChatAPIError
    ("Failed to send message to WeChat: " +:+ Exceptions.str cause) 502
    (Some {[ "openid" := DStr openid; "error" := DStr (Exceptions.str cause) ]}).

End Spec2.

(* ===================================================================== *)
(** ** More environments, settings and requests *)
(* ===================================================================== *)

Module Scenarios.

Import Exceptions Runtime.

(** An environment in which the first two network attempts of the process
    time out and every later one is answered with 200. *)
Definition flaky : env :=
  Env (fun n => if (n <? 2)%nat then NetTimeout "read timeout"
                else NetResponse 200 "{}")
      (fun _ => Ok (JsonDict {[ "id" := Py.PStr "m1" ]}))
      (fun _ _ => Ok ∅)
      (fun _ _ _ => Ok tt)
      (fun xml _ _ _ => Ok xml)
      (fun _ => Ok Samples.text_message)
      (fun body => Ok body)
      (fun _ _ => JwtPayload {[ "client_id" := Py.PStr "test_client_id" ]})
      (fun n => "generated-id-" +:+ Py.str_of_int (Z.of_nat n)).

(** An environment in which no body is valid UTF-8. *)
Definition undecodable : env :=
  Env (fun _ => NetResponse 200 "{}")
      (fun _ => Ok (JsonDict {[ "id" := Py.PStr "m1" ]}))
      (fun _ _ => Ok ∅)
      (fun _ _ _ => Ok tt)
      (fun xml _ _ _ => Ok xml)
      (fun _ => Ok Samples.text_message)
      (fun _ => Raise ("UnicodeDecodeError", "invalid start byte"))
      (fun _ _ => JwtPayload {[ "client_id" := Py.PStr "test_client_id" ]})
      (fun n => "generated-id-" +:+ Py.str_of_int (Z.of_nat n)).

(** An environment in which the crypto object cannot be built from the
    configured key. *)
Definition bad_aes_key : env :=
  Env (fun _ => NetResponse 200 "{}")
      (fun _ => Ok (JsonDict {[ "id" := Py.PStr "m1" ]}))
      (fun _ _ => Ok ∅)
      (fun _ _ _ => Raise ("Error", "Incorrect padding"))
      (fun xml _ _ _ => Ok xml)
      (fun _ => Ok Samples.text_message)
      (fun body => Ok body)
      (fun _ _ => JwtPayload {[ "client_id" := Py.PStr "test_client_id" ]})
      (fun n => "generated-id-" +:+ Py.str_of_int (Z.of_nat n)).

(** The settings of the test suite in mock mode. *)
Definition mock_settings : Settings.t :=
  Settings.Build "test_client_id" "test_client_secret" "test_jwt_secret"
    "test_wechat_appid" "test_wechat_secret" "test_wechat_token"
    Settings.default_wechat_encoding_aes_key
    "http://localhost:8001" "test_cxone_token" "test_channel_id"
    true Settings.default_http_timeout Settings.default_http_max_retries.

(** A JWT library that issues one token, and decodes it to the claims of
    the test client signed at time 0. *)
Definition jwt_encode (payload : gmap string Py.pyval) (secret : string) : string :=
  "header.payload.signature".

Definition token_issuer : env :=
  Env (fun _ => NetResponse 200 "{}")
      (fun _ => Ok (JsonDict {[ "id" := Py.PStr "m1" ]}))
      (fun _ _ => Ok ∅)
      (fun _ _ _ => Ok tt)
      (fun xml _ _ _ => Ok xml)
      (fun _ => Ok Samples.text_message)
      (fun body => Ok body)
      (fun token _ =>
         if String.eqb token "header.payload.signature"
         then JwtPayload (TokenEndpoint.token_claims "test_client_id" 0)
         else JwtInvalidTokenError)
      (fun n => "generated-id-" +:+ Py.str_of_int (Z.of_nat n)).

(** The token request of the test suite. *)
Definition token_request : TokenRequest.t :=
  TokenRequest.Build "test_client_id" "test_client_secret" "client_credentials".

(** A webhook delivery with a signature that does not verify. *)
Definition bad_signature : string := "0000000000000000000000000000000000000000".

End Scenarios.

(* ===================================================================== *)
(** * Properties *)
(* ===================================================================== *)

(** ** The hash against the test vectors of FIPS 180 *)

Example sha1_empty :
  Sha1.sha1_hex "" = "da39a3ee5e6b4b0d3255bfef95601890afd80709".
Proof. vm_compute. reflexivity. Qed.

Example sha1_abc :
  Sha1.sha1_hex "abc" = "a9993e364706816aba3e25717850c26c9cd0d89d".
Proof. vm_compute. reflexivity. Qed.

Example sha1_two_blocks :
  Sha1.sha1_hex "abcdbcdecdefdefgefghfghighijhijkijkljklmklmnlmnomnopnopq"
  = "84983e441c3bd26ebaae4aa1f95129e5e54670f1".
Proof. vm_compute. reflexivity. Qed.

(** ** Python builtins *)

Section PyFacts.

Import Py.

Lemma str_truthy_true (s : string) : str_truthy s = true <-> s <> "".
Proof. destruct s; simpl; split; congruence. Qed.

Lemma str_truthy_false (s : string) : str_truthy s = false <-> s = "".
Proof. destruct s; simpl; split; congruence. Qed.

Lemma opt_truthy_true (o : option string) :
  opt_truthy o = true <-> exists s, o = Some s /\ s <> "".
Proof.
  destruct o as [s|]; simpl.
  - rewrite str_truthy_true. split.
    + intros H. exists s. split; [reflexivity | exact H].
    + intros (s' & Heq & Hne). congruence.
  - split; [discriminate | intros (s & Heq & _); discriminate].
Qed.

Lemma opt_truthy_not_empty (o : option string) :
  opt_truthy o = true -> o <> Some "".
Proof. intros H Heq. subst o. discriminate H. Qed.

(** The decimal rendering of an integer has at least one character. *)
Lemma str_of_int_not_empty (z : Z) : str_of_int z <> "".
Proof.
  unfold str_of_int.
  destruct (Z.to_int z) as [d | d]; simpl; [| discriminate].
  destruct d; simpl; discriminate.
Qed.

(** [str] of a truthy value is never the empty string. *)
Lemma str_truthy_value (v : pyval) : truthy v = true -> str v <> "".
Proof.
  destruct v as [| b | z | s | t c s]; simpl; intros H.
  - discriminate.
  - subst b. discriminate.
  - apply str_of_int_not_empty.
  - apply str_truthy_true. exact H.
  - discriminate.
Qed.

Example str_of_int_examples :
  str_of_int 0 = "0" /\ str_of_int 502 = "502" /\ str_of_int (-7) = "-7".
Proof. vm_compute. repeat split. Qed.

Example sorted_example :
  sorted ["token"; "1234567890"; "nonce"] = ["1234567890"; "nonce"; "token"].
Proof. vm_compute. reflexivity. Qed.

Example rstrip_example :
  rstrip_slash "http://cx//" = "http://cx" /\ rstrip_slash "a/b" = "a/b".
Proof. vm_compute. split; reflexivity. Qed.

Example split_example :
  split_space "Bearer abc def" = ["Bearer"; "abc"; "def"]
  /\ split_space "Bearer  x" = ["Bearer"; ""; "x"].
Proof. vm_compute. split; reflexivity. Qed.

End PyFacts.

(** ** The payload normaliser *)

Section Normaliser.

Import Py CXoneMessagePayload.

Lemma dict_truthy_false (m : gmap string pyval) (k : string) :
  dict_truthy m = false -> m !! k = None.
Proof.
  unfold dict_truthy. intros H.
  apply negb_false_iff, bool_decide_eq_true in H. subst m.
  apply lookup_empty.
Qed.

(** A usable candidate at the head of the list is the one chosen. *)
Lemma first_usable_head (c : option string) (cs : list (option string)) :
  opt_truthy c = true -> first_usable (c :: cs) = c.
Proof.
  intros H. unfold first_usable. simpl. rewrite H.
  destruct c; [reflexivity | discriminate].
Qed.

(** An unusable candidate is passed over. *)
Lemma first_usable_skip (c : option string) (cs : list (option string)) :
  opt_truthy c = false -> first_usable (c :: cs) = first_usable cs.
Proof.
  intros H. unfold first_usable. simpl. rewrite H. reflexivity.
Qed.

Lemma first_usable_skip_none (cs : list (option string)) :
  first_usable (None :: cs) = first_usable cs.
Proof. reflexivity. Qed.

Lemma first_usable_not_empty (cs : list (option string)) :
  first_usable cs <> Some "".
Proof.
  induction cs as [| c cs IH]; [discriminate |].
  destruct (opt_truthy c) eqn:Hc.
  - rewrite first_usable_head by exact Hc. apply opt_truthy_not_empty, Hc.
  - rewrite first_usable_skip by exact Hc. exact IH.
Qed.

Lemma metadata_openid_truthy (p : t) (s : string) :
  metadata_openid p = Some s -> s <> "".
Proof.
  unfold metadata_openid.
  destruct (metadata p) as [md|]; simpl; [| discriminate].
  destruct (md !! "openid") as [v|]; simpl; [| discriminate].
  destruct (truthy v) eqn:Hv; [| discriminate].
  intros [= <-]. apply str_truthy_value, Hv.
Qed.

Lemma metadata_openid_usable (p : t) :
  opt_truthy (metadata_openid p) = false -> metadata_openid p = None.
Proof.
  destruct (metadata_openid p) as [s|] eqn:H; [| reflexivity].
  apply metadata_openid_truthy in H. simpl.
  rewrite str_truthy_false. contradiction.
Qed.

(** The last two candidates of [get_openid], as the code tests them. *)
Lemma openid_tail_first_usable (p : t) :
  match metadata p with
  | Some md =>
      if dict_truthy md then
        match md !! "openid" with
        | Some v =>
            if truthy v then Some (str v)
            else if opt_truthy (openid p) then openid p else None
        | None => if opt_truthy (openid p) then openid p else None
        end
      else if opt_truthy (openid p) then openid p else None
  | None => if opt_truthy (openid p) then openid p else None
  end = first_usable [metadata_openid p; openid p].
Proof.
  assert (Hlast : (if opt_truthy (openid p) then openid p else None)
                  = first_usable [openid p]).
  { unfold first_usable. simpl.
    destruct (openid p) as [o|]; simpl; [| reflexivity].
    destruct (str_truthy o); reflexivity. }
  unfold metadata_openid.
  destruct (metadata p) as [md|]; simpl; [| exact Hlast].
  destruct (dict_truthy md) eqn:Hd.
  - destruct (md !! "openid") as [v|]; simpl; [| exact Hlast].
    destruct (truthy v) eqn:Hv; [| exact Hlast].
    symmetry. apply first_usable_head. simpl.
    apply str_truthy_true, str_truthy_value, Hv.
  - rewrite (dict_truthy_false md "openid" Hd). exact Hlast.
Qed.

(** [get_openid] is the first usable candidate in priority order. *)
Lemma get_openid_first_usable (p : t) :
  get_openid p = first_usable (openid_candidates p).
Proof.
  unfold get_openid, openid_candidates.
  assert (Hthread :
    match thread p with
    | Some th => opt_truthy (ThreadInfo.idOnExternalPlatform th)
    | None => false
    end = opt_truthy (thread p ≫= ThreadInfo.idOnExternalPlatform)).
  { destruct (thread p); reflexivity. }
  assert (Hrecipient :
    match recipient p with
    | Some r => opt_truthy (RecipientInfo.idOnExternalPlatform r)
    | None => false
    end = opt_truthy (recipient p ≫= RecipientInfo.idOnExternalPlatform)).
  { destruct (recipient p); reflexivity. }
  rewrite Hthread, Hrecipient.
  destruct (opt_truthy (thread p ≫= ThreadInfo.idOnExternalPlatform)) eqn:H1.
  { symmetry. apply first_usable_head. exact H1. }
  rewrite first_usable_skip by exact H1.
  destruct (opt_truthy (recipient p ≫= RecipientInfo.idOnExternalPlatform)) eqn:H2.
  { symmetry. apply first_usable_head. exact H2. }
  rewrite first_usable_skip by exact H2.
  destruct (opt_truthy (externalId p)) eqn:H3.
  { symmetry. apply first_usable_head. exact H3. }
  rewrite first_usable_skip by exact H3.
  apply openid_tail_first_usable.
Qed.

(** [get_text] is the first usable candidate in priority order. *)
Lemma get_text_first_usable (p : t) :
  get_text p = first_usable (text_candidates p).
Proof.
  unfold get_text, text_candidates.
  assert (Htail :
    (if opt_truthy (text p) then text p
     else if opt_truthy (content p) then content p else None)
    = first_usable [text p; content p]).
  { destruct (opt_truthy (text p)) eqn:H3.
    { symmetry. apply first_usable_head. exact H3. }
    rewrite first_usable_skip by exact H3.
    destruct (opt_truthy (content p)) eqn:H4.
    { symmetry. apply first_usable_head. exact H4. }
    rewrite first_usable_skip by exact H4. reflexivity. }
  destruct (message p) as [m|]; simpl.
  - destruct (opt_truthy (MessageContent.text m)) eqn:H1.
    { symmetry. apply first_usable_head. exact H1. }
    rewrite first_usable_skip by exact H1.
    destruct (opt_truthy (MessageContent.content m)) eqn:H2.
    { symmetry. apply first_usable_head. exact H2. }
    rewrite first_usable_skip by exact H2.
    exact Htail.
  - rewrite !first_usable_skip_none. exact Htail.
Qed.

Lemma get_openid_not_empty (p : t) : get_openid p <> Some "".
Proof. rewrite get_openid_first_usable. apply first_usable_not_empty. Qed.

Lemma get_text_not_empty (p : t) : get_text p <> Some "".
Proof. rewrite get_text_first_usable. apply first_usable_not_empty. Qed.

(** What the route tests, [not openid], is absence. *)
Lemma get_openid_falsy (p : t) :
  opt_truthy (get_openid p) = false <-> get_openid p = None.
Proof.
  pose proof (get_openid_not_empty p) as Hne.
  destruct (get_openid p) as [s|]; simpl.
  - rewrite str_truthy_false. split; [intros -> | discriminate].
    contradiction.
  - split; reflexivity.
Qed.

Lemma get_text_falsy (p : t) :
  opt_truthy (get_text p) = false <-> get_text p = None.
Proof.
  pose proof (get_text_not_empty p) as Hne.
  destruct (get_text p) as [s|]; simpl.
  - rewrite str_truthy_false. split; [intros -> | discriminate].
    contradiction.
  - split; reflexivity.
Qed.

(** A validated payload yields a text of at most 10000 characters. *)
Lemma validate_get_text_len (body payload : t) (txt : string) :
  validate body = Ok payload ->
  get_text payload = Some txt ->
  len txt <= 10000.
Proof.
  unfold validate, get_text,
    MessageContent.validate_text_length, max_length_10000.
  intros Hv Ht.
  destruct (match thread body with Some _ => _ | None => _ end);
    [| discriminate].
  destruct (message body) as [m|] eqn:Hm.
  - destruct (MessageContent.text m) as [mt|] eqn:Hmt;
      destruct (MessageContent.content m) as [mc|] eqn:Hmc;
      destruct (text body) as [tt'|] eqn:Htt;
      destruct (content body) as [tc|] eqn:Htc;
      simpl in Hv;
      repeat match type of Hv with
        | context [Z.gtb ?a ?b] => destruct (Z.gtb_spec a b)
        | context [Z.leb ?a ?b] => destruct (Z.leb_spec a b)
        | context [str_truthy ?s] => destruct (str_truthy s) eqn:?
        end; simpl in Hv; try discriminate;
      injection Hv as <-; rewrite Hm in Ht; simpl in Ht;
      rewrite ?Hmt, ?Hmc, ?Htt, ?Htc in Ht; simpl in Ht;
      repeat match type of Ht with
        | context [str_truthy ?s] =>
            let H := fresh in destruct (str_truthy s) eqn:H
        end; try discriminate; try (injection Ht as <-; lia).
  - destruct (text body) as [tt'|] eqn:Htt;
      destruct (content body) as [tc|] eqn:Htc;
      simpl in Hv;
      repeat match type of Hv with
        | context [Z.leb ?a ?b] => destruct (Z.leb_spec a b)
        end; simpl in Hv; try discriminate;
      injection Hv as <-; rewrite Hm in Ht; simpl in Ht;
      rewrite ?Htt, ?Htc in Ht; simpl in Ht;
      repeat match type of Ht with
        | context [str_truthy ?s] =>
            let H := fresh in destruct (str_truthy s) eqn:H
        end; try discriminate; try (injection Ht as <-; lia).
Qed.

(** C3 (as stated): a thread id that is present but empty is passed over
    in favour of the next usable field, here the top-level [externalId]. *)
Lemma empty_thread_id_is_passed_over :
  thread Samples.empty_thread_id_payload ≫= ThreadInfo.idOnExternalPlatform
    = Some ""
  /\ get_openid Samples.empty_thread_id_payload = Some "u2".
Proof. split; reflexivity. Qed.

(** C3 (amended): extraction is first-match-wins over the candidate
    fields in the stated order, a match being a field that is present and
    not empty (for [metadata.openid]: any truthy value, rendered with
    [str]); in particular a thread id that is present and not empty is
    chosen over every other id-bearing field. *)
Theorem extraction_first_usable_wins (p : t) :
  get_openid p = first_usable (openid_candidates p)
  /\ get_text p = first_usable (text_candidates p)
  /\ (forall th s,
        thread p = Some th ->
        ThreadInfo.idOnExternalPlatform th = Some s ->
        s <> "" ->
        get_openid p = Some s).
Proof.
  split; [apply get_openid_first_usable |].
  split; [apply get_text_first_usable |].
  intros th s Hth Hid Hne.
  rewrite get_openid_first_usable. unfold openid_candidates.
  rewrite first_usable_head; rewrite Hth; simpl; rewrite Hid;
    [reflexivity |].
  simpl. apply str_truthy_true, Hne.
Qed.

Lemma extraction_first_usable_wins_witness :
  get_openid Samples.thread_payload = Some "test_openid".
Proof.
  refine (proj2 (proj2 (extraction_first_usable_wins Samples.thread_payload))
            (ThreadInfo.Build (Some "test_openid")) "test_openid" _ _ _).
  - reflexivity.
  - reflexivity.
  - discriminate.
Defined.

End Normaliser.

(** ** The effect monad *)

Section MonadFacts.

Import Exceptions Runtime Spec.
Local Open Scope py_scope.

Lemma bind_ok {A B} (m : M A) (k : A -> M B) st tr st' a :
  m st = (tr, st', Ok a) ->
  bind m k st = ((tr ++ events (k a st'))%list, final (k a st'), outcome (k a st')).
Proof.
  intros H. unfold bind, outcome, events, final. rewrite H.
  destruct (k a st') as [[tr' st''] r]. reflexivity.
Qed.

Lemma bind_raise {A B} (m : M A) (k : A -> M B) st tr st' e :
  m st = (tr, st', Raise e) -> bind m k st = (tr, st', Raise e).
Proof. intros H. unfold bind. rewrite H. reflexivity. Qed.

Lemma outcome_bind {A B} (m : M A) (k : A -> M B) st :
  outcome (bind m k st)
  = match outcome (m st) with
    | Ok a => outcome (k a (final (m st)))
    | Raise e => Raise e
    end.
Proof.
  unfold bind, outcome, events, final.
  destruct (m st) as [[tr st'] [a | e]]; simpl; [| reflexivity].
  destruct (k a st') as [[tr' st''] r]. reflexivity.
Qed.

Lemma events_bind {A B} (m : M A) (k : A -> M B) st :
  events (bind m k st)
  = match outcome (m st) with
    | Ok a => (events (m st) ++ events (k a (final (m st))))%list
    | Raise e => events (m st)
    end.
Proof.
  unfold bind, outcome, events, final.
  destruct (m st) as [[tr st'] [a | e]]; simpl; [| reflexivity].
  destruct (k a st') as [[tr' st''] r]. reflexivity.
Qed.

Lemma outcome_try_except {A} (body : M A) (handler : exn -> M A) st :
  outcome (try_except body handler st)
  = match outcome (body st) with
    | Ok a => Ok a
    | Raise e => outcome (handler e (final (body st)))
    end.
Proof.
  unfold try_except, outcome, events, final.
  destruct (body st) as [[tr st'] [a | e]]; simpl; [reflexivity |].
  destruct (handler e st') as [[tr' st''] r]. reflexivity.
Qed.

Lemma events_try_except {A} (body : M A) (handler : exn -> M A) st :
  events (try_except body handler st)
  = match outcome (body st) with
    | Ok a => events (body st)
    | Raise e => (events (body st) ++ events (handler e (final (body st))))%list
    end.
Proof.
  unfold try_except, outcome, events, final.
  destruct (body st) as [[tr st'] [a | e]]; simpl; [reflexivity |].
  destruct (handler e st') as [[tr' st''] r]. reflexivity.
Qed.

(** A library exception is never an exception of the application. *)
Lemma lift_no_validation_error {A} (o : lib_outcome A) : no_validation_error (lift o).
Proof.
  intros st e. destruct o as [a | [type_name msg]]; simpl.
  - discriminate.
  - intros [= <-]. reflexivity.
Qed.

Lemma log_no_validation_error level name : no_validation_error (log level name).
Proof. intros st e. discriminate. Qed.

Lemma emit_no_validation_error ev : no_validation_error (emit ev).
Proof. intros st e. discriminate. Qed.

Lemma ret_acknowledges : acknowledges (ret (Http.Response 200)).
Proof. intros st. reflexivity. Qed.

Lemma bind_acknowledges {A} (m : M A) (k : A -> M Http.response) :
  no_validation_error m ->
  (forall a, acknowledges (k a)) ->
  acknowledges (bind m k).
Proof.
  intros Hm Hk st. rewrite outcome_bind.
  destruct (outcome (m st)) as [a | e] eqn:Ho.
  - apply Hk.
  - eapply Hm. exact Ho.
Qed.

Lemma try_except_bind_ok {A B} (m : M A) (k : A -> M B) (handler : exn -> M B)
    st tr st' a :
  m st = (tr, st', Ok a) ->
  try_except (bind m k) handler st = prepend_events tr (try_except (k a) handler st').
Proof.
  intros H. unfold try_except, bind, prepend_events, events, final, outcome.
  rewrite H. destruct (k a st') as [[tr1 st1] [b | e]]; simpl; [reflexivity |].
  destruct (handler e st1) as [[tr2 st2] r]. simpl.
  rewrite app_assoc. reflexivity.
Qed.

Lemma prepend_events_nil {A} (r : list event * store * result exn A) :
  prepend_events [] r = r.
Proof. destruct r as [[tr st] o]. reflexivity. Qed.

Lemma outcome_serve (route : M Http.response) st r :
  outcome (route st) = Ok r -> outcome (Main.serve route st) = Ok r.
Proof. intros H. unfold Main.serve. rewrite outcome_try_except, H. reflexivity. Qed.

Lemma outcome_serve_application_error (route : M Http.response) st
    cls message status_code details :
  outcome (route st) = Raise (AppError cls message status_code details) ->
  outcome (Main.serve route st)
  = Ok (Http.JSONResponse status_code
          (class_name (AppError cls message status_code details)) message details).
Proof. intros H. unfold Main.serve. rewrite outcome_try_except, H. reflexivity. Qed.

End MonadFacts.

(** ** The WeChat webhook *)

Section Webhook.

Import Exceptions Runtime Spec WeChatRoutes.
Local Open Scope py_scope.

Context (E : env) (settings : Settings.t).

Example sample_signature_verifies :
  check_signature (Settings.wechat_token Samples.settings)
    Samples.signature Samples.timestamp Samples.nonce = true
  /\ Samples.signature = "7905249d61786443da083c7ad1a0308104565444".
Proof. vm_compute. split; reflexivity. Qed.

(** The decryption block raises nothing the handler would let through as a
    rejection. *)
Lemma decrypt_if_configured_no_validation_error request timestamp nonce xml :
  no_validation_error (decrypt_if_configured E settings request timestamp nonce xml).
Proof.
  intros st e. unfold decrypt_if_configured.
  destruct (Py.str_truthy (Settings.wechat_encoding_aes_key settings)).
  - rewrite outcome_bind.
    destruct (outcome (lift (wechat_crypto_init E _ _ _) st)) as [[] | e'] eqn:Hinit.
    + rewrite outcome_try_except.
      match goal with
      | |- context [outcome (?body ?s)] =>
          destruct (outcome (body s)) as [a | e'']
      end; discriminate.
    + intros [= <-]. eapply lift_no_validation_error. exact Hinit.
  - discriminate.
Qed.

(** Whatever the post to CXone does, the forwarding step returns. *)
Lemma forward_to_cxone_returns openid text st :
  outcome (forward_to_cxone E settings openid text st) = Ok tt.
Proof.
  unfold forward_to_cxone. rewrite outcome_try_except.
  match goal with
  | |- context [outcome (?body ?s)] =>
      destruct (outcome (body s)) as [[] | e]
  end.
  - reflexivity.
  - destruct (isinstance e CXoneAPIErrorC); reflexivity.
Qed.

Lemma forward_to_cxone_no_validation_error openid text :
  no_validation_error (forward_to_cxone E settings openid text).
Proof. intros st e. rewrite forward_to_cxone_returns. discriminate. Qed.

(** Parsing and forwarding end in a bare 200, or in an exception that is not
    a [ValidationError]. *)
Lemma parse_and_forward_acknowledges xml : acknowledges (parse_and_forward E settings xml).
Proof.
  unfold parse_and_forward.
  apply bind_acknowledges; [apply emit_no_validation_error | intros _].
  apply bind_acknowledges; [apply lift_no_validation_error | intros msg].
  apply bind_acknowledges; [apply log_no_validation_error | intros _].
  destruct (String.eqb (WeChatMessage.type msg) "text").
  - cbv zeta.
    destruct (WeChatMessage.source msg) as [openid |];
      [destruct (WeChatMessage.content msg) as [text |] |].
    + destruct (negb (Py.str_truthy openid) || negb (Py.str_truthy text)).
      * apply bind_acknowledges;
          [apply log_no_validation_error | intros _; apply ret_acknowledges].
      * apply bind_acknowledges;
          [apply forward_to_cxone_no_validation_error
          | intros _; apply ret_acknowledges].
    + apply bind_acknowledges;
        [apply log_no_validation_error | intros _; apply ret_acknowledges].
    + apply bind_acknowledges;
        [apply log_no_validation_error | intros _; apply ret_acknowledges].
  - apply bind_acknowledges;
      [apply log_no_validation_error | intros _; apply ret_acknowledges].
Qed.

(** The outer [except] clauses turn such a computation into a bare 200. *)
Lemma outer_handler_acknowledges (m : M Http.response) st :
  acknowledges m ->
  outcome
    (try_except m
       (fun e =>
          if isinstance e ValidationErrorC then raise e
          else
            log "exception" "wechat_webhook_processing_error" ;;
            ret (Http.Response 200)) st)
  = Ok (Http.Response 200).
Proof.
  intros Hack. rewrite outcome_try_except. specialize (Hack st).
  destruct (outcome (m st)) as [r | e].
  - rewrite Hack. reflexivity.
  - rewrite Hack. reflexivity.
Qed.

(** The handler on a verified request of admissible size. *)
Lemma webhook_post_verified request signature timestamp nonce st :
  check_signature (Settings.wechat_token settings) signature timestamp nonce = true ->
  Py.len (body request) <= 100000 ->
  outcome (wechat_webhook_post E settings request signature timestamp nonce st)
  = Ok (Http.Response 200).
Proof.
  intros Hsig Hsize. unfold wechat_webhook_post.
  rewrite Hsig. simpl negb. cbv iota zeta.
  destruct (Z.gtb_spec (Py.len (body request)) 100000) as [Hgt | _]; [lia |].
  apply outer_handler_acknowledges.
  apply bind_acknowledges; [apply lift_no_validation_error | intros xml].
  apply bind_acknowledges;
    [apply decrypt_if_configured_no_validation_error | intros xml'].
  apply parse_and_forward_acknowledges.
Qed.

Lemma parse_and_forward_events xml st :
  exists tr, events (parse_and_forward E settings xml st) = ParseMessage xml :: tr.
Proof.
  unfold parse_and_forward. rewrite events_bind. simpl. eexists. reflexivity.
Qed.

Lemma decrypt_block_failure request timestamp nonce xml err st :
  Py.str_truthy (Settings.wechat_encoding_aes_key settings) = true ->
  wechat_crypto_init E (Settings.wechat_token settings)
    (Settings.wechat_encoding_aes_key settings)
    (Settings.wechat_appid settings) = Ok tt ->
  decrypt_message E xml (default "" (query_params request !! "msg_signature"))
    timestamp nonce = Raise err ->
  decrypt_if_configured E settings request timestamp nonce xml st
  = ([DecryptMessage xml (default "" (query_params request !! "msg_signature"))
        timestamp nonce;
      Log "error" "wechat_decryption_failed"], st, Ok xml).
Proof.
  intros Hkey Hinit Hdec. unfold decrypt_if_configured.
  rewrite Hkey, Hinit. unfold bind, try_except, lift, ret, emit, log, raise.
  rewrite Hdec. destruct err as [type_name msg]. reflexivity.
Qed.

(** C6: the GET handler answers with the literal [echostr] as plain text
    when the SHA1 hex digest of the sorted, concatenated token, timestamp
    and nonce equals the signature, and raises the 400 [ValidationError]
    when it does not. *)
Theorem webhook_get_verifies_signature signature timestamp nonce echostr st :
  let digest :=
    Sha1.sha1_hex
      (Py.join (Py.sorted [Settings.wechat_token settings; timestamp; nonce])) in
  let run := wechat_webhook_get settings signature timestamp nonce echostr in
  (digest = signature ->
     outcome (run st) = Ok (Http.Build 200 (Http.PlainText echostr))
     /\ outcome (Main.serve run st) = Ok (Http.Build 200 (Http.PlainText echostr)))
  /\ (digest <> signature ->
        outcome (run st) = Raise (ValidationError "Invalid WeChat signature" None)
        /\ Http.status_code
             (match outcome (Main.serve run st) with
              | Ok r => r
              | Raise _ => Http.Response 500
              end) = 400).
Proof.
  intros digest run. subst run. unfold wechat_webhook_get, check_signature.
  fold digest. split.
  - intros Heq. apply String.eqb_eq in Heq.
    assert (Hrun : forall h,
      outcome (try_except
                 (if (digest =? signature)%string
                  then log "info" "wechat_webhook_validated" ;;
                       ret (Http.PlainTextResponse echostr)
                  else log "warning" "invalid_wechat_signature" ;;
                       raise (ValidationError "Invalid WeChat signature" None)) h st)
      = Ok (Http.Build 200 (Http.PlainText echostr))).
    { intros h. rewrite Heq. reflexivity. }
    split; [apply Hrun | apply outcome_serve, Hrun].
  - intros Hne. apply String.eqb_neq in Hne.
    assert (Hrun :
      outcome (try_except
                 (if (digest =? signature)%string
                  then log "info" "wechat_webhook_validated" ;;
                       ret (Http.PlainTextResponse echostr)
                  else log "warning" "invalid_wechat_signature" ;;
                       raise (ValidationError "Invalid WeChat signature" None))
                 (fun e =>
                    if isinstance e ValidationErrorC then raise e
                    else
                      log "error" "wechat_signature_validation_error" ;;
                      raise (ValidationError "Signature validation failed" None)) st)
      = Raise (ValidationError "Invalid WeChat signature" None)).
    { rewrite Hne. reflexivity. }
    split; [exact Hrun |].
    rewrite (outcome_serve_application_error _ st ValidationErrorC
               "Invalid WeChat signature" 400 ∅ Hrun).
    reflexivity.
Qed.

(** C1 (amended): once the signature has passed verification and the body
    is at most 100000 bytes long, the POST handler answers 200 with an
    empty body, whatever happens afterwards. *)
Theorem webhook_post_always_acknowledged request signature timestamp nonce st :
  check_signature (Settings.wechat_token settings) signature timestamp nonce = true ->
  Py.len (body request) <= 100000 ->
  let run := wechat_webhook_post E settings request signature timestamp nonce in
  outcome (run st) = Ok (Http.Build 200 Http.Empty)
  /\ outcome (Main.serve run st) = Ok (Http.Build 200 Http.Empty).
Proof.
  intros Hsig Hsize run.
  pose proof (webhook_post_verified request signature timestamp nonce st Hsig Hsize)
    as Hrun.
  split; [exact Hrun | apply outcome_serve, Hrun].
Qed.

(** C9 (amended): with an encoding AES key configured and the crypto
    object built from it, a request whose [decrypt_message] call fails, for
    whatever reason, is handled exactly as the same request without a key:
    the failure is logged, the raw body is parsed as plaintext, and the
    response is the one of the plaintext run. *)
Theorem decryption_failure_falls_back_to_plaintext
    request signature timestamp nonce st xml err :
  check_signature (Settings.wechat_token settings) signature timestamp nonce = true ->
  Py.len (body request) <= 100000 ->
  decode_utf8 E (body request) = Ok xml ->
  Py.str_truthy (Settings.wechat_encoding_aes_key settings) = true ->
  wechat_crypto_init E (Settings.wechat_token settings)
    (Settings.wechat_encoding_aes_key settings)
    (Settings.wechat_appid settings) = Ok tt ->
  decrypt_message E xml (default "" (query_params request !! "msg_signature"))
    timestamp nonce = Raise err ->
  let keyed := wechat_webhook_post E settings request signature timestamp nonce st in
  let plain :=
    wechat_webhook_post E (Settings.with_wechat_encoding_aes_key settings "")
      request signature timestamp nonce st in
  keyed
  = prepend_events
      [DecryptMessage xml (default "" (query_params request !! "msg_signature"))
         timestamp nonce;
       Log "error" "wechat_decryption_failed"] plain
  /\ In (ParseMessage xml) (events keyed)
  /\ outcome keyed = outcome plain
  /\ outcome keyed = Ok (Http.Response 200).
Proof.
  intros Hsig Hsize Hdecode Hkey Hinit Hdec keyed plain.
  assert (Hkeyed :
    keyed
    = prepend_events
        [DecryptMessage xml (default "" (query_params request !! "msg_signature"))
           timestamp nonce;
         Log "error" "wechat_decryption_failed"]
        (try_except (parse_and_forward E settings xml)
           (fun e =>
              if isinstance e ValidationErrorC then raise e
              else
                log "exception" "wechat_webhook_processing_error" ;;
                ret (Http.Response 200)) st)).
  { subst keyed. unfold wechat_webhook_post.
    rewrite Hsig. simpl negb. cbv iota zeta.
    destruct (Z.gtb_spec (Py.len (body request)) 100000) as [Hgt | _]; [lia |].
    rewrite Hdecode.
    rewrite (try_except_bind_ok _ _ _ st [] st xml) by reflexivity.
    rewrite prepend_events_nil.
    apply try_except_bind_ok.
    apply (decrypt_block_failure request timestamp nonce xml err st);
      assumption. }
  assert (Hplain :
    plain
    = try_except (parse_and_forward E settings xml)
        (fun e =>
           if isinstance e ValidationErrorC then raise e
           else
             log "exception" "wechat_webhook_processing_error" ;;
             ret (Http.Response 200)) st).
  { subst plain. unfold wechat_webhook_post.
    change (Settings.wechat_token (Settings.with_wechat_encoding_aes_key settings ""))
      with (Settings.wechat_token settings).
    rewrite Hsig. simpl negb. cbv iota zeta.
    destruct (Z.gtb_spec (Py.len (body request)) 100000) as [Hgt | _]; [lia |].
    rewrite Hdecode.
    rewrite (try_except_bind_ok _ _ _ st [] st xml) by reflexivity.
    rewrite prepend_events_nil.
    rewrite (try_except_bind_ok _ _ _ st [] st xml) by reflexivity.
    rewrite prepend_events_nil.
    reflexivity. }
  rewrite Hkeyed, Hplain.
  split; [reflexivity |].
  split.
  - unfold prepend_events at 1. unfold events at 1. simpl fst.
    rewrite events_try_except.
    destruct (parse_and_forward_events xml st) as [tr Htr].
    destruct (outcome (parse_and_forward E settings xml st));
      rewrite Htr; simpl; auto.
  - split; [reflexivity |].
    unfold prepend_events, outcome at 1. simpl snd.
    apply outer_handler_acknowledges, parse_and_forward_acknowledges.
Qed.

End Webhook.

(** C1 (as stated): a request whose signature passes verification but whose
    body is longer than 100000 bytes is rejected with the 400
    [ValidationError]; it is not acknowledged. *)
Lemma verified_oversized_body_is_rejected :
  WeChatRoutes.check_signature (Settings.wechat_token Samples.settings)
    Samples.signature Samples.timestamp Samples.nonce = true
  /\ Runtime.outcome
       (WeChatRoutes.wechat_webhook_post Samples.downstream_down Samples.settings
          Samples.oversized_request Samples.signature Samples.timestamp
          Samples.nonce Runtime.initial_store)
     = Raise (Exceptions.ValidationError "Request body too large" None)
  /\ Runtime.outcome
       (Main.serve
          (WeChatRoutes.wechat_webhook_post Samples.downstream_down Samples.settings
             Samples.oversized_request Samples.signature Samples.timestamp
             Samples.nonce) Runtime.initial_store)
     = Ok (Http.JSONResponse 400 "ValidationError" "Request body too large" ∅).
Proof. repeat split; vm_compute; reflexivity. Qed.

(** The webhook test of the suite: the text message is forwarded with the
    sender as thread id and the content as text, in one network request. *)
Example webhook_forwards_text_message :
  let run :=
    WeChatRoutes.wechat_webhook_post (Samples.cxone_answers 200 "{}")
      Samples.settings Samples.webhook_request Samples.signature
      Samples.timestamp Samples.nonce Runtime.initial_store in
  Runtime.outcome run = Ok (Http.Response 200)
  /\ List.filter Runtime.is_network (Runtime.events run)
     = [Runtime.HttpRequest "POST" "/channels/test_channel_id/messages"
          Samples.kwargs].
Proof. vm_compute. split; reflexivity. Qed.

(** An invalid signature is the one rejection of the POST handler besides
    the size guard. *)
Example webhook_rejects_invalid_signature :
  Runtime.outcome
    (Main.serve
       (WeChatRoutes.wechat_webhook_post Samples.downstream_down Samples.settings
          Samples.webhook_request "invalid_signature" Samples.timestamp
          Samples.nonce) Runtime.initial_store)
  = Ok (Http.JSONResponse 400 "ValidationError" "Invalid WeChat signature" ∅).
Proof. vm_compute. reflexivity. Qed.

Lemma webhook_post_always_acknowledged_witness :
  Runtime.outcome
    (WeChatRoutes.wechat_webhook_post Samples.downstream_down Samples.settings
       Samples.webhook_request Samples.signature Samples.timestamp
       Samples.nonce Runtime.initial_store)
  = Ok (Http.Build 200 Http.Empty).
Proof.
  refine (proj1 (webhook_post_always_acknowledged Samples.downstream_down
                   Samples.settings Samples.webhook_request Samples.signature
                   Samples.timestamp Samples.nonce Runtime.initial_store _ _)).
  - vm_compute. reflexivity.
  - vm_compute. discriminate.
Defined.

Lemma webhook_get_verifies_signature_witness :
  Runtime.outcome
    (WeChatRoutes.wechat_webhook_get Samples.settings Samples.signature
       Samples.timestamp Samples.nonce "test_echo" Runtime.initial_store)
  = Ok (Http.Build 200 (Http.PlainText "test_echo"))
  /\ Runtime.outcome
       (WeChatRoutes.wechat_webhook_get Samples.settings "invalid_signature"
          Samples.timestamp Samples.nonce "test_echo" Runtime.initial_store)
     = Raise (Exceptions.ValidationError "Invalid WeChat signature" None).
Proof.
  split.
  - refine (proj1 (proj1 (webhook_get_verifies_signature Samples.settings
                            Samples.signature Samples.timestamp Samples.nonce
                            "test_echo" Runtime.initial_store) _)).
    vm_compute. reflexivity.
  - refine (proj1 (proj2 (webhook_get_verifies_signature Samples.settings
                            "invalid_signature" Samples.timestamp Samples.nonce
                            "test_echo" Runtime.initial_store) _)).
    vm_compute. discriminate.
Defined.

Lemma decryption_failure_falls_back_to_plaintext_witness :
  Runtime.outcome
    (WeChatRoutes.wechat_webhook_post Samples.downstream_down
       Samples.settings_encrypted Samples.webhook_request Samples.signature
       Samples.timestamp Samples.nonce Runtime.initial_store)
  = Ok (Http.Response 200).
Proof.
  refine (proj2 (proj2 (proj2
    (decryption_failure_falls_back_to_plaintext Samples.downstream_down
       Samples.settings_encrypted Samples.webhook_request Samples.signature
       Samples.timestamp Samples.nonce Runtime.initial_store
       Samples.xml_text_message
       ("InvalidSignatureException", "invalid signature") _ _ _ _ _ _)))).
  - vm_compute. reflexivity.
  - vm_compute. discriminate.
  - reflexivity.
  - reflexivity.
  - reflexivity.
  - reflexivity.
Defined.

(** C9 (as stated): decryption can also fail because the crypto object
    cannot be built from the key.  That happens outside the [try] around
    [decrypt_message]: the delivery is acknowledged with 200, but the raw
    body is never parsed and nothing is forwarded, while the same delivery
    without a key is parsed and forwarded. *)
Lemma crypto_setup_failure_is_not_parsed :
  WeChatRoutes.wechat_webhook_post Scenarios.bad_aes_key Samples.settings_encrypted
    Samples.webhook_request Samples.signature Samples.timestamp Samples.nonce
    Runtime.initial_store
  = ([Runtime.Log "exception" "wechat_webhook_processing_error"],
     Runtime.initial_store, Ok (Http.Response 200))
  /\ In (Runtime.ParseMessage Samples.xml_text_message)
       (Runtime.events
          (WeChatRoutes.wechat_webhook_post Scenarios.bad_aes_key
             (Settings.with_wechat_encoding_aes_key Samples.settings_encrypted "")
             Samples.webhook_request Samples.signature Samples.timestamp
             Samples.nonce Runtime.initial_store))
  /\ Spec.network_calls
       (Runtime.events
          (WeChatRoutes.wechat_webhook_post Scenarios.bad_aes_key
             (Settings.with_wechat_encoding_aes_key Samples.settings_encrypted "")
             Samples.webhook_request Samples.signature Samples.timestamp
             Samples.nonce Runtime.initial_store)) = 1%nat.
Proof.
  split; [vm_compute; reflexivity |].
  split; [vm_compute; left; reflexivity | vm_compute; reflexivity].
Defined.


(** ** The resilient transport *)

Section Transport.

Import Exceptions Runtime Spec BaseHTTPClient.
Local Open Scope py_scope.

Context (E : env).
Implicit Types (self : ClientObject.t) (kwargs : RequestKwargs.t) (st : store).

Lemma make_request_open self method url kwargs st :
  CircuitBreaker.current (circuit_breaker st) = CircuitBreaker.Open ->
  _make_request E self method url kwargs st = ([], st, Raise (circuit_open_error self)).
Proof.
  intros Hopen. unfold _make_request, try_except, bind, get_store, CircuitBreaker.current_state.
  rewrite Hopen. reflexivity.
Qed.

Lemma retry_not_retryable {A} (func : M A) n a st tr st' e :
  func st = (tr, st', Raise e) ->
  retry_if_exception_type e = false ->
  retry n a func st = (tr, st', Raise e).
Proof.
  intros Hf He. destruct n; simpl; unfold try_except; rewrite Hf, He; simpl;
  rewrite app_nil_r; reflexivity.
Qed.

Lemma make_request_closed_retryable self method url kwargs st :
  CircuitBreaker.current (circuit_breaker st) = CircuitBreaker.Closed ->
  is_retryable (http_request E (net_attempts st)) = true ->
  CircuitBreaker.fail_counter (circuit_breaker st) + 1
    < CircuitBreaker.fail_max (circuit_breaker st) ->
  _make_request E self method url kwargs st
  = ([HttpRequest method url kwargs; Log "warning" "http_request_failed"],
     closed_failure_store st,
     net_result (http_request E (net_attempts st))).
Proof.
  intros Hc Hr Hlt.
  cbv beta iota zeta delta [_make_request PyBreaker.call_async PyBreaker.call_closed client_request
       attempt try_except bind get_store CircuitBreaker.current_state raise ret
       log emit PyBreaker.set_counter modify].
  rewrite Hc. simpl. rewrite ?Hc. simpl.
  destruct (http_request E (net_attempts st)) as [code text | msg | msg | tn msg];
    try discriminate Hr; simpl.
  all: destruct (Z.leb_spec (CircuitBreaker.fail_max (circuit_breaker st))
                   (CircuitBreaker.fail_counter (circuit_breaker st) + 1)); [lia|].
  all: unfold closed_failure_store; simpl; rewrite ?Hc; reflexivity.
Qed.

Lemma make_request_closed_response self method url kwargs st code text :
  CircuitBreaker.current (circuit_breaker st) = CircuitBreaker.Closed ->
  http_request E (net_attempts st) = NetResponse code text ->
  _make_request E self method url kwargs st
  = ([HttpRequest method url kwargs],
     set_circuit_breaker (set_net_attempts st (S (net_attempts st)))
       (CircuitBreaker.with_state (circuit_breaker st) CircuitBreaker.Closed 0
          (CircuitBreaker.opened_at (circuit_breaker st))),
     if (200 <=? code) && (code <=? 299) then Ok (Response.Build code text)
     else if (400 <=? code) && (code <? 500) then
       Raise (ExternalAPIError
                ("Client error from " +:+ ClientObject.base_url self
                   +:+ ": " +:+ Py.str_of_int code)
                (ClientObject.base_url self) code
                (Some {[ "response" := DStr (Py.slice_to 500 text) ]}))
     else Raise (HTTPStatusError code text)).
Proof.
  intros Hc Hr.
  cbv beta iota zeta delta [_make_request PyBreaker.call_async PyBreaker.call_closed client_request
       attempt try_except bind get_store CircuitBreaker.current_state raise ret
       log emit PyBreaker.set_counter modify raise_for_status is_success].
  rewrite Hc. simpl. rewrite ?Hc, Hr. simpl.
  rewrite ?Hc.
  destruct ((200 <=? code) && (code <=? 299)) eqn:H2;
    destruct ((400 <=? code) && (code <? 500)) eqn:H4;
    simpl; rewrite ?H2, ?H4; reflexivity.
Qed.

Lemma make_request_closed_trip self method url kwargs st :
  CircuitBreaker.current (circuit_breaker st) = CircuitBreaker.Closed ->
  is_failure (http_request E (net_attempts st)) = true ->
  CircuitBreaker.fail_max (circuit_breaker st)
    <= CircuitBreaker.fail_counter (circuit_breaker st) + 1 ->
  _make_request E self method url kwargs st
  = ([HttpRequest method url kwargs; Log "warning" "circuit_breaker_state_change"],
     set_circuit_breaker (set_net_attempts st (S (net_attempts st)))
       (CircuitBreaker.with_state (circuit_breaker st) CircuitBreaker.Open
          (CircuitBreaker.fail_counter (circuit_breaker st) + 1) (now st)),
     Raise (CircuitBreakerError "Failures threshold reached, circuit breaker opened")).
Proof.
  intros Hc Hr Hle.
  cbv beta iota zeta delta [_make_request PyBreaker.call_async PyBreaker.call_closed client_request
       attempt try_except bind get_store CircuitBreaker.current_state raise ret
       log emit PyBreaker.set_counter modify PyBreaker.transition _circuit_breaker_listener].
  rewrite Hc. simpl. rewrite ?Hc. simpl.
  destruct (http_request E (net_attempts st)) as [code text | msg | msg | tn msg];
    try discriminate Hr; simpl.
  all: destruct (Z.leb_spec (CircuitBreaker.fail_max (circuit_breaker st))
                   (CircuitBreaker.fail_counter (circuit_breaker st) + 1)); [|lia].
  all: simpl; reflexivity.
Qed.

Lemma make_request_closed_failure self method url kwargs st :
  CircuitBreaker.current (circuit_breaker st) = CircuitBreaker.Closed ->
  is_failure (http_request E (net_attempts st)) = true ->
  CircuitBreaker.fail_counter (circuit_breaker st) + 1
    < CircuitBreaker.fail_max (circuit_breaker st) ->
  final (_make_request E self method url kwargs st) = closed_failure_store st.
Proof.
  intros Hc Hr Hlt.
  cbv beta iota zeta delta [_make_request PyBreaker.call_async PyBreaker.call_closed client_request
       attempt try_except bind get_store CircuitBreaker.current_state raise ret
       log emit PyBreaker.set_counter modify].
  rewrite Hc. simpl. rewrite ?Hc. simpl.
  destruct (http_request E (net_attempts st)) as [code text | msg | msg | tn msg];
    try discriminate Hr; simpl.
  all: destruct (Z.leb_spec (CircuitBreaker.fail_max (circuit_breaker st))
                   (CircuitBreaker.fail_counter (circuit_breaker st) + 1)); [lia|].
  all: unfold closed_failure_store; simpl; rewrite ?Hc; reflexivity.
Qed.


Lemma request_with_retry_open self method url kwargs st :
  CircuitBreaker.current (circuit_breaker st) = CircuitBreaker.Open ->
  _request_with_retry E self method url kwargs st
  = ([], st, Raise (circuit_open_error self)).
Proof.
  intros Hopen. unfold _request_with_retry.
  apply retry_not_retryable; [apply make_request_open, Hopen | reflexivity].
Qed.

Lemma after_attempts_snoc k self method url kwargs st :
  after_attempts E (S k) self method url kwargs st
  = final (_make_request E self method url kwargs
             (after_attempts E k self method url kwargs st)).
Proof.
  revert st. induction k as [| k IH]; intros st; [reflexivity |].
  change (after_attempts E (S (S k)) self method url kwargs st)
    with (after_attempts E (S k) self method url kwargs
            (final (_make_request E self method url kwargs st))).
  rewrite IH. reflexivity.
Qed.

Lemma after_failures_closed self method url kwargs k st :
  CircuitBreaker.current (circuit_breaker st) = CircuitBreaker.Closed ->
  CircuitBreaker.fail_counter (circuit_breaker st) + Z.of_nat k
    < CircuitBreaker.fail_max (circuit_breaker st) ->
  (forall i, (i < k)%nat ->
     is_failure (http_request E (net_attempts st + i)%nat) = true) ->
  let st' := after_attempts E k self method url kwargs st in
  CircuitBreaker.current (circuit_breaker st') = CircuitBreaker.Closed
  /\ CircuitBreaker.fail_counter (circuit_breaker st')
     = CircuitBreaker.fail_counter (circuit_breaker st) + Z.of_nat k
  /\ net_attempts st' = (net_attempts st + k)%nat
  /\ CircuitBreaker.fail_max (circuit_breaker st')
     = CircuitBreaker.fail_max (circuit_breaker st)
  /\ now st' = now st.
Proof.
  revert st. induction k as [| k IH]; intros st Hc Hlt Hfail; simpl.
  - repeat split; auto; lia.
  - assert (Hstep : final (_make_request E self method url kwargs st)
                    = closed_failure_store st).
    { apply make_request_closed_failure; [exact Hc | | lia].
      specialize (Hfail 0%nat). rewrite Nat.add_0_r in Hfail. apply Hfail. lia. }
    rewrite Hstep.
    destruct (IH (closed_failure_store st)) as (H1 & H2 & H3 & H4 & H5).
    + reflexivity.
    + simpl. lia.
    + intros i Hi. simpl. specialize (Hfail (S i)).
      rewrite Nat.add_succ_r in Hfail. apply Hfail. lia.
    + simpl in H2, H3, H4, H5. repeat split; try assumption; lia.
Qed.

Lemma network_calls_app tr1 tr2 :
  network_calls (tr1 ++ tr2) = (network_calls tr1 + network_calls tr2)%nat.
Proof. unfold network_calls. rewrite List.filter_app, List.length_app. reflexivity. Qed.

Lemma retryable_raises o :
  is_retryable o = true ->
  exists e, net_result o = Raise e /\ retry_if_exception_type e = true.
Proof.
  destruct o; try discriminate; intros _; eexists; split; reflexivity.
Qed.

Lemma is_retryable_failure o : is_retryable o = true -> is_failure o = true.
Proof. destruct o; try discriminate; reflexivity. Qed.

(** With the circuit closed and room under the threshold, attempts that all
    end in timeouts or network errors are retried until the attempts are
    used up; the exception of the last attempt is then raised as it is. *)
Lemma retry_exhausted self method url kwargs n a st :
  CircuitBreaker.current (circuit_breaker st) = CircuitBreaker.Closed ->
  CircuitBreaker.fail_counter (circuit_breaker st) + Z.of_nat (S n)
    < CircuitBreaker.fail_max (circuit_breaker st) ->
  (forall i, (i <= n)%nat ->
     is_retryable (http_request E (net_attempts st + i)%nat) = true) ->
  let run := retry n a (_make_request E self method url kwargs) st in
  outcome run = net_result (http_request E (net_attempts st + n)%nat)
  /\ network_calls (events run) = S n.
Proof.
  revert a st. induction n as [| n IH]; intros a st Hc Hlt Hall run; subst run.
  - pose proof (Hall 0%nat (Nat.le_refl _)) as H0. rewrite Nat.add_0_r in *.
    destruct (retryable_raises _ H0) as (e & He & Hre).
    simpl retry. unfold try_except.
    rewrite make_request_closed_retryable by (assumption || lia).
    rewrite He, Hre. simpl. split; reflexivity.
  - pose proof (Hall 0%nat (Nat.le_0_l _)) as H0. rewrite Nat.add_0_r in H0.
    destruct (retryable_raises _ H0) as (e & He & Hre).
    simpl retry. unfold try_except.
    rewrite make_request_closed_retryable by (assumption || lia).
    rewrite He, Hre.
    set (st1 := set_now (closed_failure_store st)
                  (now (closed_failure_store st) + wait_exponential a)).
    rewrite (bind_ok (sleep (wait_exponential a)) _ (closed_failure_store st)
               [Sleep (wait_exponential a)] st1 tt) by reflexivity.
    destruct (IH (a + 1) st1) as [Hout Hcalls].
    + reflexivity.
    + simpl. lia.
    + intros i Hi. simpl. specialize (Hall (S i)).
      rewrite Nat.add_succ_r in Hall. apply Hall. lia.
    + unfold outcome at 1. unfold events at 1. simpl fst. simpl snd.
      split.
      * rewrite Hout. simpl. rewrite Nat.add_succ_r. reflexivity.
      * change (network_calls
                  ([HttpRequest method url kwargs;
                    Log "warning" "http_request_failed";
                    Sleep (wait_exponential a)]
                   ++ events (retry n (a + 1)
                                (_make_request E self method url kwargs) st1))
                = S (S n)).
        rewrite network_calls_app, Hcalls. reflexivity.
Qed.

(** The decorator raises nothing of its own: what it raises, an attempt
    raised. *)
Lemma retry_raises_what_an_attempt_raised {A} (func : M A) n a st e :
  outcome (retry n a func st) = Raise e ->
  exists st', outcome (func st') = Raise e.
Proof.
  revert a st. induction n as [| n IH]; intros a st; simpl retry;
    rewrite outcome_try_except;
    destruct (outcome (func st)) as [r | e'] eqn:Hf; try discriminate.
  - destruct (retry_if_exception_type e'); simpl; intros [= <-]; eauto.
  - destruct (retry_if_exception_type e'); simpl.
    + rewrite outcome_bind. simpl. apply IH.
    + intros [= <-]; eauto.
Qed.

(** No attempt, in any state of the breaker and whatever the network does,
    raises the "failed after N retries" error. *)
Lemma make_request_never_announces_exhaustion self method url kwargs st e :
  outcome (_make_request E self method url kwargs st) = Raise e ->
  ~ failed_after_retries self e.
Proof.
  cbv beta iota zeta delta [_make_request PyBreaker.call_async
       PyBreaker.call_closed PyBreaker.call_half_open client_request
       attempt try_except bind get_store CircuitBreaker.current_state raise ret
       log emit PyBreaker.set_counter modify raise_for_status is_success
       PyBreaker.transition _circuit_breaker_listener outcome failed_after_retries].
  destruct (CircuitBreaker.current (circuit_breaker st)) eqn:Hc; simpl; rewrite ?Hc; simpl.
  - destruct (http_request E (net_attempts st)) as [code text | msg | msg | tn msg];
      simpl; rewrite ?Hc.
    + destruct ((200 <=? code) && (code <=? 299)) eqn:H2; simpl; rewrite ?H2; simpl;
        [discriminate |].
      destruct (400 <=? code) eqn:H4; destruct (code <? 500) eqn:H5;
        simpl; rewrite ?H4, ?H5; simpl; try discriminate;
        intros [= <-] [d Hd]; discriminate Hd.
    + destruct (_ <=? _); simpl; intros [= <-] [d Hd]; discriminate Hd.
    + destruct (_ <=? _); simpl; intros [= <-] [d Hd]; discriminate Hd.
    + destruct (_ <=? _); simpl; intros [= <-] [d Hd]; discriminate Hd.
  - intros [= <-] [d Hd]. discriminate Hd.
  - destruct (http_request E (net_attempts st)) as [code text | msg | msg | tn msg];
      simpl; rewrite ?Hc.
    + destruct ((200 <=? code) && (code <=? 299)) eqn:H2; simpl; rewrite ?H2; simpl;
        [discriminate |].
      destruct (400 <=? code) eqn:H4; destruct (code <? 500) eqn:H5;
        simpl; rewrite ?H4, ?H5; simpl; try discriminate;
        intros [= <-] [d Hd]; discriminate Hd.
    + intros [= <-] [d Hd]; discriminate Hd.
    + intros [= <-] [d Hd]; discriminate Hd.
    + intros [= <-] [d Hd]; discriminate Hd.
Qed.

(** So the transport never raises it. *)
Lemma exhaustion_is_never_announced self method url kwargs st e :
  outcome (_request_with_retry E self method url kwargs st) = Raise e ->
  ~ failed_after_retries self e.
Proof.
  intros Hout. unfold _request_with_retry in Hout.
  apply retry_raises_what_an_attempt_raised in Hout. destruct Hout as [st' Hst'].
  eapply make_request_never_announces_exhaustion. exact Hst'.
Qed.

(** A response with a 2xx status is returned after one attempt; a status
    in 400..499 becomes the client error, with the body cut to 500
    characters; any other status is raised as the status error of the HTTP
    library; in every case there is one network attempt and no wait. *)
Lemma request_with_retry_response self method url kwargs st code text :
  CircuitBreaker.current (circuit_breaker st) = CircuitBreaker.Closed ->
  http_request E (net_attempts st) = NetResponse code text ->
  let run := _request_with_retry E self method url kwargs st in
  events run = [HttpRequest method url kwargs]
  /\ outcome run
     = if (200 <=? code) && (code <=? 299) then Ok (Response.Build code text)
       else if (400 <=? code) && (code <? 500) then
         Raise (ExternalAPIError
                  ("Client error from " +:+ ClientObject.base_url self
                     +:+ ": " +:+ Py.str_of_int code)
                  (ClientObject.base_url self) code
                  (Some {[ "response" := DStr (Py.slice_to 500 text) ]}))
       else Raise (HTTPStatusError code text).
Proof.
  intros Hc Hr run. subst run. unfold _request_with_retry.
  pose proof (make_request_closed_response self method url kwargs st code text Hc Hr)
    as Hmr.
  destruct ((200 <=? code) && (code <=? 299)) eqn:H2;
    [| destruct ((400 <=? code) && (code <? 500)) eqn:H4].
  - destruct (Z.to_nat (ClientObject.max_retries self - 1)); simpl retry;
      unfold try_except; rewrite Hmr; split; reflexivity.
  - rewrite (retry_not_retryable _ _ _ _ _ _ _ Hmr) by reflexivity.
    split; reflexivity.
  - rewrite (retry_not_retryable _ _ _ _ _ _ _ Hmr) by reflexivity.
    split; reflexivity.
Qed.

Lemma slice_to_length n s : (String.length (Py.slice_to n s) <= n)%nat.
Proof.
  unfold Py.slice_to. revert s. induction n as [| n IH]; intros s.
  - destruct s; simpl; lia.
  - destruct s as [| c s]; simpl; [lia |]. specialize (IH s). lia.
Qed.

(** The 4xx half of the classification: one attempt, the client error with
    the status code and at most 500 characters of the body. *)
Lemma client_error_is_not_retried self method url kwargs st code text :
  CircuitBreaker.current (circuit_breaker st) = CircuitBreaker.Closed ->
  http_request E (net_attempts st) = NetResponse code text ->
  400 <= code < 500 ->
  let run := _request_with_retry E self method url kwargs st in
  events run = [HttpRequest method url kwargs]
  /\ exists body,
       outcome run
       = Raise (AppError ExternalAPIErrorC
                  ("Client error from " +:+ ClientObject.base_url self
                     +:+ ": " +:+ Py.str_of_int code)
                  code
                  (<["service" := DStr (ClientObject.base_url self)]>
                     {[ "response" := DStr body ]}))
       /\ body = Py.slice_to 500 text
       /\ Py.len body <= 500.
Proof.
  intros Hc Hr Hcode run.
  destruct (request_with_retry_response self method url kwargs st code text Hc Hr)
    as [Hev Hout].
  split; [exact Hev |].
  exists (Py.slice_to 500 text).
  split; [| split; [reflexivity |]].
  - subst run. rewrite Hout.
    replace ((200 <=? code) && (code <=? 299)) with false
      by (symmetry; apply andb_false_iff; right; apply Z.leb_gt; lia).
    replace ((400 <=? code) && (code <? 500)) with true
      by (symmetry; apply andb_true_iff; split;
          [apply Z.leb_le | apply Z.ltb_lt]; lia).
    reflexivity.
  - unfold Py.len. pose proof (slice_to_length 500 text). lia.
Qed.

(** C8 (the 5xx half, on the code): a response with a status of 500 or more
    is not retried; after one network attempt and no wait the status error
    of the HTTP library is raised as it is. *)
Theorem server_error_is_not_retried self method url kwargs st code text :
  CircuitBreaker.current (circuit_breaker st) = CircuitBreaker.Closed ->
  http_request E (net_attempts st) = NetResponse code text ->
  500 <= code ->
  let run := _request_with_retry E self method url kwargs st in
  events run = [HttpRequest method url kwargs]
  /\ network_calls (events run) = 1%nat
  /\ outcome run = Raise (HTTPStatusError code text).
Proof.
  intros Hc Hr Hcode run.
  destruct (request_with_retry_response self method url kwargs st code text Hc Hr)
    as [Hev Hout].
  fold run in Hev, Hout.
  split; [exact Hev |]. split; [rewrite Hev; reflexivity |].
  rewrite Hout.
  replace ((200 <=? code) && (code <=? 299)) with false
    by (symmetry; apply andb_false_iff; right; apply Z.leb_gt; lia).
  replace ((400 <=? code) && (code <? 500)) with false
    by (symmetry; apply andb_false_iff; right; apply Z.ltb_ge; lia).
  reflexivity.
Qed.

(** C4 (on the code): when every attempt ends in a timeout or a network
    error, the call makes all its attempts and then raises the exception of
    the last attempt as it is, not the terminal error of the transport. *)
Theorem exhausted_retries_raise_last_network_error self method url kwargs st :
  let retries := Z.to_nat (ClientObject.max_retries self - 1) in
  CircuitBreaker.current (circuit_breaker st) = CircuitBreaker.Closed ->
  CircuitBreaker.fail_counter (circuit_breaker st) + Z.of_nat (S retries)
    < CircuitBreaker.fail_max (circuit_breaker st) ->
  (forall i, (i <= retries)%nat ->
     is_retryable (http_request E (net_attempts st + i)%nat) = true) ->
  let run := _request_with_retry E self method url kwargs st in
  network_calls (events run) = S retries
  /\ outcome run = net_result (http_request E (net_attempts st + retries)%nat)
  /\ (exists e, outcome run = Raise e /\ retry_if_exception_type e = true)
  /\ (forall e, outcome run = Raise e -> ~ failed_after_retries self e).
Proof.
  intros retries Hc Hlt Hall run.
  destruct (retry_exhausted self method url kwargs retries 1 st Hc Hlt Hall)
    as [Hout Hcalls].
  fold retries in run. change (retry retries 1 _ st) with run in Hout, Hcalls.
  destruct (retryable_raises _ (Hall retries (Nat.le_refl _))) as (e & He & Hre).
  split; [exact Hcalls |]. split; [exact Hout |]. split.
  - exists e. rewrite Hout. split; assumption.
  - intros e' He' [details Hfa]. rewrite Hout, He in He'.
    injection He' as <-. subst e. discriminate Hre.
Qed.

(** C2 (amended): the circuit stays closed below the failure threshold of
    the breaker and opens at the threshold-th consecutive failed network
    attempt; the threshold is 5 for the CXone client; while the circuit is
    open and the cool-down has not elapsed a call fails at once with the
    503 error, with no network attempt, no wait and no retry. *)
Theorem circuit_opens_at_threshold self method url kwargs st n :
  CircuitBreaker.current (circuit_breaker st) = CircuitBreaker.Closed ->
  CircuitBreaker.fail_counter (circuit_breaker st) = 0 ->
  CircuitBreaker.fail_max (circuit_breaker st) = Z.of_nat (S n) ->
  (forall i, (i <= n)%nat ->
     is_failure (http_request E (net_attempts st + i)%nat) = true) ->
  (forall k, (k <= n)%nat ->
     CircuitBreaker.current
       (circuit_breaker (after_attempts E k self method url kwargs st))
     = CircuitBreaker.Closed)
  /\ CircuitBreaker.current
       (circuit_breaker (after_attempts E (S n) self method url kwargs st))
     = CircuitBreaker.Open
  /\ (forall st',
        CircuitBreaker.current (circuit_breaker st') = CircuitBreaker.Open ->
        now st' < CircuitBreaker.opened_at (circuit_breaker st')
                  + CircuitBreaker.reset_timeout (circuit_breaker st') ->
        _request_with_retry E self method url kwargs st'
        = ([], st', Raise (circuit_open_error self)))
  /\ (forall settings st0,
        _cxone_client st0 = None ->
        CircuitBreaker.fail_max
          (circuit_breaker (final (CXoneClient.get_cxone_client settings st0)))
        = 5).
Proof.
  intros Hc H0 Hmax Hfail.
  assert (Hbelow : forall k, (k <= n)%nat ->
    let st' := after_attempts E k self method url kwargs st in
    CircuitBreaker.current (circuit_breaker st') = CircuitBreaker.Closed
    /\ CircuitBreaker.fail_counter (circuit_breaker st') = Z.of_nat k
    /\ net_attempts st' = (net_attempts st + k)%nat
    /\ CircuitBreaker.fail_max (circuit_breaker st') = Z.of_nat (S n)).
  { intros k Hk.
    destruct (after_failures_closed self method url kwargs k st) as (H1 & H2 & H3 & H4 & _).
    - exact Hc.
    - lia.
    - intros i Hi. apply Hfail. lia.
    - repeat split; try assumption; lia. }
  split; [intros k Hk; apply (Hbelow k Hk) |].
  split.
  - rewrite after_attempts_snoc.
    destruct (Hbelow n (Nat.le_refl _)) as (H1 & H2 & H3 & H4).
    rewrite make_request_closed_trip.
    + reflexivity.
    + exact H1.
    + rewrite H3. apply Hfail. lia.
    + lia.
  - split.
    + intros st' Hopen _. apply request_with_retry_open, Hopen.
    + intros settings st0 Hnone.
      unfold CXoneClient.get_cxone_client, CXoneClient.init, BaseHTTPClient.init,
        bind, get_store, modify, ret, final.
      rewrite Hnone. reflexivity.
Qed.

End Transport.

(** C2 (as stated): with the breaker the CXone client is built with, three
    consecutive failures leave the circuit closed, and the call that follows
    goes to the network. *)
Lemma three_failures_leave_default_circuit_closed :
  let st0 :=
    Runtime.final (CXoneClient.get_cxone_client Samples.settings Runtime.initial_store) in
  let first :=
    BaseHTTPClient.post Samples.downstream_down Samples.cxone_client
      "/channels/test_channel_id/messages" Samples.kwargs st0 in
  let second :=
    BaseHTTPClient.post Samples.downstream_down Samples.cxone_client
      "/channels/test_channel_id/messages" Samples.kwargs (Runtime.final first) in
  Runtime._cxone_client st0 = Some Samples.cxone_client
  /\ Spec.network_calls (Runtime.events first) = 3%nat
  /\ CircuitBreaker.fail_counter (Runtime.circuit_breaker (Runtime.final first)) = 3
  /\ CircuitBreaker.current (Runtime.circuit_breaker (Runtime.final first))
     = CircuitBreaker.Closed
  /\ Spec.network_calls (Runtime.events second) = 2%nat.
Proof. vm_compute. repeat split. Qed.

(** The refusal of [_make_request] rests on [current_state] alone: with the
    stored state still "open" long after the cool-down of 60 seconds, the
    call is refused as before and nothing reaches the network. *)
Example open_circuit_refuses_after_cool_down :
  let opened :=
    BaseHTTPClient.after_attempts Samples.downstream_down 5 Samples.cxone_client
      "POST" "/channels/test_channel_id/messages" Samples.kwargs
      Runtime.initial_store in
  let later := Runtime.set_now opened (Runtime.now opened + 3600) in
  BaseHTTPClient._request_with_retry Samples.downstream_down Samples.cxone_client
    "POST" "/channels/test_channel_id/messages" Samples.kwargs later
  = ([], later, Raise (Spec.circuit_open_error Samples.cxone_client)).
Proof. vm_compute. reflexivity. Qed.

Lemma circuit_opens_at_threshold_witness :
  CircuitBreaker.current
    (Runtime.circuit_breaker
       (BaseHTTPClient.after_attempts Samples.downstream_down 5
          Samples.cxone_client "POST" "/channels/test_channel_id/messages"
          Samples.kwargs Runtime.initial_store))
  = CircuitBreaker.Open.
Proof.
  refine (proj1 (proj2
    (circuit_opens_at_threshold Samples.downstream_down Samples.cxone_client
       "POST" "/channels/test_channel_id/messages" Samples.kwargs
       Runtime.initial_store 4 _ _ _ _))).
  - reflexivity.
  - reflexivity.
  - reflexivity.
  - intros i _. reflexivity.
Defined.

Lemma exhausted_retries_raise_last_network_error_witness :
  Runtime.outcome
    (BaseHTTPClient._request_with_retry Samples.downstream_down
       Samples.cxone_client "POST" "/channels/test_channel_id/messages"
       Samples.kwargs Runtime.initial_store)
  = Raise (Exceptions.NetworkError "connection refused").
Proof.
  refine (proj1 (proj2
    (exhausted_retries_raise_last_network_error Samples.downstream_down
       Samples.cxone_client "POST" "/channels/test_channel_id/messages"
       Samples.kwargs Runtime.initial_store _ _ _))).
  - reflexivity.
  - vm_compute. reflexivity.
  - intros i _. reflexivity.
Defined.

Lemma server_error_is_not_retried_witness :
  Runtime.outcome
    (BaseHTTPClient._request_with_retry
       (Samples.cxone_answers 500 "Internal Server Error")
       Samples.cxone_client "POST" "/channels/test_channel_id/messages"
       Samples.kwargs Runtime.initial_store)
  = Raise (Exceptions.HTTPStatusError 500 "Internal Server Error").
Proof.
  refine (proj2 (proj2
    (server_error_is_not_retried
       (Samples.cxone_answers 500 "Internal Server Error")
       Samples.cxone_client "POST" "/channels/test_channel_id/messages"
       Samples.kwargs Runtime.initial_store 500 "Internal Server Error" _ _ _))).
  - reflexivity.
  - reflexivity.
  - lia.
Defined.

(** ** The outbound adapters *)

Section Adapters.

Import Exceptions Runtime Spec.
Local Open Scope py_scope.

Context (E : env) (settings : Settings.t).

Lemma make_request_closed_events self method url kwargs st :
  CircuitBreaker.current (circuit_breaker st) = CircuitBreaker.Closed ->
  exists tr,
    events (BaseHTTPClient._make_request E self method url kwargs st)
    = HttpRequest method url kwargs :: tr.
Proof.
  intros Hc.
  cbv beta iota zeta delta [BaseHTTPClient._make_request PyBreaker.call_async
       PyBreaker.call_closed BaseHTTPClient.client_request
       attempt try_except bind get_store CircuitBreaker.current_state raise ret
       log emit PyBreaker.set_counter modify BaseHTTPClient.raise_for_status BaseHTTPClient.is_success
       PyBreaker.transition BaseHTTPClient._circuit_breaker_listener].
  rewrite Hc. simpl. rewrite ?Hc. simpl.
  destruct (http_request E (net_attempts st)) as [code text | msg | msg | tn msg];
    simpl; rewrite ?Hc.
  - destruct (200 <=? code) eqn:H2a; destruct (code <=? 299) eqn:H2b;
      destruct (400 <=? code) eqn:H4; destruct (code <? 500) eqn:H5;
      simpl; rewrite ?H2a, ?H2b, ?H4, ?H5; simpl; eexists; reflexivity.
  - destruct (_ <=? _); simpl; eexists; reflexivity.
  - destruct (_ <=? _); simpl; eexists; reflexivity.
  - destruct (_ <=? _); simpl; eexists; reflexivity.
Qed.

Lemma retry_events_prefix {A} (func : M A) n a st :
  exists tr, events (BaseHTTPClient.retry n a func st) = (events (func st) ++ tr)%list.
Proof.
  destruct n; simpl BaseHTTPClient.retry; rewrite events_try_except;
    destruct (outcome (func st)); eexists;
    try reflexivity; symmetry; apply app_nil_r.
Qed.

Lemma network_calls_in ev tr :
  In ev tr -> is_network ev = true -> (1 <= network_calls tr)%nat.
Proof.
  intros Hin Hnet. unfold network_calls.
  assert (Hf : In ev (List.filter is_network tr)).
  { apply List.filter_In. split; assumption. }
  destruct (List.filter is_network tr); [contradiction | simpl; lia].
Qed.

(** The sender of the messaging platform validates locally: an empty
    recipient, an empty text or a text of more than 10000 characters raises
    [MessageProcessingError] with nothing logged and nothing sent. *)
Lemma sender_validates_locally openid content st :
  openid = "" \/ content = "" \/ 10000 < Py.len content ->
  exists message,
    WeChatClient.wrapper_send_text_message E openid content st
    = ([], st, Raise (MessageProcessingError message None)).
Proof.
  intros H. unfold WeChatClient.wrapper_send_text_message.
  destruct (Py.str_truthy openid) eqn:Ho; simpl; [| eexists; reflexivity].
  destruct (Py.str_truthy content) eqn:Hc; simpl; [| eexists; reflexivity].
  apply str_truthy_true in Ho, Hc.
  destruct H as [H | [H | H]]; try contradiction.
  destruct (Z.gtb_spec (Py.len content) 10000); [| lia].
  eexists; reflexivity.
Qed.

(** The poster of the engagement platform validates the two emptiness
    conditions locally. *)
Lemma poster_validates_emptiness_locally self openid text st :
  openid = "" \/ text = "" ->
  exists message,
    CXoneClient.post_message E self openid text st
    = ([], st, Raise (MessageProcessingError message None)).
Proof.
  intros H. unfold CXoneClient.post_message.
  destruct (Py.str_truthy openid) eqn:Ho; simpl; [| eexists; reflexivity].
  destruct (Py.str_truthy text) eqn:Hc; simpl; [| eexists; reflexivity].
  apply str_truthy_true in Ho, Hc. destruct H; contradiction.
Qed.

(** C5 (the poster, on the code): a text of more than 10000 characters is
    not refused locally by the poster of the engagement platform; with a
    non-empty recipient the request goes to the network and the outcome is
    never a [MessageProcessingError]. *)
Theorem poster_sends_overlong_text self openid text st :
  openid <> "" -> text <> "" -> 10000 < Py.len text ->
  CircuitBreaker.current (circuit_breaker st) = CircuitBreaker.Closed ->
  let run := CXoneClient.post_message E self openid text st in
  In (HttpRequest "POST"
        ("/channels/" +:+ ClientObject.channel_id self +:+ "/messages")
        (RequestKwargs.Build openid text "text" "inbound"
           [ ("Authorization", "Bearer " +:+ ClientObject.bearer_token self);
             ("Content-Type", "application/json") ]))
     (events run)
  /\ (1 <= network_calls (events run))%nat
  /\ forall message details,
       outcome run <> Raise (MessageProcessingError message details).
Proof.
  intros Ho Ht Hlong Hc run.
  apply str_truthy_true in Ho, Ht.
  assert (Hin : In (HttpRequest "POST"
        ("/channels/" +:+ ClientObject.channel_id self +:+ "/messages")
        (RequestKwargs.Build openid text "text" "inbound"
           [ ("Authorization", "Bearer " +:+ ClientObject.bearer_token self);
             ("Content-Type", "application/json") ]))
     (events run)).
  { subst run. unfold CXoneClient.post_message. rewrite Ho, Ht. change (negb true) with false. cbv iota zeta.
    rewrite events_try_except.
    match goal with
    | |- context [events (bind (log ?l ?n) ?k st)] =>
        assert (Hev : exists tr, events (bind (log l n) k st)
                       = Log l n :: HttpRequest "POST"
        ("/channels/" +:+ ClientObject.channel_id self +:+ "/messages")
        (RequestKwargs.Build openid text "text" "inbound"
           [ ("Authorization", "Bearer " +:+ ClientObject.bearer_token self);
             ("Content-Type", "application/json") ]) :: tr)
    end.
    { rewrite events_bind. simpl outcome. cbv iota. 
      rewrite events_bind.
      change (final (log "info" "posting_message_to_cxone" st)) with st.
      unfold BaseHTTPClient.post, BaseHTTPClient._request_with_retry.
      destruct (retry_events_prefix
                  (BaseHTTPClient._make_request E self "POST"
                     ("/channels/" +:+ ClientObject.channel_id self +:+ "/messages")
                     (RequestKwargs.Build openid text "text" "inbound"
           [ ("Authorization", "Bearer " +:+ ClientObject.bearer_token self);
             ("Content-Type", "application/json") ]))
                  (Z.to_nat (ClientObject.max_retries self - 1)) 1 st) as [tr1 Htr1].
      destruct (make_request_closed_events self "POST"
                     ("/channels/" +:+ ClientObject.channel_id self +:+ "/messages")
                     (RequestKwargs.Build openid text "text" "inbound"
           [ ("Authorization", "Bearer " +:+ ClientObject.bearer_token self);
             ("Content-Type", "application/json") ]) st Hc) as [tr2 Htr2].
      rewrite Htr1, Htr2.
      match goal with
      | |- context [match ?o with Ok _ => _ | Raise _ => _ end] => destruct o
      end; simpl; eexists; reflexivity. }
    destruct Hev as [tr Hev]. rewrite Hev.
    match goal with
    | |- context [match ?o with Ok _ => _ | Raise _ => _ end] => destruct o
    end; simpl; auto. }
  split; [exact Hin |]. split; [eapply network_calls_in; [exact Hin | reflexivity] |].
  intros message details. subst run. unfold CXoneClient.post_message.
  rewrite Ho, Ht. change (negb true) with false. cbv iota zeta.
  rewrite outcome_try_except.
  match goal with
  | |- context [match ?o with Ok _ => _ | Raise _ => _ end] => destruct o as [r | e]
  end; [discriminate |].
  rewrite outcome_bind. simpl.
  destruct (isinstance e CXoneAPIErrorC) eqn:Hcx; simpl.
  - intros [= ->]. discriminate Hcx.
  - discriminate.
Qed.

End Adapters.

Lemma poster_sends_overlong_text_witness :
  (1 <= Spec.network_calls
          (Runtime.events
             (CXoneClient.post_message (Samples.cxone_answers 200 "{}")
                Samples.cxone_client "fromUser" (Samples.body_of_size 10001)
                Runtime.initial_store)))%nat.
Proof.
  refine (proj1 (proj2
    (poster_sends_overlong_text (Samples.cxone_answers 200 "{}")
       Samples.cxone_client "fromUser" (Samples.body_of_size 10001)
       Runtime.initial_store _ _ _ _))).
  - discriminate.
  - vm_compute. discriminate.
  - vm_compute. reflexivity.
  - reflexivity.
Defined.

(** ** The engagement-platform endpoint *)

Section Byoc.

Import Exceptions Runtime Spec.
Local Open Scope py_scope.

Context (E : env) (settings : Settings.t).

(** The module-level sender: with a non-empty recipient and a text of 1 to
    10000 characters it returns, or raises a [WeChatAPIError]; the counter of
    generated ids is left alone. *)
Lemma send_text_message_outcome openid text st :
  openid <> "" -> text <> "" -> Py.len text <= 10000 ->
  let run := WeChatClient.send_text_message E settings openid text st in
  uuid_calls (final run) = uuid_calls st
  /\ match outcome run with
     | Ok _ => True
     | Raise e => isinstance e WeChatAPIErrorC = true
     end
  /\ (Settings.mock_mode settings = false ->
      In (WeChatSendText openid text) (events run)
      /\ forall err, wechat_send_text E openid text = Raise err ->
           exists e, outcome run = Raise e).
Proof.
  intros Ho Ht Hlen run. subst run.
  apply str_truthy_true in Ho. apply str_truthy_true in Ht.
  cbv beta iota zeta delta [WeChatClient.send_text_message WeChatClient.get_wechat_client
    WeChatClient.client_send_text_message WeChatClient.wrapper_send_text_message
    MockWeChatClient.get_mock_wechat_client MockWeChatClient.send_text_message
    bind try_except get_store modify ret raise emit log lift].
  destruct (Settings.mock_mode settings); simpl.
  - destruct (_mock_wechat_client st); simpl; repeat split; try discriminate.
  - rewrite Ho, Ht. simpl.
    destruct (Z.gtb_spec (Py.len text) 10000) as [Hgt | _]; [lia |].
    destruct (wechat_send_text E openid text) as [d | [tn msg]]; simpl.
    + repeat split; auto. intros err. discriminate.
    + repeat split; auto. intros err _. eexists. reflexivity.
Qed.

(** The authentication dependency reads the header and the token only. *)
Lemma get_bearer_token_pure authorization st :
  exists r, ByocRoutes.get_bearer_token E settings authorization st = ([], st, r).
Proof.
  cbv beta iota zeta delta [ByocRoutes.get_bearer_token Auth.verify_token
    bind ret raise].
  destruct authorization as [header |]; [| eexists; reflexivity].
  destruct (negb (Py.str_truthy header) || negb (Py.startswith "Bearer " header));
    [eexists; reflexivity |].
  destruct (negb (Py.str_truthy (nth 1 (Py.split_space header) "")));
    [eexists; reflexivity |].
  destruct (jwt_decode E _ _) as [claims | | | tn msg]; simpl;
    try (eexists; reflexivity).
  destruct (CXoneMessagePayload.dict_truthy claims); eexists; reflexivity.
Qed.

(** The handler on a valid post id and a body that passes model validation:
    the two extraction errors when a value is missing, and otherwise a 200
    with the generated id, whatever the sender did. *)
Lemma post_message_cases id request token st body payload :
  id <> "" -> Py.len id <= 128 ->
  ByocRoutes.json_body request = Ok body ->
  CXoneMessagePayload.validate body = Ok payload ->
  outcome (ByocRoutes.post_message E settings id request token st)
  = match CXoneMessagePayload.get_openid payload,
          CXoneMessagePayload.get_text payload with
    | None, _ =>
        Raise (MessageProcessingError "Could not extract openid from payload"
                 (Some {[ "payload" := DPayload payload ]}))
    | Some _, None =>
        Raise (MessageProcessingError "Could not extract message text from payload"
                 (Some {[ "payload" := DPayload payload ]}))
    | Some _, Some _ =>
        Ok (Http.Build 200 (Http.MessageResponse (uuid4 E (uuid_calls st))))
    end.
Proof.
  intros Hid Hlen Hbody Hval.
  apply str_truthy_true in Hid.
  unfold ByocRoutes.post_message.
  rewrite Hid.
  destruct (Z.gtb_spec (Py.len id) 128) as [Hgt | _]; [lia |].
  change (negb true || false) with false. cbv iota.
  unfold outcome.
  rewrite (bind_ok _ _ st [] st payload);
    [| unfold try_except, bind, lift; rewrite Hbody; simpl; rewrite Hval;
       reflexivity].
  rewrite (bind_ok (log "info" "received_cxone_message") _ st
             [Log "info" "received_cxone_message"] st tt) by reflexivity.
  cbv zeta. simpl snd.
  pose proof (get_openid_not_empty payload) as Hno.
  pose proof (get_text_not_empty payload) as Hnt.
  destruct (CXoneMessagePayload.get_openid payload) as [o |] eqn:Hgo;
    [| reflexivity].
  assert (Ho : o <> "") by congruence.
  change (Py.opt_truthy (Some o)) with (Py.str_truthy o).
  rewrite (proj2 (str_truthy_true o) Ho). change (negb true) with false. cbv iota.
  destruct (CXoneMessagePayload.get_text payload) as [t |] eqn:Hgt';
    [| reflexivity].
  assert (Ht : t <> "") by congruence.
  change (Py.opt_truthy (Some t)) with (Py.str_truthy t).
  rewrite (proj2 (str_truthy_true t) Ht). change (negb true) with false. cbv iota.
  change (default "" (Some o)) with o. change (default "" (Some t)) with t.
  pose proof (validate_get_text_len body payload t Hval Hgt') as Hlt.
  destruct (send_text_message_outcome o t st Ho Ht Hlt) as (Huuid & Hout & _).
  assert (Htry : exists tr st1,
    try_except
      (_ <- WeChatClient.send_text_message E settings o t ;;
       log "info" "message_sent_to_wechat")
      (fun e =>
         if isinstance e WeChatAPIErrorC then log "error" "failed_to_send_to_wechat"
         else raise e) st = (tr, st1, Ok tt)
    /\ uuid_calls st1 = uuid_calls st).
  { unfold try_except, bind.
    destruct (WeChatClient.send_text_message E settings o t st)
      as [[tr st1] [d | e]]; unfold outcome, final in *; simpl in *.
    - eexists _, _. split; [reflexivity | exact Huuid].
    - rewrite Hout. simpl. eexists _, _. split; [reflexivity | exact Huuid]. }
  destruct Htry as (tr & st1 & Htry & Huuid1).
  rewrite (bind_ok _ _ st tr st1 tt Htry).
  unfold outcome. simpl. rewrite Huuid1. reflexivity.
Qed.

(** The authentication dependency, then the handler. *)
Lemma post_message_endpoint_authenticated authorization id request st token :
  outcome (ByocRoutes.get_bearer_token E settings authorization st) = Ok token ->
  ByocRoutes.post_message_endpoint E settings authorization id request st
  = ByocRoutes.post_message E settings id request token st.
Proof.
  intros Hauth. unfold ByocRoutes.post_message_endpoint.
  destruct (get_bearer_token_pure authorization st) as [r Hr].
  rewrite Hr in Hauth. unfold outcome in Hauth. simpl in Hauth. subst r.
  rewrite (bind_ok _ _ _ _ _ _ Hr). simpl.
  destruct (ByocRoutes.post_message E settings id request token st) as [[tr st'] r'].
  reflexivity.
Qed.

(** With the real client, a failure of the messaging platform is logged by
    the handler. *)
Lemma post_message_logs_downstream_failure id request token st body payload
    openid text err :
  id <> "" -> Py.len id <= 128 ->
  ByocRoutes.json_body request = Ok body ->
  CXoneMessagePayload.validate body = Ok payload ->
  CXoneMessagePayload.get_openid payload = Some openid ->
  CXoneMessagePayload.get_text payload = Some text ->
  Settings.mock_mode settings = false ->
  wechat_send_text E openid text = Raise err ->
  let tr := events (ByocRoutes.post_message E settings id request token st) in
  In (WeChatSendText openid text) tr
  /\ In (Log "error" "failed_to_send_to_wechat") tr.
Proof.
  intros Hid Hlen Hbody Hval Hgo Hgt Hmock Herr tr. subst tr.
  assert (Ho : openid <> "").
  { intros ->. apply (get_openid_not_empty payload). exact Hgo. }
  assert (Ht : text <> "").
  { intros ->. apply (get_text_not_empty payload). exact Hgt. }
  pose proof (validate_get_text_len body payload text Hval Hgt) as Hlt.
  apply str_truthy_true in Hid.
  unfold ByocRoutes.post_message.
  rewrite Hid.
  destruct (Z.gtb_spec (Py.len id) 128) as [Hgt' | _]; [lia |].
  change (negb true || false) with false. cbv iota.
  unfold events.
  rewrite (bind_ok _ _ st [] st payload);
    [| unfold try_except, bind, lift; rewrite Hbody; simpl; rewrite Hval;
       reflexivity].
  rewrite (bind_ok (log "info" "received_cxone_message") _ st
             [Log "info" "received_cxone_message"] st tt) by reflexivity.
  cbv zeta. rewrite Hgo, Hgt.
  change (Py.opt_truthy (Some openid)) with (Py.str_truthy openid).
  change (Py.opt_truthy (Some text)) with (Py.str_truthy text).
  rewrite (proj2 (str_truthy_true openid) Ho), (proj2 (str_truthy_true text) Ht).
  change (negb true) with false. cbv iota.
  change (default "" (Some openid)) with openid.
  change (default "" (Some text)) with text.
  destruct (send_text_message_outcome openid text st Ho Ht Hlt) as (_ & Hout & Hreal).
  destruct (Hreal Hmock) as [Hin Hraise].
  destruct (Hraise err Herr) as [e He].
  rewrite He in Hout.
  simpl fst.
  rewrite events_bind, outcome_try_except, events_try_except, outcome_bind, events_bind.
  rewrite He. rewrite Hout. simpl.
  split.
  - right. apply in_or_app. left. apply in_or_app. left. exact Hin.
  - right. apply in_or_app. left. apply in_or_app. right. left. reflexivity.
Qed.

(** C7: an authenticated request with a valid post id and a body that
    passes validation, from which an openid and a text are extracted, is
    answered 200 with the generated id, whatever the send to the messaging
    platform does; a failure of that send is logged and goes no further. *)
Theorem post_message_acknowledged_despite_downstream_failure
    authorization id request st token body payload openid text :
  outcome (ByocRoutes.get_bearer_token E settings authorization st) = Ok token ->
  id <> "" -> Py.len id <= 128 ->
  ByocRoutes.json_body request = Ok body ->
  CXoneMessagePayload.validate body = Ok payload ->
  CXoneMessagePayload.get_openid payload = Some openid ->
  CXoneMessagePayload.get_text payload = Some text ->
  let route := ByocRoutes.post_message_endpoint E settings authorization id request in
  let answer := Http.Build 200 (Http.MessageResponse (uuid4 E (uuid_calls st))) in
  outcome (route st) = Ok answer
  /\ outcome (Main.serve route st) = Ok answer
  /\ (forall err,
        Settings.mock_mode settings = false ->
        wechat_send_text E openid text = Raise err ->
        In (WeChatSendText openid text) (events (route st))
        /\ In (Log "error" "failed_to_send_to_wechat") (events (route st))).
Proof.
  intros Hauth Hid Hlen Hbody Hval Hgo Hgt route answer.
  assert (Hroute : route st = ByocRoutes.post_message E settings id request token st).
  { apply post_message_endpoint_authenticated, Hauth. }
  assert (Hout : outcome (route st) = Ok answer).
  { rewrite Hroute.
    rewrite (post_message_cases id request token st body payload Hid Hlen Hbody Hval).
    rewrite Hgo, Hgt. reflexivity. }
  split; [exact Hout |]. split; [apply outcome_serve, Hout |].
  intros err Hmock Herr. rewrite Hroute.
  apply (post_message_logs_downstream_failure id request token st body payload
           openid text err); assumption.
Qed.

(** C10: extraction yields nothing or a non-empty string, never the empty
    string; and on a validated payload the handler raises the openid error
    exactly when no openid is extracted, the text error exactly when an
    openid but no text is extracted, and answers otherwise. *)
Theorem extraction_is_none_or_non_empty :
  (forall p,
     CXoneMessagePayload.get_openid p <> Some ""
     /\ CXoneMessagePayload.get_text p <> Some "")
  /\ (forall id request token st body payload,
        id <> "" -> Py.len id <= 128 ->
        ByocRoutes.json_body request = Ok body ->
        CXoneMessagePayload.validate body = Ok payload ->
        let out := outcome (ByocRoutes.post_message E settings id request token st) in
        (out = Raise (MessageProcessingError "Could not extract openid from payload"
                        (Some {[ "payload" := DPayload payload ]}))
         <-> CXoneMessagePayload.get_openid payload = None)
        /\ (out = Raise (MessageProcessingError
                           "Could not extract message text from payload"
                           (Some {[ "payload" := DPayload payload ]}))
            <-> CXoneMessagePayload.get_openid payload <> None
                /\ CXoneMessagePayload.get_text payload = None)
        /\ ((exists r, out = Ok r)
            <-> CXoneMessagePayload.get_openid payload <> None
                /\ CXoneMessagePayload.get_text payload <> None)).
Proof.
  split.
  - intros p. split; [apply get_openid_not_empty | apply get_text_not_empty].
  - intros id request token st body payload Hid Hlen Hbody Hval out. subst out.
    rewrite (post_message_cases id request token st body payload Hid Hlen Hbody Hval).
    destruct (CXoneMessagePayload.get_openid payload) as [o |];
      [destruct (CXoneMessagePayload.get_text payload) as [t |] |].
    + split; [split; discriminate |].
      split; [split; [discriminate | intros [_ H]; discriminate H] |].
      split; [intros _; split; discriminate | intros _; eexists; reflexivity].
    + split; [split; discriminate |].
      split; [split; [intros _; split; [discriminate | reflexivity] | reflexivity] |].
      split; [intros [r Hr]; discriminate Hr | intros [_ H]; contradiction].
    + split; [split; reflexivity |].
      split; [split; [discriminate | intros [H _]; contradiction] |].
      split; [intros [r Hr]; discriminate Hr | intros [H _]; contradiction].
Qed.

End Byoc.

(** The round trip of the specification: a thread id and a message text
    reach the sender once, as they are. *)
Example post_message_round_trip :
  let run :=
    ByocRoutes.post_message_endpoint (Samples.cxone_answers 200 "{}")
      Samples.settings (Some "Bearer test_token") "test123"
      (ByocRoutes.BuildRequest (Ok Samples.thread_payload))
      Runtime.initial_store in
  List.filter Runtime.is_network (Runtime.events run)
  = [Runtime.WeChatSendText "test_openid" "Hello from CXone"].
Proof. vm_compute. reflexivity. Qed.

(** A missing or malformed Authorization header is a 401. *)
Example post_message_requires_bearer_token :
  Runtime.outcome
    (Main.serve
       (ByocRoutes.post_message_endpoint Samples.downstream_down Samples.settings
          (Some "Basic abc") "test123"
          (ByocRoutes.BuildRequest (Ok Samples.thread_payload)))
       Runtime.initial_store)
  = Ok (Http.JSONResponse 401 "AuthenticationError"
          "Missing or invalid Authorization header" ∅).
Proof. vm_compute. reflexivity. Qed.

Lemma post_message_acknowledged_despite_downstream_failure_witness :
  Runtime.outcome
    (Main.serve
       (ByocRoutes.post_message_endpoint Samples.downstream_down Samples.settings
          (Some "Bearer test_token") "test123"
          (ByocRoutes.BuildRequest (Ok Samples.thread_payload)))
       Runtime.initial_store)
  = Ok (Http.Build 200 (Http.MessageResponse "generated-id-0")).
Proof.
  refine (proj1 (proj2
    (post_message_acknowledged_despite_downstream_failure Samples.downstream_down
       Samples.settings (Some "Bearer test_token") "test123"
       (ByocRoutes.BuildRequest (Ok Samples.thread_payload))
       Runtime.initial_store "test_token" Samples.thread_payload
       Samples.thread_payload "test_openid" "Hello from CXone"
       _ _ _ _ _ _ _))).
  - vm_compute. reflexivity.
  - discriminate.
  - vm_compute. discriminate.
  - reflexivity.
  - reflexivity.
  - reflexivity.
  - reflexivity.
Defined.

Lemma extraction_is_none_or_non_empty_witness :
  Runtime.outcome
    (ByocRoutes.post_message Samples.downstream_down Samples.settings "test123"
       (ByocRoutes.BuildRequest (Ok Samples.empty_payload)) "test_token"
       Runtime.initial_store)
  = Raise (Exceptions.MessageProcessingError "Could not extract openid from payload"
             (Some {[ "payload" := Exceptions.DPayload Samples.empty_payload ]})).
Proof.
  refine (proj2 (proj1
    (proj2 (extraction_is_none_or_non_empty Samples.downstream_down Samples.settings)
       "test123" (ByocRoutes.BuildRequest (Ok Samples.empty_payload)) "test_token"
       Runtime.initial_store Samples.empty_payload Samples.empty_payload
       _ _ _ _)) _).
  - discriminate.
  - vm_compute. discriminate.
  - reflexivity.
  - reflexivity.
  - reflexivity.
Defined.

(* ===================================================================== *)
(** * Further properties of the code *)
(* ===================================================================== *)

(** ** What a computation emits *)

Section TraceFacts.

Import Exceptions Runtime Spec Spec2 BaseHTTPClient.
Local Open Scope py_scope.

Context (P : event -> Prop).

Lemma emits_only_ret {A} (a : A) : emits_only P (ret a).
Proof. intros st. constructor. Qed.

Lemma emits_only_raise {A} e : emits_only P (@raise A e).
Proof. intros st. constructor. Qed.

Lemma emits_only_lift {A} (o : lib_outcome A) : emits_only P (lift o).
Proof. intros st. destruct o as [a | [tn msg]]; constructor. Qed.

Lemma emits_only_emit ev : P ev -> emits_only P (emit ev).
Proof. intros H st. repeat constructor. exact H. Qed.

Lemma emits_only_get_store : emits_only P get_store.
Proof. intros st. constructor. Qed.

Lemma emits_only_modify f : emits_only P (modify f).
Proof. intros st. constructor. Qed.

Lemma emits_only_bind {A B} (m : M A) (k : A -> M B) :
  emits_only P m -> (forall a, emits_only P (k a)) -> emits_only P (bind m k).
Proof.
  intros Hm Hk st. rewrite events_bind.
  destruct (outcome (m st)) as [a | e]; [| apply Hm].
  apply Forall_app. split; [apply Hm | apply Hk].
Qed.

Lemma emits_only_try_except {A} (body : M A) (handler : exn -> M A) :
  emits_only P body -> (forall e, emits_only P (handler e)) ->
  emits_only P (try_except body handler).
Proof.
  intros Hb Hh st. rewrite events_try_except.
  destruct (outcome (body st)) as [a | e]; [apply Hb |].
  apply Forall_app. split; [apply Hb | apply Hh].
Qed.

Lemma emits_only_attempt {A} (m : M A) : emits_only P m -> emits_only P (attempt m).
Proof.
  intros Hm st. specialize (Hm st). unfold attempt, events in *.
  destruct (m st) as [[tr st'] r]. exact Hm.
Qed.

Lemma emits_only_retry {A} (func : M A) n a :
  (forall k, P (Sleep (wait_exponential k))) ->
  emits_only P func -> emits_only P (retry n a func).
Proof.
  intros Hs Hf. revert a. induction n as [| n IH]; intros a; simpl retry;
    apply emits_only_try_except; auto; intros e;
    destruct (retry_if_exception_type e); try apply emits_only_raise.
  apply emits_only_bind; [| intros _; apply IH].
  intros st. repeat constructor. apply Hs.
Qed.

End TraceFacts.

(** ** One attempt of the transport: its events and the state it touches *)

Section TraceAndFrame.

Import Exceptions Runtime Spec Spec2 BaseHTTPClient.
Local Open Scope py_scope.
Context (E : env).
Implicit Types (self : ClientObject.t) (kwargs : RequestKwargs.t) (st : store).

Lemma emits_only_if {A} P (b : bool) (m1 m2 : M A) :
  emits_only P m1 -> emits_only P m2 -> emits_only P (if b then m1 else m2).
Proof. destruct b; auto. Qed.

(** Whatever the breaker does around it, one attempt emits log records and
    at most the one request. *)
Lemma make_request_emits self method url kwargs (P : event -> Prop) :
  (forall level name, P (Log level name)) ->
  P (HttpRequest method url kwargs) ->
  emits_only P (_make_request E self method url kwargs).
Proof.
  intros Hlog Hreq.
  assert (Hcr : emits_only P (client_request E self method url kwargs)).
  { intros st. repeat constructor. exact Hreq. }
  assert (Hl : forall s, emits_only P (_circuit_breaker_listener self s)).
  { intros s. apply emits_only_emit, Hlog. }
  assert (Htr : forall s c o, emits_only P (PyBreaker.transition (_circuit_breaker_listener self) s c o)).
  { intros. unfold PyBreaker.transition.
    apply emits_only_bind; [apply emits_only_modify | intros _].
    apply emits_only_bind; [apply emits_only_get_store | intros ?]. apply Hl. }
  assert (Hsc : forall c, emits_only P (PyBreaker.set_counter c)).
  { intros. apply emits_only_modify. }
  assert (Hho : emits_only P (PyBreaker.call_half_open (_circuit_breaker_listener self)
                                (client_request E self method url kwargs))).
  { unfold PyBreaker.call_half_open.
    apply emits_only_bind; [apply emits_only_attempt, Hcr | intros [a | e]].
    - apply emits_only_bind; [apply Htr | intros _; apply emits_only_ret].
    - apply emits_only_bind; [apply emits_only_get_store | intros ?].
      apply emits_only_bind; [apply Htr | intros _; apply emits_only_raise]. }
  unfold _make_request. apply emits_only_try_except.
  - apply emits_only_bind; [apply emits_only_get_store | intros st0].
    apply emits_only_if; [apply emits_only_raise |].
    apply emits_only_bind.
    + unfold PyBreaker.call_async.
      apply emits_only_bind; [apply emits_only_get_store | intros st1].
      destruct (CircuitBreaker.current (circuit_breaker st1)).
      * unfold PyBreaker.call_closed.
        apply emits_only_bind; [apply emits_only_attempt, Hcr | intros [a | e]].
        -- apply emits_only_bind; [apply Hsc | intros _; apply emits_only_ret].
        -- apply emits_only_bind; [apply emits_only_get_store | intros ?].
           apply emits_only_if.
           ++ apply emits_only_bind; [apply Htr | intros _; apply emits_only_raise].
           ++ apply emits_only_bind; [apply Hsc | intros _; apply emits_only_raise].
      * apply emits_only_if; [apply emits_only_raise |].
        apply emits_only_bind; [apply Htr | intros _; apply Hho].
      * apply Hho.
    + intros response. apply emits_only_bind; [| intros _; apply emits_only_ret].
      unfold raise_for_status. apply emits_only_if;
        [apply emits_only_ret | apply emits_only_raise].
  - intros e. destruct e; try apply emits_only_raise.
    + apply emits_only_if; apply emits_only_raise.
    + apply emits_only_bind; [apply emits_only_emit, Hlog | intros _; apply emits_only_raise].
    + apply emits_only_bind; [apply emits_only_emit, Hlog | intros _; apply emits_only_raise].
Qed.


Lemma final_bind {A B} (m : M A) (k : A -> M B) st :
  final (bind m k st)
  = match outcome (m st) with
    | Ok a => final (k a (final (m st)))
    | Raise e => final (m st)
    end.
Proof.
  unfold bind, outcome, events, final.
  destruct (m st) as [[tr st'] [a | e]]; simpl; [| reflexivity].
  destruct (k a st') as [[tr' st''] r]. reflexivity.
Qed.

Lemma final_try_except {A} (body : M A) (handler : exn -> M A) st :
  final (try_except body handler st)
  = match outcome (body st) with
    | Ok a => final (body st)
    | Raise e => final (handler e (final (body st)))
    end.
Proof.
  unfold try_except, outcome, events, final.
  destruct (body st) as [[tr st'] [a | e]]; simpl; [reflexivity |].
  destruct (handler e st') as [[tr' st''] r]. reflexivity.
Qed.

Section Preserves.

Context (R : store -> store -> Prop).
Context (R_refl : forall st, R st st).
Context (R_trans : forall a b c, R a b -> R b c -> R a c).

Lemma preserves_ret {A} (a : A) : preserves R (ret a).
Proof. intros st. apply R_refl. Qed.

Lemma preserves_raise {A} e : preserves R (@raise A e).
Proof. intros st. apply R_refl. Qed.

Lemma preserves_lift {A} (o : lib_outcome A) : preserves R (lift o).
Proof. intros st. destruct o as [a | [tn msg]]; apply R_refl. Qed.

Lemma preserves_emit ev : preserves R (emit ev).
Proof. intros st. apply R_refl. Qed.

Lemma preserves_get_store : preserves R get_store.
Proof. intros st. apply R_refl. Qed.

Lemma preserves_modify f : (forall st, R st (f st)) -> preserves R (modify f).
Proof. intros H st. apply H. Qed.

Lemma preserves_bind {A B} (m : M A) (k : A -> M B) :
  preserves R m -> (forall a, preserves R (k a)) -> preserves R (bind m k).
Proof.
  intros Hm Hk st. rewrite final_bind.
  destruct (outcome (m st)) as [a | e]; [| apply Hm].
  eapply R_trans; [apply Hm | apply Hk].
Qed.

Lemma preserves_try_except {A} (body : M A) (handler : exn -> M A) :
  preserves R body -> (forall e, preserves R (handler e)) ->
  preserves R (try_except body handler).
Proof.
  intros Hb Hh st. rewrite final_try_except.
  destruct (outcome (body st)) as [a | e]; [apply Hb |].
  eapply R_trans; [apply Hb | apply Hh].
Qed.

Lemma preserves_attempt {A} (m : M A) : preserves R m -> preserves R (attempt m).
Proof.
  intros Hm st. specialize (Hm st). unfold attempt, final in *.
  destruct (m st) as [[tr st'] r]. exact Hm.
Qed.

Lemma preserves_if {A} (b : bool) (m1 m2 : M A) :
  preserves R m1 -> preserves R m2 -> preserves R (if b then m1 else m2).
Proof. destruct b; auto. Qed.

Lemma preserves_retry {A} (func : M A) n a :
  (forall k, preserves R (sleep k)) ->
  preserves R func -> preserves R (retry n a func).
Proof.
  intros Hs Hf. revert a. induction n as [| n IH]; intros a; simpl retry;
    apply preserves_try_except; auto; intros e;
    destruct (retry_if_exception_type e); try apply preserves_raise.
  apply preserves_bind; [apply Hs | intros _; apply IH].
Qed.

(** One attempt changes the store through the request, the counter of the
    breaker and its transitions only. *)
Lemma make_request_preserves self method url kwargs :
  (forall st n, R st (set_net_attempts st n)) ->
  (forall st s c o,
     R st (set_circuit_breaker st
             (CircuitBreaker.with_state (circuit_breaker st) s c o))) ->
  preserves R (_make_request E self method url kwargs).
Proof.
  intros Hnet Hcb.
  assert (Hcr : preserves R (client_request E self method url kwargs)).
  { intros st. apply Hnet. }
  assert (Hl : forall s, preserves R (_circuit_breaker_listener self s)).
  { intros s. apply preserves_emit. }
  assert (Htr : forall s c o,
    preserves R (PyBreaker.transition (_circuit_breaker_listener self) s c o)).
  { intros. unfold PyBreaker.transition.
    apply preserves_bind; [apply preserves_modify; intros; apply Hcb | intros _].
    apply preserves_bind; [apply preserves_get_store | intros ?]. apply Hl. }
  assert (Hsc : forall c, preserves R (PyBreaker.set_counter c)).
  { intros. apply preserves_modify. intros. apply Hcb. }
  assert (Hho : preserves R (PyBreaker.call_half_open (_circuit_breaker_listener self)
                               (client_request E self method url kwargs))).
  { unfold PyBreaker.call_half_open.
    apply preserves_bind; [apply preserves_attempt, Hcr | intros [a | e]].
    - apply preserves_bind; [apply Htr | intros _; apply preserves_ret].
    - apply preserves_bind; [apply preserves_get_store | intros ?].
      apply preserves_bind; [apply Htr | intros _; apply preserves_raise]. }
  unfold _make_request. apply preserves_try_except.
  - apply preserves_bind; [apply preserves_get_store | intros st0].
    apply preserves_if; [apply preserves_raise |].
    apply preserves_bind.
    + unfold PyBreaker.call_async.
      apply preserves_bind; [apply preserves_get_store | intros st1].
      destruct (CircuitBreaker.current (circuit_breaker st1)).
      * unfold PyBreaker.call_closed.
        apply preserves_bind; [apply preserves_attempt, Hcr | intros [a | e]].
        -- apply preserves_bind; [apply Hsc | intros _; apply preserves_ret].
        -- apply preserves_bind; [apply preserves_get_store | intros ?].
           apply preserves_if.
           ++ apply preserves_bind; [apply Htr | intros _; apply preserves_raise].
           ++ apply preserves_bind; [apply Hsc | intros _; apply preserves_raise].
      * apply preserves_if; [apply preserves_raise |].
        apply preserves_bind; [apply Htr | intros _; apply Hho].
      * apply Hho.
    + intros response. apply preserves_bind; [| intros _; apply preserves_ret].
      unfold raise_for_status. apply preserves_if;
        [apply preserves_ret | apply preserves_raise].
  - intros e. destruct e; try apply preserves_raise.
    + apply preserves_if; apply preserves_raise.
    + apply preserves_bind; [apply preserves_emit | intros _; apply preserves_raise].
    + apply preserves_bind; [apply preserves_emit | intros _; apply preserves_raise].
Qed.

End Preserves.
End TraceAndFrame.

(** ** The transport: the number of attempts *)

Section TransportBounds.

Import Exceptions Runtime Spec Spec2 BaseHTTPClient.
Local Open Scope py_scope.
Context (E : env).
Implicit Types (self : ClientObject.t) (kwargs : RequestKwargs.t) (st : store).

Lemma wait_exponential_bounds k : 2 <= wait_exponential k <= 10.
Proof. unfold wait_exponential. generalize (1 * 2 ^ (k - 1)). intros z. lia. Qed.

Example wait_exponential_values :
  map wait_exponential [1; 2; 3; 4; 5; 6] = [2; 2; 4; 8; 10; 10].
Proof. reflexivity. Qed.

Lemma same_objects_refl st : same_objects st st.
Proof. repeat split. Qed.

Lemma same_objects_trans a b c : same_objects a b -> same_objects b c -> same_objects a c.
Proof.
  unfold same_objects. intros (H1 & H2 & H3 & H4 & H5 & H6) (G1 & G2 & G3 & G4 & G5 & G6).
  repeat split; congruence.
Qed.

(** One attempt makes at most one network call. *)
Lemma make_request_at_most_one_call self method url kwargs st :
  (network_calls (events (_make_request E self method url kwargs st)) <= 1)%nat.
Proof.
  cbv beta iota zeta delta [_make_request PyBreaker.call_async
       PyBreaker.call_closed PyBreaker.call_half_open client_request
       attempt try_except bind get_store CircuitBreaker.current_state raise ret
       log emit PyBreaker.set_counter modify raise_for_status is_success
       PyBreaker.transition _circuit_breaker_listener events].
  destruct (CircuitBreaker.current (circuit_breaker st)) eqn:Hc; simpl; rewrite ?Hc; simpl.
  - destruct (http_request E (net_attempts st)) as [code text | msg | msg | tn msg];
      simpl; rewrite ?Hc.
    + destruct (200 <=? code) eqn:H2a; destruct (code <=? 299) eqn:H2b;
        destruct (400 <=? code) eqn:H4; destruct (code <? 500) eqn:H5;
        simpl; rewrite ?H2a, ?H2b, ?H4, ?H5; simpl; unfold network_calls; simpl; lia.
    + destruct (_ <=? _); simpl; unfold network_calls; simpl; lia.
    + destruct (_ <=? _); simpl; unfold network_calls; simpl; lia.
    + destruct (_ <=? _); simpl; unfold network_calls; simpl; lia.
  - unfold network_calls; simpl; lia.
  - destruct (http_request E (net_attempts st)) as [code text | msg | msg | tn msg];
      simpl; rewrite ?Hc.
    + destruct (200 <=? code) eqn:H2a; destruct (code <=? 299) eqn:H2b;
        destruct (400 <=? code) eqn:H4; destruct (code <? 500) eqn:H5;
        simpl; rewrite ?H2a, ?H2b, ?H4, ?H5; simpl; unfold network_calls; simpl; lia.
    + unfold network_calls; simpl; lia.
    + unfold network_calls; simpl; lia.
    + unfold network_calls; simpl; lia.
Qed.

Lemma retry_calls_bounded {A} (func : M A) n a st :
  (forall st', (network_calls (events (func st')) <= 1)%nat) ->
  (network_calls (events (retry n a func st)) <= S n)%nat.
Proof.
  intros Hf. revert a st. induction n as [| n IH]; intros a st; simpl retry;
    rewrite events_try_except; pose proof (Hf st) as H1;
    destruct (outcome (func st)) as [r | e]; try lia;
    rewrite network_calls_app;
    destruct (retry_if_exception_type e); simpl; try (unfold network_calls at 2; simpl; lia).
  rewrite events_bind. simpl. specialize (IH (a + 1) (final (sleep (wait_exponential a) (final (func st))))).
  change (network_calls (Sleep (wait_exponential a) :: ?x)) with (network_calls x).
  lia.
Qed.

(** X1: whatever the network answers and in whatever state the circuit
    breaker is, one call of the transport puts at most [max_retries]
    requests on the network, and at most one when [max_retries] is below
    1. *)
Theorem attempts_are_bounded self method url kwargs st :
  (network_calls (events (_request_with_retry E self method url kwargs st))
   <= S (Z.to_nat (ClientObject.max_retries self - 1)))%nat
  /\ Z.of_nat (network_calls (events (_request_with_retry E self method url kwargs st)))
     <= Z.max 1 (ClientObject.max_retries self).
Proof.
  assert (H : (network_calls (events (_request_with_retry E self method url kwargs st))
   <= S (Z.to_nat (ClientObject.max_retries self - 1)))%nat).
  { unfold _request_with_retry. apply retry_calls_bounded.
    intros st'. apply make_request_at_most_one_call. }
  split; [exact H | lia].
Qed.
End TransportBounds.

(** ** The transport: the waits and the state left alone *)

Section TransportWaits.

Import Exceptions Runtime Spec Spec2 BaseHTTPClient.
Local Open Scope py_scope.
Context (E : env).
Implicit Types (self : ClientObject.t) (kwargs : RequestKwargs.t) (st : store).

(** The clock moves by the waits only, and by at most ten seconds for each
    retry that is left. *)
Lemma retry_elapsed {A} (func : M A) n a st :
  preserves (fun s s' => now s' = now s) func ->
  now st <= now (final (retry n a func st)) <= now st + 10 * Z.of_nat n.
Proof.
  intros Hf. revert a st. induction n as [| n IH]; intros a st; simpl retry;
    rewrite final_try_except; pose proof (Hf st) as H1; simpl in H1;
    destruct (outcome (func st)) as [r | e]; try lia;
    destruct (retry_if_exception_type e); simpl; try (unfold final; simpl; lia).
  - change (final (raise e (final (func st)))) with (final (func st)). lia.
  - change (final (raise e (final (func st)))) with (final (func st)). lia.
  - rewrite final_bind. simpl outcome. cbv iota.
    specialize (IH (a + 1) (final (sleep (wait_exponential a) (final (func st))))).
    change (now (final (sleep (wait_exponential a) (final (func st)))))
      with (now (final (func st)) + wait_exponential a) in IH.
    pose proof (wait_exponential_bounds a). lia.
  - change (final (raise e (final (func st)))) with (final (func st)). lia.
Qed.

Lemma make_request_keeps_clock self method url kwargs :
  preserves (fun s s' => now s' = now s) (_make_request E self method url kwargs).
Proof.
  apply make_request_preserves; try reflexivity.
  intros a b c H1 H2. congruence.
Qed.

(** An attempt is tried again only after a request that failed with the
    circuit closed and staying closed. *)
Lemma make_request_retried self method url kwargs st e :
  outcome (_make_request E self method url kwargs st) = Raise e ->
  retry_if_exception_type e = true ->
  events (_make_request E self method url kwargs st)
  = [HttpRequest method url kwargs; Log "warning" "http_request_failed"]
  /\ CircuitBreaker.current
       (circuit_breaker (final (_make_request E self method url kwargs st)))
     = CircuitBreaker.Closed.
Proof.
  cbv beta iota zeta delta [_make_request PyBreaker.call_async
       PyBreaker.call_closed PyBreaker.call_half_open client_request
       attempt try_except bind get_store CircuitBreaker.current_state raise ret
       log emit PyBreaker.set_counter modify raise_for_status is_success
       PyBreaker.transition _circuit_breaker_listener events final outcome].
  destruct (CircuitBreaker.current (circuit_breaker st)) eqn:Hc; simpl; rewrite ?Hc; simpl.
  - destruct (http_request E (net_attempts st)) as [code text | msg | msg | tn msg];
      simpl; rewrite ?Hc.
    + destruct (200 <=? code) eqn:H2a; destruct (code <=? 299) eqn:H2b;
        destruct (400 <=? code) eqn:H4; destruct (code <? 500) eqn:H5;
        simpl; rewrite ?H2a, ?H2b, ?H4, ?H5; simpl; try discriminate;
        intros [= <-]; discriminate.
    + destruct (_ <=? _); simpl; intros [= <-]; try discriminate.
      intros _. split; [reflexivity | first [reflexivity | exact Hc | simpl; exact Hc]].
    + destruct (_ <=? _); simpl; intros [= <-]; try discriminate.
      intros _. split; [reflexivity | first [reflexivity | exact Hc | simpl; exact Hc]].
    + destruct (_ <=? _); simpl; intros [= <-]; discriminate.
  - intros [= <-]; discriminate.
  - destruct (http_request E (net_attempts st)) as [code text | msg | msg | tn msg];
      simpl; rewrite ?Hc.
    + destruct (200 <=? code) eqn:H2a; destruct (code <=? 299) eqn:H2b;
        destruct (400 <=? code) eqn:H4; destruct (code <? 500) eqn:H5;
        simpl; rewrite ?H2a, ?H2b, ?H4, ?H5; simpl; try discriminate;
        intros [= <-]; discriminate.
    + intros [= <-]; discriminate.
    + intros [= <-]; discriminate.
    + intros [= <-]; discriminate.
Qed.

Lemma make_request_never_waits self method url kwargs st :
  sleeps (events (_make_request E self method url kwargs st)) = [].
Proof.
  assert (H : Forall (fun ev => forall seconds, ev <> Sleep seconds)
                (events (_make_request E self method url kwargs st))).
  { apply make_request_emits; intros; discriminate. }
  induction H as [| ev tr Hev _ IH]; [reflexivity |].
  unfold sleeps in *. simpl. destruct ev; try exact IH.
  exfalso. eapply Hev. reflexivity.
Qed.

Lemma flat_map_seq_shift {A} (g : Z -> list A) a s k :
  flat_map (fun i => g (a + Z.of_nat i)) (seq (S s) k)
  = flat_map (fun i => g (a + 1 + Z.of_nat i)) (seq s k).
Proof.
  revert s. induction k as [| k IH]; intros s; [reflexivity |].
  simpl seq. simpl flat_map. rewrite IH. f_equal. f_equal. lia.
Qed.

Lemma retry_waits_between_attempts self method url kwargs n a st :
  exists k last,
    (k <= n)%nat
    /\ events (retry n a (_make_request E self method url kwargs) st)
       = (flat_map (fun i => [HttpRequest method url kwargs;
                              Log "warning" "http_request_failed";
                              Sleep (wait_exponential (a + Z.of_nat i))])
            (seq 0 k) ++ last)%list
    /\ sleeps last = []
    /\ (CircuitBreaker.current (circuit_breaker st) = CircuitBreaker.Closed
        \/ (0 < k)%nat ->
        exists rest, last = HttpRequest method url kwargs :: rest).
Proof.
  revert a st. induction n as [| n IH]; intros a st.
  - exists 0%nat, (events (retry 0 a (_make_request E self method url kwargs) st)).
    split; [lia |]. split; [reflexivity |].
    simpl retry. rewrite events_try_except.
    destruct (outcome (_make_request E self method url kwargs st)) as [r | e] eqn:Ho.
    + split; [apply make_request_never_waits |].
      intros [Hc | Hk]; [| lia].
      apply (make_request_closed_events E); exact Hc.
    + destruct (retry_if_exception_type e); simpl; rewrite List.app_nil_r;
        (split; [apply make_request_never_waits |]);
        (intros [Hc | Hk]; [| lia]);
        apply (make_request_closed_events E); exact Hc.
  - simpl retry. rewrite events_try_except.
    destruct (outcome (_make_request E self method url kwargs st)) as [r | e] eqn:Ho.
    + exists 0%nat, (events (_make_request E self method url kwargs st)).
      split; [lia |]. split; [reflexivity |].
      split; [apply make_request_never_waits |].
      intros [Hc | Hk]; [| lia].
      apply (make_request_closed_events E); exact Hc.
    + destruct (retry_if_exception_type e) eqn:Hre.
      * destruct (make_request_retried self method url kwargs st e Ho Hre) as [Hev Hclosed].
        rewrite events_bind. simpl outcome. cbv iota.
        set (st1 := final (sleep (wait_exponential a)
                             (final (_make_request E self method url kwargs st)))).
        destruct (IH (a + 1) st1) as (k & last & Hk & Hevents & Hlast & Hfirst).
        exists (S k), last. split; [lia |]. split.
        { rewrite Hevents, Hev.
          change (seq 0 (S k)) with (0%nat :: seq 1 k). cbn [flat_map].
          rewrite (flat_map_seq_shift
                     (fun z => [HttpRequest method url kwargs;
                                Log "warning" "http_request_failed";
                                Sleep (wait_exponential z)]) a 0 k).
          change (Z.of_nat 0) with 0. rewrite Z.add_0_r. reflexivity. }
        split; [exact Hlast |].
        intros _. apply Hfirst. left. exact Hclosed.
      * exists 0%nat, (events (_make_request E self method url kwargs st)).
        split; [lia |]. split; [simpl; rewrite List.app_nil_r; reflexivity |].
        split; [apply make_request_never_waits |].
        intros [Hc | Hk]; [| lia].
        apply (make_request_closed_events E); exact Hc.
Qed.

(** X2: a call of the transport waits only between attempts: its events
    are, for each attempt that is tried again, the request, the record of
    its failure and the wait, in that order, followed by the events of the
    last attempt, which has no wait in it and, after a wait, starts with
    its request.  Every wait lasts from 2 to 10 seconds, and the waits of
    one call add up to at most ten seconds for each retry the policy
    allows. *)
Theorem backoff_is_bounded self method url kwargs st :
  let run := _request_with_retry E self method url kwargs st in
  (exists k last,
     (k <= Z.to_nat (ClientObject.max_retries self - 1))%nat
     /\ events run
        = (flat_map (fun i => [HttpRequest method url kwargs;
                               Log "warning" "http_request_failed";
                               Sleep (wait_exponential (1 + Z.of_nat i))])
             (seq 0 k) ++ last)%list
     /\ sleeps last = []
     /\ ((0 < k)%nat -> exists rest, last = HttpRequest method url kwargs :: rest))
  /\ Forall bounded_wait (events run)
  /\ now st <= now (final run)
     <= now st + 10 * Z.of_nat (Z.to_nat (ClientObject.max_retries self - 1)).
Proof.
  intros run. subst run. unfold _request_with_retry. split; [| split].
  - destruct (retry_waits_between_attempts self method url kwargs
                (Z.to_nat (ClientObject.max_retries self - 1)) 1 st)
      as (k & last & Hk & Hev & Hlast & Hfirst).
    exists k, last. repeat split; auto.
  - apply emits_only_retry.
    + intros k seconds [= <-]. apply wait_exponential_bounds.
    + apply make_request_emits; intros; intros seconds; discriminate.
  - apply retry_elapsed, make_request_keeps_clock.
Qed.

(** X3: a call of the transport, however it ends, leaves the thresholds
    of the circuit breaker (the failure limit and the cool-down), the client
    singletons and the counter of generated ids as they were. *)
Theorem transport_keeps_objects self method url kwargs st :
  same_objects st (final (_request_with_retry E self method url kwargs st)).
Proof.
  unfold _request_with_retry.
  apply (preserves_retry same_objects same_objects_refl same_objects_trans).
  - intros k st'. repeat split.
  - apply (make_request_preserves E same_objects same_objects_refl same_objects_trans).
    + intros st' n. repeat split.
    + intros st' s c o. repeat split.
Qed.
End TransportWaits.

(** ** The transport: what the circuit breaker counts *)

Section TransportBreaker.

Import Exceptions Runtime Spec Spec2 BaseHTTPClient.
Local Open Scope py_scope.
Context (E : env).
Implicit Types (self : ClientObject.t) (kwargs : RequestKwargs.t) (st : store).

(** X4: with the circuit closed, a request the service answers, with
    whatever status code (a 4xx or a 5xx too), is a success for the circuit
    breaker: the call makes that one request, and afterwards the circuit is
    closed with a failure count of zero. *)
Theorem response_clears_failure_count self method url kwargs st code text :
  CircuitBreaker.current (circuit_breaker st) = CircuitBreaker.Closed ->
  http_request E (net_attempts st) = NetResponse code text ->
  let run := _request_with_retry E self method url kwargs st in
  CircuitBreaker.current (circuit_breaker (final run)) = CircuitBreaker.Closed
  /\ CircuitBreaker.fail_counter (circuit_breaker (final run)) = 0
  /\ network_calls (events run) = 1%nat.
Proof.
  intros Hc Hr run. subst run. unfold _request_with_retry.
  pose proof (make_request_closed_response E self method url kwargs st code text Hc Hr)
    as Hmr.
  assert (Hrun : exists r,
    retry (Z.to_nat (ClientObject.max_retries self - 1)) 1
      (_make_request E self method url kwargs) st
    = ([HttpRequest method url kwargs],
       set_circuit_breaker (set_net_attempts st (S (net_attempts st)))
         (CircuitBreaker.with_state (circuit_breaker st) CircuitBreaker.Closed 0
            (CircuitBreaker.opened_at (circuit_breaker st))), r)).
  { destruct ((200 <=? code) && (code <=? 299)) eqn:H2;
      [| destruct ((400 <=? code) && (code <? 500)) eqn:H4].
    - eexists. destruct (Z.to_nat (ClientObject.max_retries self - 1)); simpl retry;
        unfold try_except; rewrite Hmr; reflexivity.
    - eexists. apply (retry_not_retryable _ _ _ _ _ _ _ Hmr). reflexivity.
    - eexists. apply (retry_not_retryable _ _ _ _ _ _ _ Hmr). reflexivity. }
  destruct Hrun as [r Hrun]. rewrite Hrun. repeat split.
Qed.
End TransportBreaker.

(** ** The transport: recovery from transient failures *)

Section TransportRecovery.

Import Exceptions Runtime Spec Spec2 BaseHTTPClient.
Local Open Scope py_scope.
Context (E : env).
Implicit Types (self : ClientObject.t) (kwargs : RequestKwargs.t) (st : store).

Lemma retry_recovers self method url kwargs k n a st code text :
  (k <= n)%nat ->
  CircuitBreaker.current (circuit_breaker st) = CircuitBreaker.Closed ->
  CircuitBreaker.fail_counter (circuit_breaker st) + Z.of_nat k
    < CircuitBreaker.fail_max (circuit_breaker st) ->
  (forall i, (i < k)%nat ->
     is_retryable (http_request E (net_attempts st + i)%nat) = true) ->
  http_request E (net_attempts st + k)%nat = NetResponse code text ->
  200 <= code < 300 ->
  let run := retry n a (_make_request E self method url kwargs) st in
  outcome run = Ok (Response.Build code text)
  /\ network_calls (events run) = S k
  /\ sleeps (events run)
     = List.map (fun i => wait_exponential (a + Z.of_nat i)) (seq 0 k)
  /\ CircuitBreaker.current (circuit_breaker (final run)) = CircuitBreaker.Closed
  /\ CircuitBreaker.fail_counter (circuit_breaker (final run)) = 0.
Proof.
  revert n a st. induction k as [| k IH]; intros n a st Hkn Hc Hlt Hall Hresp Hcode run;
    subst run.
  - rewrite Nat.add_0_r in Hresp.
    pose proof (make_request_closed_response E self method url kwargs st code text Hc Hresp)
      as Hmr.
    replace ((200 <=? code) && (code <=? 299)) with true in Hmr
      by (symmetry; apply andb_true_iff; split; apply Z.leb_le; lia).
    destruct n; simpl retry; unfold try_except; rewrite Hmr; repeat split.
  - destruct n as [| n]; [lia |].
    pose proof (Hall 0%nat (Nat.lt_0_succ _)) as H0. rewrite Nat.add_0_r in H0.
    destruct (retryable_raises _ H0) as (e & He & Hre).
    simpl retry. unfold try_except.
    rewrite make_request_closed_retryable by (assumption || lia).
    rewrite He, Hre.
    set (st1 := set_now (closed_failure_store st)
                  (now (closed_failure_store st) + wait_exponential a)).
    rewrite (bind_ok (sleep (wait_exponential a)) _ (closed_failure_store st)
               [Sleep (wait_exponential a)] st1 tt) by reflexivity.
    destruct (IH n (a + 1) st1) as (Hout & Hcalls & Hsl & Hcur & Hcnt).
    + lia.
    + reflexivity.
    + simpl. lia.
    + intros i Hi. simpl. specialize (Hall (S i)).
      rewrite Nat.add_succ_r in Hall. apply Hall. lia.
    + simpl. rewrite Nat.add_succ_r in Hresp. exact Hresp.
    + exact Hcode.
    + unfold outcome at 1. unfold events at 1 2. unfold final at 1 2.
      simpl fst. simpl snd.
      split; [exact Hout |].
      split.
      { change (network_calls
                  ([HttpRequest method url kwargs;
                    Log "warning" "http_request_failed";
                    Sleep (wait_exponential a)]
                   ++ events (retry n (a + 1)
                                (_make_request E self method url kwargs) st1))
                = S (S k)).
        rewrite network_calls_app, Hcalls. reflexivity. }
      split.
      { change (sleeps
                  ([HttpRequest method url kwargs;
                    Log "warning" "http_request_failed";
                    Sleep (wait_exponential a)]
                   ++ events (retry n (a + 1)
                                (_make_request E self method url kwargs) st1))
                = List.map (fun i => wait_exponential (a + Z.of_nat i)) (seq 0 (S k))).
        change (seq 0 (S k)) with (0%nat :: seq 1 k).
        rewrite <- seq_shift, List.map_cons, List.map_map.
        unfold sleeps at 1. rewrite omap_app. fold (sleeps (events (retry n (a + 1)
                                (_make_request E self method url kwargs) st1))).
        rewrite Hsl. simpl omap. simpl app. f_equal.
        { f_equal. lia. }
        apply List.map_ext. intros i. f_equal. lia. }
      split; assumption.
Qed.

(** X5: with the circuit closed and far enough from its limit, [k]
    timeouts or network errors in a row, [k] below the number of attempts
    allowed, followed by an answer with a 2xx status, end in that answer:
    the call makes [k + 1] requests, waits after each failure for the time
    the exponential policy gives, and leaves the circuit closed with a
    failure count of zero. *)
Theorem transient_failures_are_retried self method url kwargs st k code text :
  (Z.of_nat k < Z.max 1 (ClientObject.max_retries self)) ->
  CircuitBreaker.current (circuit_breaker st) = CircuitBreaker.Closed ->
  CircuitBreaker.fail_counter (circuit_breaker st) + Z.of_nat k
    < CircuitBreaker.fail_max (circuit_breaker st) ->
  (forall i, (i < k)%nat ->
     is_retryable (http_request E (net_attempts st + i)%nat) = true) ->
  http_request E (net_attempts st + k)%nat = NetResponse code text ->
  200 <= code < 300 ->
  let run := _request_with_retry E self method url kwargs st in
  outcome run = Ok (Response.Build code text)
  /\ network_calls (events run) = S k
  /\ sleeps (events run)
     = List.map (fun i => wait_exponential (1 + Z.of_nat i)) (seq 0 k)
  /\ CircuitBreaker.current (circuit_breaker (final run)) = CircuitBreaker.Closed
  /\ CircuitBreaker.fail_counter (circuit_breaker (final run)) = 0.
Proof.
  intros Hk Hc Hlt Hall Hresp Hcode run. subst run. unfold _request_with_retry.
  apply retry_recovers; try assumption. lia.
Qed.
End TransportRecovery.

(** ** What a computation raises *)

Section RaiseFacts.

Import Exceptions Runtime Spec Spec2 BaseHTTPClient.
Local Open Scope py_scope.

Lemma raises_only_ret {A} P (a : A) : raises_only P (ret a).
Proof. intros st e. discriminate. Qed.

Lemma raises_only_raise {A} (P : exn -> Prop) e : P e -> raises_only P (@raise A e).
Proof. intros H st e' [= <-]. exact H. Qed.

Lemma raises_only_lift {A} (P : exn -> Prop) (o : lib_outcome A) :
  (forall type_name msg, P (PyException type_name msg)) -> raises_only P (lift o).
Proof.
  intros H st e. destruct o as [a | [tn msg]]; simpl; [discriminate |].
  intros [= <-]. apply H.
Qed.

Lemma raises_only_emit P ev : raises_only P (emit ev).
Proof. intros st e. discriminate. Qed.

Lemma raises_only_get_store P : raises_only P get_store.
Proof. intros st e. discriminate. Qed.

Lemma raises_only_modify P f : raises_only P (modify f).
Proof. intros st e. discriminate. Qed.

Lemma raises_only_bind {A B} P (m : M A) (k : A -> M B) :
  raises_only P m -> (forall a, raises_only P (k a)) -> raises_only P (bind m k).
Proof.
  intros Hm Hk st e. rewrite outcome_bind.
  destruct (outcome (m st)) as [a | e'] eqn:Ho.
  - apply Hk.
  - intros [= <-]. eapply Hm, Ho.
Qed.

Lemma raises_only_try_except {A} (Q P : exn -> Prop) (body : M A) (handler : exn -> M A) :
  raises_only Q body -> (forall e, Q e -> raises_only P (handler e)) ->
  raises_only P (try_except body handler).
Proof.
  intros Hb Hh st e. rewrite outcome_try_except.
  destruct (outcome (body st)) as [a | e'] eqn:Ho; [discriminate |].
  apply Hh. eapply Hb, Ho.
Qed.

Lemma raises_only_if {A} P (b : bool) (m1 m2 : M A) :
  raises_only P m1 -> raises_only P m2 -> raises_only P (if b then m1 else m2).
Proof. destruct b; auto. Qed.

Lemma raises_only_weaken {A} (P Q : exn -> Prop) (m : M A) :
  (forall e, P e -> Q e) -> raises_only P m -> raises_only Q m.
Proof. intros H Hm st e Ho. eapply H, Hm, Ho. Qed.

Lemma raises_only_retry {A} P (func : M A) n a :
  raises_only P func -> raises_only P (retry n a func).
Proof.
  intros Hf. revert a. induction n as [| n IH]; intros a; simpl retry;
    apply (raises_only_try_except P P); auto; intros e He;
    destruct (retry_if_exception_type e); try (apply raises_only_raise; exact He).
  apply raises_only_bind; [| intros _; apply IH].
  intros st e'. discriminate.
Qed.

Lemma raises_only_attempt_bind {A B} (Q P : exn -> Prop) (m : M A)
    (k : result exn A -> M B) :
  raises_only Q m ->
  (forall a, raises_only P (k (Ok a))) ->
  (forall e, Q e -> raises_only P (k (Raise e))) ->
  raises_only P (bind (attempt m) k).
Proof.
  intros Hm Hok Hraise st e. specialize (Hm st).
  unfold bind, attempt, outcome in *.
  destruct (m st) as [[tr st'] [a | e']]; simpl in *.
  - specialize (Hok a st' e). unfold outcome in Hok.
    destruct (k (Ok a) st') as [[tr' st''] r]. exact Hok.
  - specialize (Hraise e' (Hm e' eq_refl) st' e). unfold outcome in Hraise.
    destruct (k (Raise e') st') as [[tr' st''] r]. exact Hraise.
Qed.

End RaiseFacts.

(** ** The transport: the exceptions it lets out *)

Section TransportErrors.

Import Exceptions Runtime Spec Spec2 BaseHTTPClient.
Local Open Scope py_scope.
Context (E : env).
Implicit Types (self : ClientObject.t) (kwargs : RequestKwargs.t) (st : store).

Lemma client_request_raises self method url kwargs :
  raises_only guarded_error (client_request E self method url kwargs).
Proof.
  intros st e. unfold client_request, outcome. simpl.
  destruct (http_request E (net_attempts st)); simpl; try discriminate;
    intros [= <-]; exact I.
Qed.

Lemma call_async_raises self method url kwargs :
  raises_only guarded_error
    (PyBreaker.call_async (_circuit_breaker_listener self)
       (client_request E self method url kwargs)).
Proof.
  assert (Hl : forall s, raises_only guarded_error (_circuit_breaker_listener self s)).
  { intros s. apply raises_only_emit. }
  assert (Htr : forall s c o, raises_only guarded_error
            (PyBreaker.transition (_circuit_breaker_listener self) s c o)).
  { intros. unfold PyBreaker.transition.
    apply raises_only_bind; [apply raises_only_modify | intros _].
    apply raises_only_bind; [apply raises_only_get_store | intros ?]. apply Hl. }
  assert (Hcr := client_request_raises self method url kwargs).
  assert (Hho : raises_only guarded_error
            (PyBreaker.call_half_open (_circuit_breaker_listener self)
               (client_request E self method url kwargs))).
  { unfold PyBreaker.call_half_open.
    apply (raises_only_attempt_bind guarded_error); [exact Hcr | intros a | intros e He].
    - apply raises_only_bind; [apply Htr | intros _; apply raises_only_ret].
    - apply raises_only_bind; [apply raises_only_get_store | intros ?].
      apply raises_only_bind; [apply Htr | intros _; apply raises_only_raise; exact I]. }
  unfold PyBreaker.call_async.
  apply raises_only_bind; [apply raises_only_get_store | intros st1].
  destruct (CircuitBreaker.current (circuit_breaker st1)).
  - unfold PyBreaker.call_closed.
    apply (raises_only_attempt_bind guarded_error); [exact Hcr | intros a | intros e He].
    + apply raises_only_bind; [apply raises_only_modify | intros _; apply raises_only_ret].
    + apply raises_only_bind; [apply raises_only_get_store | intros ?].
      apply raises_only_if.
      * apply raises_only_bind; [apply Htr | intros _; apply raises_only_raise; exact I].
      * apply raises_only_bind; [apply raises_only_modify | intros _].
        apply raises_only_raise. exact He.
  - apply raises_only_if; [apply raises_only_raise; exact I |].
    apply raises_only_bind; [apply Htr | intros _; apply Hho].
  - apply Hho.
Qed.

Lemma make_request_raises self method url kwargs :
  raises_only transport_error (_make_request E self method url kwargs).
Proof.
  unfold _make_request.
  apply (raises_only_try_except
           (fun e => guarded_error e
                     \/ (exists text code, e = HTTPStatusError code text
                           /\ (code < 200 \/ 300 <= code))
                     \/ e = circuit_open_error self)).
  - apply raises_only_bind; [apply raises_only_get_store | intros st0].
    apply raises_only_if; [apply raises_only_raise; right; right; reflexivity |].
    apply raises_only_bind.
    + eapply raises_only_weaken; [| apply call_async_raises]. intros e He. left. exact He.
    + intros response. apply raises_only_bind; [| intros _; apply raises_only_ret].
      unfold raise_for_status, is_success.
      destruct (Z.leb_spec 200 (Response.status_code response));
        destruct (Z.leb_spec (Response.status_code response) 299); simpl;
        try apply raises_only_ret;
        apply raises_only_raise; right; left; do 2 eexists;
        (split; [reflexivity | lia]).
  - intros e [He | [(text & code & -> & Hcode) | ->]].
    + destruct e; try contradiction; simpl in He.
      * apply raises_only_bind; [apply raises_only_emit | intros _].
        apply raises_only_raise. exact I.
      * apply raises_only_bind; [apply raises_only_emit | intros _].
        apply raises_only_raise. exact I.
      * apply raises_only_raise. exact I.
      * apply raises_only_raise. exact I.
    + destruct (Z.leb_spec 400 code); destruct (Z.ltb_spec code 500); simpl;
        apply raises_only_raise; simpl; try lia.
      split; [reflexivity | right; lia].
    + apply raises_only_raise. simpl. split; [reflexivity | left; reflexivity].
Qed.

(** X6: what a call of the transport raises is one of: an
    [ExternalAPIError] with status 503 (open circuit) or with the 4xx
    status of the answer; the [HTTPStatusError] of an answer whose status
    is neither a 2xx nor a 4xx (an informational, a redirect or a server
    error one); a timeout, a network error or another exception of the HTTP
    library; the error of the circuit breaker.  It is never a [RetryError],
    and never an application error of another class or status. *)
Theorem transport_raises_only_transport_errors self method url kwargs st e :
  outcome (_request_with_retry E self method url kwargs st) = Raise e ->
  transport_error e.
Proof.
  apply (raises_only_retry transport_error). apply make_request_raises.
Qed.

End TransportErrors.

(** ** app/clients/cxone_client.py: the poster and the client singleton *)

Section Poster.

Import Exceptions Runtime Spec Spec2 BaseHTTPClient.
Local Open Scope py_scope.
Context (E : env) (settings : Settings.t).
Implicit Types (self : ClientObject.t) (kwargs : RequestKwargs.t) (st : store).

Lemma post_message_validated self openid text :
  openid <> "" -> text <> "" ->
  CXoneClient.post_message E self openid text
  = try_except
      (log "info" "posting_message_to_cxone" ;;
       response <- BaseHTTPClient.post E self (cxone_url self)
                     (cxone_kwargs self openid text) ;;
       result <- lift (response_json E (Response.text response)) ;;
       _ <- CXoneClient.json_get result "id" ;;
       log "info" "message_posted_to_cxone" ;;
       ret result)
      (fun e =>
         log "error" "failed_to_post_to_cxone" ;;
         if isinstance e CXoneAPIErrorC then raise e
         else raise (cxone_bad_gateway openid e)).
Proof.
  intros Ho Ht. apply str_truthy_true in Ho, Ht.
  unfold CXoneClient.post_message. rewrite Ho, Ht. reflexivity.
Qed.

Lemma transport_error_not_cxone e :
  transport_error e -> isinstance e CXoneAPIErrorC = false.
Proof. destruct e; simpl; try reflexivity. intros [-> _]. reflexivity. Qed.

Lemma post_message_body_raises self openid text :
  raises_only (fun e => isinstance e CXoneAPIErrorC = false)
    (log "info" "posting_message_to_cxone" ;;
     response <- BaseHTTPClient.post E self (cxone_url self)
                   (cxone_kwargs self openid text) ;;
     result <- lift (response_json E (Response.text response)) ;;
     _ <- CXoneClient.json_get result "id" ;;
     log "info" "message_posted_to_cxone" ;;
     ret result).
Proof.
  apply raises_only_bind; [apply raises_only_emit | intros _].
  apply raises_only_bind.
  { eapply raises_only_weaken; [apply transport_error_not_cxone |].
    unfold post, _request_with_retry. apply raises_only_retry, make_request_raises. }
  intros response. apply raises_only_bind.
  { apply raises_only_lift. reflexivity. }
  intros result. apply raises_only_bind.
  { destruct result; [apply raises_only_ret | apply raises_only_raise; reflexivity]. }
  intros _. apply raises_only_bind; [apply raises_only_emit | intros _].
  apply raises_only_ret.
Qed.

(** X7: every failure of the poster is one of three: the
    [MessageProcessingError] for an empty recipient, the one for an empty
    text, or, once both are present, a [CXoneAPIError] with status 502 that
    wraps the cause, whatever the cause was (a 4xx answer and an open
    circuit included). *)
Theorem post_message_failure_is_bad_gateway self openid text st e :
  outcome (CXoneClient.post_message E self openid text st) = Raise e ->
  (openid = "" /\ e = MessageProcessingError "openid is required" None)
  \/ (openid <> "" /\ text = ""
      /\ e = MessageProcessingError "message text is required" None)
  \/ (openid <> "" /\ text <> ""
      /\ exists cause, isinstance cause CXoneAPIErrorC = false
                       /\ e = cxone_bad_gateway openid cause).
Proof.
  destruct (decide (openid = "")) as [-> | Ho].
  { intros [= <-]. left. split; reflexivity. }
  destruct (decide (text = "")) as [-> | Ht].
  { unfold CXoneClient.post_message.
    apply str_truthy_true in Ho. rewrite Ho. intros [= <-].
    right. left. apply str_truthy_true in Ho. repeat split; auto. }
  rewrite post_message_validated by assumption.
  rewrite outcome_try_except.
  destruct (outcome _) as [a | cause] eqn:Hbody; [discriminate |].
  apply post_message_body_raises in Hbody. rewrite Hbody.
  intros [= <-]. right. right. eauto.
Qed.

Lemma post_message_emits self openid text (P : event -> Prop) :
  (forall level name, P (Log level name)) ->
  (forall seconds, P (Sleep seconds)) ->
  P (HttpRequest "POST" (cxone_url self) (cxone_kwargs self openid text)) ->
  emits_only P (CXoneClient.post_message E self openid text).
Proof.
  intros Hlog Hsleep Hreq. unfold CXoneClient.post_message.
  apply emits_only_if; [apply emits_only_raise |].
  apply emits_only_if; [apply emits_only_raise |].
  apply emits_only_try_except.
  - apply emits_only_bind; [apply emits_only_emit, Hlog | intros _].
    apply emits_only_bind.
    { unfold post, _request_with_retry. apply emits_only_retry; [intros; apply Hsleep |].
      apply make_request_emits; assumption. }
    intros response. apply emits_only_bind; [apply emits_only_lift | intros result].
    apply emits_only_bind.
    { destruct result; [apply emits_only_ret | apply emits_only_raise]. }
    intros _. apply emits_only_bind; [apply emits_only_emit, Hlog | intros _].
    apply emits_only_ret.
  - intros e. apply emits_only_bind; [apply emits_only_emit, Hlog | intros _].
    apply emits_only_if; apply emits_only_raise.
Qed.

(** X8: whatever the poster puts on the network is the POST of this
    message to the messages URL of the channel, with the bearer token of the
    client; and it puts nothing on the network when the recipient or the
    text is empty. *)
Theorem post_message_sends_only_the_message self openid text st ev :
  In ev (events (CXoneClient.post_message E self openid text st)) ->
  is_network ev = true ->
  ev = HttpRequest "POST" (cxone_url self) (cxone_kwargs self openid text)
  /\ openid <> "" /\ text <> "".
Proof.
  intros Hin Hnet. split.
  - pose proof (post_message_emits self openid text
                  (fun ev => is_network ev = true ->
                     ev = HttpRequest "POST" (cxone_url self)
                            (cxone_kwargs self openid text))) as H.
    assert (Hall : Forall (fun ev => is_network ev = true ->
                     ev = HttpRequest "POST" (cxone_url self)
                            (cxone_kwargs self openid text))
                     (events (CXoneClient.post_message E self openid text st))).
    { apply H; try discriminate. reflexivity. }
    rewrite List.Forall_forall in Hall. apply (Hall ev); assumption.
  - destruct (decide (openid = "")) as [-> | Ho]; [destruct Hin |].
    destruct (decide (text = "")) as [-> | Ht]; [| split; assumption].
    exfalso. revert Hin. unfold CXoneClient.post_message.
    apply str_truthy_true in Ho. rewrite Ho. simpl. tauto.
Qed.

(** X9: with the circuit closed and a 2xx answer to the first request,
    the poster makes that one request and returns the parsed body
    when it is a JSON object; when the body is no JSON, or JSON that is no
    object, the poster raises the 502 [CXoneAPIError] although the
    message was accepted by the service. *)
Theorem post_message_needs_a_json_object self openid text st code body :
  openid <> "" -> text <> "" ->
  CircuitBreaker.current (circuit_breaker st) = CircuitBreaker.Closed ->
  http_request E (net_attempts st) = NetResponse code body ->
  200 <= code < 300 ->
  let run := CXoneClient.post_message E self openid text st in
  network_calls (events run) = 1%nat
  /\ outcome run
     = match response_json E body with
       | Ok (JsonDict d) => Ok (JsonDict d)
       | Ok (JsonOther _) =>
           Raise (cxone_bad_gateway openid
                    (PyException "AttributeError" "object has no attribute 'get'"))
       | Raise (type_name, msg) =>
           Raise (cxone_bad_gateway openid (PyException type_name msg))
       end.
Proof.
  intros Ho Ht Hc Hresp Hcode run. subst run.
  rewrite post_message_validated by assumption.
  pose proof (make_request_closed_response E self "POST" (cxone_url self)
                (cxone_kwargs self openid text) st code body Hc Hresp) as Hmr.
  replace ((200 <=? code) && (code <=? 299)) with true in Hmr
    by (symmetry; apply andb_true_iff; split; apply Z.leb_le; lia).
  assert (Hpost : post E self (cxone_url self) (cxone_kwargs self openid text) st
                  = ([HttpRequest "POST" (cxone_url self) (cxone_kwargs self openid text)],
                     final (_make_request E self "POST" (cxone_url self)
                              (cxone_kwargs self openid text) st),
                     Ok (Response.Build code body))).
  { unfold post, _request_with_retry.
    destruct (Z.to_nat (ClientObject.max_retries self - 1)); simpl retry;
      unfold try_except; rewrite Hmr; reflexivity. }
  unfold try_except, bind, log, emit. rewrite Hpost. simpl Response.text.
  destruct (response_json E body) as [[d | v] | [type_name msg]]; simpl;
    split; reflexivity.
Qed.

(** X10: [get_cxone_client] hands out the stored client, creating it from
    the settings on first use; a second call returns the same client and
    changes nothing, neither call logs or sends anything, and a call that
    finds a client leaves the store as it is. *)
Theorem get_cxone_client_is_a_singleton st :
  let first := CXoneClient.get_cxone_client settings st in
  let second := CXoneClient.get_cxone_client settings (final first) in
  outcome first = Ok (current_client settings st)
  /\ outcome second = outcome first
  /\ final second = final first
  /\ _cxone_client (final first) = Some (current_client settings st)
  /\ events first = [] /\ events second = []
  /\ (forall client, _cxone_client st = Some client -> final first = st).
Proof.
  unfold CXoneClient.get_cxone_client, current_client.
  destruct (_cxone_client st) as [client |] eqn:Hcl.
  - cbv beta iota zeta delta [bind get_store ret outcome final events fst snd].
    rewrite Hcl. simpl. rewrite Hcl. repeat split; auto.
  - cbv beta iota zeta delta [bind get_store ret outcome final events fst snd].
    rewrite Hcl. simpl. repeat split; auto. intros client [=].
Qed.

(** X11: shutting the application down forgets the client, and the next
    [get_cxone_client] builds a new one from the settings with a fresh
    circuit breaker (closed, no failures, limit 5, cool-down 60), whatever
    state the circuit was in; nothing is put on the network by either. *)
Theorem restart_forgets_the_circuit st :
  let down := Lifecycle.lifespan_shutdown st in
  let up := CXoneClient.get_cxone_client settings (final down) in
  _cxone_client (final down) = None
  /\ outcome up = Ok (built_client settings)
  /\ circuit_breaker (final up) = CircuitBreaker.init 5 60
  /\ Spec.network_calls (events down ++ events up) = 0%nat.
Proof.
  unfold Lifecycle.lifespan_shutdown, Lifecycle.close_cxone_client,
    CXoneClient.get_cxone_client.
  cbv beta iota zeta delta [bind get_store ret outcome final events fst snd log emit].
  destruct (_cxone_client st) as [client |] eqn:Hcl; simpl; rewrite ?Hcl;
    repeat split; reflexivity.
Qed.

End Poster.

(** ** app/clients/wechat_client.py and app/mock_clients.py: the sender *)

Section Sender.

Import Exceptions Runtime Spec Spec2 BaseHTTPClient.
Local Open Scope py_scope.
Context (E : env) (settings : Settings.t).
Implicit Types (st : store).

(** X12: for a non-empty recipient and a text of 1 to 10000 characters
    the sender calls the messaging platform exactly once, with these two
    values, and changes no state; it returns what the platform returned,
    and a failure of the platform becomes a [WeChatAPIError] with status
    502 that carries the recipient and the message of the failure. *)
Theorem sender_calls_the_platform_once openid content st :
  openid <> "" -> content <> "" -> Py.len content <= 10000 ->
  let run := WeChatClient.wrapper_send_text_message E openid content st in
  final run = st
  /\ List.filter is_network (events run) = [WeChatSendText openid content]
  /\ outcome run
     = match wechat_send_text E openid content with
       | Ok result => Ok result
       | Raise (type_name, msg) =>
           Raise (wechat_bad_gateway openid (PyException type_name msg))
       end.
Proof.
  intros Ho Hc Hlen run. subst run.
  apply str_truthy_true in Ho, Hc.
  unfold WeChatClient.wrapper_send_text_message. rewrite Ho, Hc.
  change (negb true) with false. cbv iota.
  destruct (Z.gtb_spec (Py.len content) 10000); [lia |].
  cbv beta iota zeta delta [try_except bind log emit lift ret raise].
  destruct (wechat_send_text E openid content) as [result | [type_name msg]];
    simpl; repeat split; reflexivity.
Qed.

(** X13: in mock mode [send_text_message] validates nothing and sends
    nothing: for any recipient and text, empty ones included, it appends the
    pair to the recorded messages of the mock client and returns errcode 0
    with the message id numbered by the count of recorded messages. *)
Theorem mock_mode_records_instead_of_sending openid content st :
  Settings.mock_mode settings = true ->
  let run := WeChatClient.send_text_message E settings openid content st in
  let sent := default [] (_mock_wechat_client st) in
  network_calls (events run) = 0%nat
  /\ events run = [MockWeChatSend openid content]
  /\ _mock_wechat_client (final run) = Some (sent ++ [(openid, content)])%list
  /\ _wechat_client (final run) = _wechat_client st
  /\ exists result,
       outcome run = Ok result
       /\ result !! "errcode" = Some (Py.PInt 0)
       /\ result !! "msgid"
          = Some (Py.PStr ("mock_msgid_"
                    +:+ Py.str_of_int (Z.of_nat (S (List.length sent))))).
Proof.
  intros Hmock run sent. subst run sent.
  unfold WeChatClient.send_text_message, WeChatClient.get_wechat_client.
  rewrite Hmock.
  cbv beta iota zeta delta [bind ret modify get_store emit
    MockWeChatClient.get_mock_wechat_client WeChatClient.client_send_text_message
    MockWeChatClient.send_text_message].
  destruct (_mock_wechat_client st) as [sent |] eqn:Hs; simpl; rewrite ?Hs; simpl.
  - repeat split; try reflexivity. eexists. split; [reflexivity |].
    split; [reflexivity |]. rewrite List.length_app. simpl.
    rewrite Nat.add_1_r. reflexivity.
  - repeat split; try reflexivity. eexists. split; [reflexivity |].
    split; reflexivity.
Qed.

End Sender.

(** ** app/routes/wechat.py: rejected deliveries, and what forwarding sends *)

Section WebhookRejection.

Import Exceptions Runtime Spec Spec2 BaseHTTPClient WeChatRoutes.
Local Open Scope py_scope.
Context (E : env) (settings : Settings.t).
Implicit Types (st : store).

(** X14: a POST to the webhook whose signature fails verification, or
    whose body is longer than 100000 bytes, raises a [ValidationError]
    that the application answers with status 400; nothing is decoded,
    decrypted, parsed or forwarded, no state changes, and the only thing
    logged is the warning about the signature. *)
Theorem rejected_webhook_post_does_nothing request signature timestamp nonce st :
  check_signature (Settings.wechat_token settings) signature timestamp nonce = false
  \/ 100000 < Py.len (body request) ->
  let run := wechat_webhook_post E settings request signature timestamp nonce st in
  final run = st
  /\ Forall (fun ev => ev = Log "warning" "invalid_wechat_signature") (events run)
  /\ (exists message, outcome run = Raise (ValidationError message None))
  /\ (exists response,
        outcome (Main.serve (wechat_webhook_post E settings request signature
                               timestamp nonce) st) = Ok response
        /\ Http.status_code response = 400).
Proof.
  intros H run. subst run.
  assert (Hrun : exists tr message,
    wechat_webhook_post E settings request signature timestamp nonce st
    = (tr, st, Raise (ValidationError message None))
    /\ Forall (fun ev => ev = Log "warning" "invalid_wechat_signature") tr).
  { unfold wechat_webhook_post.
    destruct (check_signature (Settings.wechat_token settings) signature timestamp nonce)
      eqn:Hsig.
    - destruct H as [H | H]; [discriminate |].
      destruct (Z.gtb_spec (Py.len (body request)) 100000); [| lia].
      exists [], "Request body too large". split; [reflexivity | constructor].
    - exists [Log "warning" "invalid_wechat_signature"], "Invalid WeChat signature".
      split; [reflexivity | repeat constructor]. }
  destruct Hrun as (tr & message & Hrun & Htr).
  rewrite Hrun. repeat split.
  - exact Htr.
  - eauto.
  - eexists. split.
    + apply (outcome_serve_application_error _ st ValidationErrorC message 400 ∅).
      rewrite Hrun. reflexivity.
    + reflexivity.
Qed.

Lemma get_cxone_client_run st :
  exists st',
    CXoneClient.get_cxone_client settings st
    = ([], st', Ok (current_client settings st))
    /\ _cxone_client st' = Some (current_client settings st).
Proof.
  unfold CXoneClient.get_cxone_client, current_client.
  destruct (_cxone_client st) as [client |] eqn:Hcl.
  - exists st. unfold bind, get_store. simpl. rewrite Hcl. split; [reflexivity | assumption || reflexivity].
  - eexists. unfold bind, get_store. simpl. rewrite Hcl. simpl. split; reflexivity.
Qed.

Lemma events_prepend_events {A} tr (r : list event * store * result exn A) :
  events (prepend_events tr r) = (tr ++ events r)%list.
Proof. reflexivity. Qed.

Lemma forward_to_cxone_emits openid text st :
  let client := current_client settings st in
  Forall (fun ev => is_network ev = true ->
            ev = HttpRequest "POST" (cxone_url client) (cxone_kwargs client openid text))
    (events (forward_to_cxone E settings openid text st)).
Proof.
  intros client. unfold forward_to_cxone.
  destruct (get_cxone_client_run st) as (st' & Hget & _).
  rewrite (try_except_bind_ok _ _ _ st [] st' client Hget).
  rewrite events_prepend_events. simpl app.
  apply emits_only_try_except.
  - apply emits_only_bind.
    { apply post_message_emits; try discriminate. reflexivity. }
    intros result. apply emits_only_bind.
    { destruct result; [apply emits_only_ret | apply emits_only_raise]. }
    intros _. apply emits_only_emit. discriminate.
  - intros e. apply emits_only_if; apply emits_only_emit; discriminate.
Qed.

Lemma parse_and_forward_network_events xml st ev :
  In ev (events (parse_and_forward E settings xml st)) ->
  is_network ev = true ->
  exists msg openid text,
    parse_message E xml = Ok msg
    /\ WeChatMessage.type msg = "text"
    /\ WeChatMessage.source msg = Some openid /\ openid <> ""
    /\ WeChatMessage.content msg = Some text /\ text <> ""
    /\ ev = HttpRequest "POST" (cxone_url (current_client settings st))
              (cxone_kwargs (current_client settings st) openid text).
Proof.
  unfold parse_and_forward.
  cbv beta iota zeta delta [bind emit log lift ret raise].
  destruct (parse_message E xml) as [msg | [type_name err]] eqn:Hparse; simpl.
  2: { intros [<- | []]. discriminate. }
  destruct (String.eqb_spec (WeChatMessage.type msg) "text") as [Htype | Htype].
  2: { simpl. intros [<- | [<- | [<- | []]]]; discriminate. }
  destruct (WeChatMessage.source msg) as [openid |] eqn:Hsrc.
  2: { simpl. intros [<- | [<- | [<- | []]]]; discriminate. }
  destruct (WeChatMessage.content msg) as [text |] eqn:Hcontent.
  2: { simpl. intros [<- | [<- | [<- | []]]]; discriminate. }
  destruct (Py.str_truthy openid) eqn:Ho.
  2: { simpl. intros [<- | [<- | [<- | []]]]; discriminate. }
  destruct (Py.str_truthy text) eqn:Ht.
  2: { simpl. intros [<- | [<- | [<- | []]]]; discriminate. }
  simpl.
  pose proof (forward_to_cxone_emits openid text st) as Hall.
  rewrite List.Forall_forall in Hall.
  destruct (forward_to_cxone E settings openid text st) as [[tr st1] [[] | e]] eqn:Hfwd;
    simpl in *.
  - intros [<- | [<- | Hin]]; try discriminate. intros Hnet.
    rewrite List.app_nil_r in Hin.
    apply str_truthy_true in Ho, Ht.
    exists msg, openid, text. repeat split; auto.
  - intros [<- | [<- | Hin]]; try discriminate. intros Hnet.
    apply str_truthy_true in Ho, Ht.
    exists msg, openid, text. repeat split; auto.
Qed.

End WebhookRejection.

(** ** app/routes/wechat.py: decryption and unreadable deliveries *)

Section WebhookDecryption.

Import Exceptions Runtime Spec Spec2 BaseHTTPClient WeChatRoutes.
Local Open Scope py_scope.
Context (E : env) (settings : Settings.t).
Implicit Types (st : store).

Lemma webhook_post_plain request signature timestamp nonce st xml :
  check_signature (Settings.wechat_token settings) signature timestamp nonce = true ->
  Py.len (body request) <= 100000 ->
  decode_utf8 E (body request) = Ok xml ->
  wechat_webhook_post E (Settings.with_wechat_encoding_aes_key settings "")
    request signature timestamp nonce st
  = try_except (parse_and_forward E settings xml)
      (fun e =>
         if isinstance e ValidationErrorC then raise e
         else
           log "exception" "wechat_webhook_processing_error" ;;
           ret (Http.Response 200)) st.
Proof.
  intros Hsig Hsize Hdecode. unfold wechat_webhook_post.
  change (Settings.wechat_token (Settings.with_wechat_encoding_aes_key settings ""))
    with (Settings.wechat_token settings).
  rewrite Hsig. simpl negb. cbv iota zeta.
  destruct (Z.gtb_spec (Py.len (body request)) 100000) as [Hgt | _]; [lia |].
  rewrite Hdecode.
  rewrite (try_except_bind_ok _ _ _ st [] st xml) by reflexivity.
  rewrite prepend_events_nil.
  rewrite (try_except_bind_ok _ _ _ st [] st xml) by reflexivity.
  rewrite prepend_events_nil.
  reflexivity.
Qed.

(** X15: with an encoding AES key configured, a verified delivery whose
    decryption succeeds is handled exactly as the plaintext delivery of the
    decrypted XML would be without a key, after the decryption and its debug
    record. *)
Theorem decrypted_message_is_handled_as_plaintext
    request plain_request signature timestamp nonce st xml decrypted_xml :
  check_signature (Settings.wechat_token settings) signature timestamp nonce = true ->
  Py.len (body request) <= 100000 ->
  decode_utf8 E (body request) = Ok xml ->
  Py.str_truthy (Settings.wechat_encoding_aes_key settings) = true ->
  wechat_crypto_init E (Settings.wechat_token settings)
    (Settings.wechat_encoding_aes_key settings)
    (Settings.wechat_appid settings) = Ok tt ->
  decrypt_message E xml (default "" (query_params request !! "msg_signature"))
    timestamp nonce = Ok decrypted_xml ->
  Py.len (body plain_request) <= 100000 ->
  decode_utf8 E (body plain_request) = Ok decrypted_xml ->
  wechat_webhook_post E settings request signature timestamp nonce st
  = prepend_events
      [DecryptMessage xml (default "" (query_params request !! "msg_signature"))
         timestamp nonce;
       Log "debug" "wechat_message_decrypted"]
      (wechat_webhook_post E (Settings.with_wechat_encoding_aes_key settings "")
         plain_request signature timestamp nonce st).
Proof.
  intros Hsig Hsize Hdecode Hkey Hinit Hdec Hsize' Hdecode'.
  rewrite (webhook_post_plain plain_request signature timestamp nonce st decrypted_xml)
    by assumption.
  unfold wechat_webhook_post.
  rewrite Hsig. simpl negb. cbv iota zeta.
  destruct (Z.gtb_spec (Py.len (body request)) 100000) as [Hgt | _]; [lia |].
  rewrite Hdecode.
  rewrite (try_except_bind_ok _ _ _ st [] st xml) by reflexivity.
  rewrite prepend_events_nil.
  apply try_except_bind_ok.
  unfold decrypt_if_configured.
  rewrite Hkey, Hinit. unfold bind, try_except, lift, ret, emit, log, raise.
  rewrite Hdec. reflexivity.
Qed.

(** X16: a verified delivery whose body is no UTF-8, or for which the
    crypto object cannot be built from the configured key, is answered with
    a bare 200 and dropped: the error is logged, nothing is parsed (there
    is no fallback to plaintext here), nothing is forwarded and no state
    changes. *)
Theorem unreadable_delivery_is_acknowledged_and_dropped
    request signature timestamp nonce st :
  check_signature (Settings.wechat_token settings) signature timestamp nonce = true ->
  Py.len (body request) <= 100000 ->
  (exists err, decode_utf8 E (body request) = Raise err)
  \/ (Py.str_truthy (Settings.wechat_encoding_aes_key settings) = true
      /\ exists err,
           wechat_crypto_init E (Settings.wechat_token settings)
             (Settings.wechat_encoding_aes_key settings)
             (Settings.wechat_appid settings) = Raise err) ->
  wechat_webhook_post E settings request signature timestamp nonce st
  = ([Log "exception" "wechat_webhook_processing_error"], st, Ok (Http.Response 200)).
Proof.
  intros Hsig Hsize H. unfold wechat_webhook_post.
  rewrite Hsig. simpl negb. cbv iota zeta.
  destruct (Z.gtb_spec (Py.len (body request)) 100000) as [Hgt | _]; [lia |].
  destruct (decode_utf8 E (body request)) as [xml | [type_name msg]] eqn:Hdecode.
  - destruct H as [[err H] | (Hkey & [type_name msg] & Hinit)]; [discriminate |].
    unfold decrypt_if_configured. rewrite Hkey, Hinit. reflexivity.
  - reflexivity.
Qed.

End WebhookDecryption.

(** ** app/routes/wechat.py: what a delivery puts on the network *)

Section WebhookForwarding.

Import Exceptions Runtime Spec Spec2 BaseHTTPClient WeChatRoutes.
Local Open Scope py_scope.
Context (E : env) (settings : Settings.t).
Implicit Types (st : store).

(** The decryption block logs and changes nothing else; what it yields is
    the decrypted XML when a key is configured, the crypto object can be
    built and decryption succeeds, and the XML it was given when no key is
    configured or decryption fails. *)
Lemma decrypt_if_configured_run request timestamp nonce xml st :
  exists tr r,
    decrypt_if_configured E settings request timestamp nonce xml st = (tr, st, r)
    /\ Forall local_event tr
    /\ forall xml', r = Ok xml' ->
         xml' = (if Py.str_truthy (Settings.wechat_encoding_aes_key settings)
                 then
                   match decrypt_message E xml
                           (default "" (query_params request !! "msg_signature"))
                           timestamp nonce with
                   | Ok decrypted_xml => decrypted_xml
                   | Raise _ => xml
                   end
                 else xml)
         /\ (Py.str_truthy (Settings.wechat_encoding_aes_key settings) = true ->
             wechat_crypto_init E (Settings.wechat_token settings)
               (Settings.wechat_encoding_aes_key settings)
               (Settings.wechat_appid settings) = Ok tt).
Proof.
  unfold decrypt_if_configured.
  destruct (Py.str_truthy (Settings.wechat_encoding_aes_key settings)).
  2: { exists [], (Ok xml). split; [reflexivity |]. split; [constructor |].
       intros xml' [= <-]. split; [reflexivity | discriminate]. }
  destruct (wechat_crypto_init E _ _ _) as [[] | [type_name msg]].
  2: { eexists [], _. split; [reflexivity |]. split; [constructor |].
       intros xml'. discriminate. }
  unfold bind, try_except, lift, ret, emit, log, raise. simpl.
  destruct (decrypt_message E _ _ _ _) as [decrypted_xml | [type_name msg]]; simpl;
    eexists _, _; (split; [reflexivity |]); (split; [repeat constructor |]);
    intros xml' [= <-]; split; reflexivity.
Qed.

Lemma try_except_bind_raise {A B} (m : M A) (k : A -> M B) (handler : exn -> M B)
    st tr st' e :
  m st = (tr, st', Raise e) ->
  try_except (bind m k) handler st = prepend_events tr (handler e st').
Proof.
  intros H. unfold try_except, bind, prepend_events, events, final, outcome.
  rewrite H. destruct (handler e st') as [[tr2 st2] r]. reflexivity.
Qed.

(** X17: whatever a POST to the webhook puts on the network is the
    POST to the engagement platform of the message parsed from the
    delivery: the body decoded as UTF-8, decrypted when an encoding AES key
    is configured and decryption succeeds, and as it is otherwise.  That
    message is of type text, with a non-empty sender and a non-empty text,
    and the request carries exactly that sender and that text; the delivery
    had a valid signature and a body of at most 100000 bytes.  Other
    message types and incomplete messages never reach the network. *)
Theorem webhook_forwards_only_parsed_text_messages
    request signature timestamp nonce st ev :
  In ev (events (wechat_webhook_post E settings request signature timestamp nonce st)) ->
  is_network ev = true ->
  check_signature (Settings.wechat_token settings) signature timestamp nonce = true
  /\ Py.len (body request) <= 100000
  /\ exists raw msg openid text,
       decode_utf8 E (body request) = Ok raw
       /\ (Py.str_truthy (Settings.wechat_encoding_aes_key settings) = true ->
           wechat_crypto_init E (Settings.wechat_token settings)
             (Settings.wechat_encoding_aes_key settings)
             (Settings.wechat_appid settings) = Ok tt)
       /\ parse_message E
            (if Py.str_truthy (Settings.wechat_encoding_aes_key settings)
             then
               match decrypt_message E raw
                       (default "" (query_params request !! "msg_signature"))
                       timestamp nonce with
               | Ok decrypted_xml => decrypted_xml
               | Raise _ => raw
               end
             else raw)
          = Ok msg
       /\ WeChatMessage.type msg = "text"
       /\ WeChatMessage.source msg = Some openid /\ openid <> ""
       /\ WeChatMessage.content msg = Some text /\ text <> ""
       /\ ev = HttpRequest "POST" (cxone_url (current_client settings st))
                 (cxone_kwargs (current_client settings st) openid text).
Proof.
  unfold wechat_webhook_post.
  destruct (check_signature (Settings.wechat_token settings) signature timestamp nonce)
    eqn:Hsig.
  2: { simpl. intros [<- | []]. discriminate. }
  simpl negb. cbv iota zeta.
  destruct (Z.gtb_spec (Py.len (body request)) 100000) as [Hgt | Hsize].
  { simpl. intros []. }
  destruct (decode_utf8 E (body request)) as [xml | [type_name msg]] eqn:Hdecode.
  2: { simpl. intros [<- | []]. discriminate. }
  rewrite (try_except_bind_ok _ _ _ st [] st xml) by reflexivity.
  rewrite prepend_events_nil.
  destruct (decrypt_if_configured_run request timestamp nonce xml st)
    as (tr & r & Hrun & Hlocal & Hxml).
  rewrite List.Forall_forall in Hlocal.
  destruct r as [xml' | e].
  - rewrite (try_except_bind_ok _ _ _ st tr st xml' Hrun).
    rewrite events_prepend_events, events_try_except.
    intros Hin Hnet. apply in_app_or in Hin. destruct Hin as [Hin | Hin].
    { apply Hlocal in Hin. unfold local_event in Hin. congruence. }
    assert (Hpaf : In ev (events (parse_and_forward E settings xml' st))).
    { destruct (outcome (parse_and_forward E settings xml' st)) as [a | e']; [exact Hin |].
      apply in_app_or in Hin. destruct Hin as [Hin | Hin]; [exact Hin |].
      exfalso. destruct (isinstance e' ValidationErrorC); simpl in Hin.
      - exact Hin.
      - destruct Hin as [<- | []]. discriminate. }
    destruct (parse_and_forward_network_events E settings xml' st ev Hpaf Hnet)
      as (msg & openid & text & Hparse & H).
    destruct (Hxml xml' eq_refl) as [Heq Hinit].
    split; [reflexivity |]. split; [lia |].
    exists xml, msg, openid, text.
    split; [reflexivity |]. split; [exact Hinit |].
    split; [rewrite <- Heq; exact Hparse | exact H].
  - rewrite (try_except_bind_raise _ _ _ st tr st e Hrun).
    rewrite events_prepend_events.
    intros Hin Hnet. exfalso. apply in_app_or in Hin. destruct Hin as [Hin | Hin].
    { apply Hlocal in Hin. unfold local_event in Hin. congruence. }
    destruct (isinstance e ValidationErrorC); simpl in Hin.
    + exact Hin.
    + destruct Hin as [<- | []]. discriminate.
Qed.

End WebhookForwarding.

(** ** The transport and the poster: what a return means *)

Section TransportSuccess.

Import Exceptions Runtime Spec Spec2 BaseHTTPClient.
Local Open Scope py_scope.
Context (E : env) (settings : Settings.t).
Implicit Types (self : ClientObject.t) (kwargs : RequestKwargs.t) (st : store).

Lemma make_request_ok self method url kwargs st response :
  outcome (_make_request E self method url kwargs st) = Ok response ->
  200 <= Response.status_code response <= 299
  /\ http_request E (net_attempts st)
     = NetResponse (Response.status_code response) (Response.text response)
  /\ network_calls (events (_make_request E self method url kwargs st)) = 1%nat
  /\ CircuitBreaker.current
       (circuit_breaker (final (_make_request E self method url kwargs st)))
     = CircuitBreaker.Closed
  /\ CircuitBreaker.fail_counter
       (circuit_breaker (final (_make_request E self method url kwargs st))) = 0.
Proof.
  cbv beta iota zeta delta [_make_request PyBreaker.call_async
       PyBreaker.call_closed PyBreaker.call_half_open client_request
       attempt try_except bind get_store CircuitBreaker.current_state raise ret
       log emit PyBreaker.set_counter modify raise_for_status is_success
       PyBreaker.transition _circuit_breaker_listener events final outcome].
  destruct (CircuitBreaker.current (circuit_breaker st)) eqn:Hc; simpl; rewrite ?Hc; simpl.
  - destruct (http_request E (net_attempts st)) as [code text | msg | msg | tn msg];
      simpl; rewrite ?Hc.
    + destruct (200 <=? code) eqn:H2a; destruct (code <=? 299) eqn:H2b;
        destruct (400 <=? code) eqn:H4; destruct (code <? 500) eqn:H5;
        simpl; rewrite ?H2a, ?H2b, ?H4, ?H5; simpl; try discriminate;
        intros [= <-]; simpl; apply Z.leb_le in H2a, H2b; repeat split; auto.
    + destruct (_ <=? _); simpl; discriminate.
    + destruct (_ <=? _); simpl; discriminate.
    + destruct (_ <=? _); simpl; discriminate.
  - discriminate.
  - destruct (http_request E (net_attempts st)) as [code text | msg | msg | tn msg];
      simpl; rewrite ?Hc.
    + destruct (200 <=? code) eqn:H2a; destruct (code <=? 299) eqn:H2b;
        destruct (400 <=? code) eqn:H4; destruct (code <? 500) eqn:H5;
        simpl; rewrite ?H2a, ?H2b, ?H4, ?H5; simpl; try discriminate;
        intros [= <-]; simpl; apply Z.leb_le in H2a, H2b; repeat split; auto.
    + discriminate.
    + discriminate.
    + discriminate.
Qed.

Lemma retry_ok {A} (func : M A) (Q : A -> store -> Prop) n a st r :
  (forall st0 r0, outcome (func st0) = Ok r0 -> Q r0 (final (func st0))) ->
  outcome (retry n a func st) = Ok r ->
  Q r (final (retry n a func st)).
Proof.
  intros Hf. revert a st. induction n as [| n IH]; intros a st; simpl retry;
    rewrite outcome_try_except, final_try_except;
    destruct (outcome (func st)) as [r0 | e] eqn:Ho.
  - intros [= <-]. apply Hf, Ho.
  - destruct (retry_if_exception_type e); discriminate.
  - intros [= <-]. apply Hf, Ho.
  - destruct (retry_if_exception_type e); [| discriminate].
    rewrite outcome_bind, final_bind. simpl outcome. cbv iota. apply IH.
Qed.

Lemma retry_ok_calls {A} (func : M A) n a st r :
  (forall st0 r0, outcome (func st0) = Ok r0 ->
     (1 <= network_calls (events (func st0)))%nat) ->
  outcome (retry n a func st) = Ok r ->
  (1 <= network_calls (events (retry n a func st)))%nat.
Proof.
  intros Hf. revert a st. induction n as [| n IH]; intros a st; simpl retry;
    rewrite outcome_try_except, events_try_except;
    destruct (outcome (func st)) as [r0 | e] eqn:Ho.
  - intros _. eapply Hf, Ho.
  - destruct (retry_if_exception_type e); discriminate.
  - intros _. eapply Hf, Ho.
  - destruct (retry_if_exception_type e); [| discriminate].
    rewrite outcome_bind, events_bind. simpl outcome. cbv iota.
    intros H. apply IH in H. rewrite !network_calls_app. lia.
Qed.

(** X18: when a call of the transport returns a response, its status
    code is below 400, at least one request went out, and the circuit is
    closed with a failure count of zero. *)
Theorem returned_response_is_a_success self method url kwargs st response :
  let run := _request_with_retry E self method url kwargs st in
  outcome run = Ok response ->
  Response.status_code response < 400
  /\ (1 <= network_calls (events run))%nat
  /\ CircuitBreaker.current (circuit_breaker (final run)) = CircuitBreaker.Closed
  /\ CircuitBreaker.fail_counter (circuit_breaker (final run)) = 0.
Proof.
  intros run Hok. subst run. unfold _request_with_retry in *.
  split.
  { apply (retry_ok _ (fun r _ => Response.status_code r < 400) _ _ _ _) in Hok;
      [exact Hok |].
    intros st0 r0 H0. apply make_request_ok in H0. destruct H0 as [H0 _]. lia. }
  split.
  { eapply retry_ok_calls; [| exact Hok].
    intros st0 r0 H0. apply make_request_ok in H0.
    destruct H0 as (_ & _ & -> & _). lia. }
  apply (retry_ok _ (fun _ st' =>
           CircuitBreaker.current (circuit_breaker st') = CircuitBreaker.Closed
           /\ CircuitBreaker.fail_counter (circuit_breaker st') = 0) _ _ _ _) in Hok;
    [exact Hok |].
  intros st0 r0 H0. apply make_request_ok in H0. tauto.
Qed.

(** X19: when the poster returns, it returns a JSON object, the recipient
    and the text were not empty, and at least one request went out. *)
Theorem post_message_returns_a_json_object self openid text st result :
  let run := CXoneClient.post_message E self openid text st in
  outcome run = Ok result ->
  openid <> "" /\ text <> ""
  /\ (exists d, result = JsonDict d)
  /\ (1 <= network_calls (events run))%nat.
Proof.
  intros run. subst run.
  destruct (decide (openid = "")) as [-> | Ho]; [discriminate |].
  destruct (decide (text = "")) as [-> | Ht].
  { unfold CXoneClient.post_message.
    apply str_truthy_true in Ho. rewrite Ho. discriminate. }
  rewrite post_message_validated by assumption.
  rewrite outcome_try_except, events_try_except.
  destruct (outcome _) as [a | cause] eqn:Hbody.
  2: { rewrite outcome_bind. simpl.
       destruct (isinstance cause CXoneAPIErrorC); discriminate. }
  intros [= <-].
  rewrite outcome_bind in Hbody. simpl outcome in Hbody. cbv iota in Hbody.
  change (final (log "info" "posting_message_to_cxone" st)) with st in Hbody.
  rewrite outcome_bind in Hbody.
  rewrite events_bind. simpl outcome. cbv iota.
  change (final (log "info" "posting_message_to_cxone" st)) with st.
  rewrite events_bind.
  destruct (outcome (post E self (cxone_url self) (cxone_kwargs self openid text) st))
    as [response |] eqn:Hpost; [| discriminate].
  assert (Hcalls : (1 <= network_calls
            (events (post E self (cxone_url self) (cxone_kwargs self openid text) st)))%nat).
  { unfold post, _request_with_retry in *. eapply retry_ok_calls; [| exact Hpost].
    intros st0 r0 H0. apply make_request_ok in H0.
    destruct H0 as (_ & _ & -> & _). lia. }
  repeat split; auto.
  - rewrite outcome_bind in Hbody.
    destruct (response_json E (Response.text response)) as [[d | v] | [tn msg]];
      simpl in Hbody; try discriminate.
    injection Hbody as <-. eauto.
  - rewrite !network_calls_app. lia.
Qed.

End TransportSuccess.

(** ** app/routes/byoc.py: the authentication dependency *)

Section Authentication.

Import Exceptions Runtime Spec Spec2 BaseHTTPClient.
Local Open Scope py_scope.
Context (E : env) (settings : Settings.t).
Implicit Types (st : store).

(** X20: the authentication dependency logs nothing and changes nothing.
    It returns a token only when the header starts with [Bearer ], the
    token is the second of the pieces between single spaces and is not
    empty, and the JWT library decodes it under the secret to claims that
    are not empty.  Every rejection is an [AuthenticationError]; the only
    other exception is one the JWT library raised besides its expired and
    invalid token errors. *)
Theorem bearer_token_is_checked authorization st :
  let run := ByocRoutes.get_bearer_token E settings authorization st in
  events run = [] /\ final run = st
  /\ match outcome run with
     | Ok token =>
         exists header claims,
           authorization = Some header
           /\ Py.startswith "Bearer " header = true
           /\ token = nth 1 (Py.split_space header) ""
           /\ token <> ""
           /\ jwt_decode E token (Settings.jwt_secret settings) = JwtPayload claims
           /\ claims <> ∅
     | Raise e =>
         (exists message, e = AuthenticationError message)
         \/ (exists token type_name msg,
               jwt_decode E token (Settings.jwt_secret settings)
               = JwtError type_name msg
               /\ e = PyException type_name msg)
     end.
Proof.
  cbv beta iota zeta delta [ByocRoutes.get_bearer_token Auth.verify_token
    bind ret raise].
  destruct authorization as [header |];
    [| repeat split; left; eexists; reflexivity].
  destruct (Py.str_truthy header) eqn:Hh;
    [| repeat split; left; eexists; reflexivity].
  destruct (Py.startswith "Bearer " header) eqn:Hp;
    [| repeat split; left; eexists; reflexivity].
  simpl.
  destruct (Py.str_truthy (nth 1 (Py.split_space header) "")) eqn:Ht;
    [| repeat split; left; eexists; reflexivity].
  simpl.
  destruct (jwt_decode E _ _) as [claims | | | tn msg] eqn:Hjwt; simpl.
  - unfold CXoneMessagePayload.dict_truthy.
    destruct (bool_decide_reflect (claims = ∅)) as [Hc | Hc]; simpl.
    + repeat split. left. eexists. reflexivity.
    + repeat split. exists header, claims. apply str_truthy_true in Ht.
      repeat split; auto.
  - repeat split. left. eexists. reflexivity.
  - repeat split. left. eexists. reflexivity.
  - repeat split. right. eauto.
Qed.

Lemma bearer_token_raises authorization st e :
  outcome (ByocRoutes.get_bearer_token E settings authorization st) = Raise e ->
  (exists message, e = AuthenticationError message)
  \/ (exists type_name msg, e = PyException type_name msg).
Proof.
  cbv beta iota zeta delta [ByocRoutes.get_bearer_token Auth.verify_token
    bind ret raise].
  destruct authorization as [header |]; [| intros [= <-]; left; eauto].
  destruct (negb (Py.str_truthy header) || negb (Py.startswith "Bearer " header));
    [intros [= <-]; left; eauto |].
  destruct (negb (Py.str_truthy (nth 1 (Py.split_space header) "")));
    [intros [= <-]; left; eauto |].
  destruct (jwt_decode E _ _) as [claims | | | tn msg]; simpl;
    try (intros [= <-]; left; eauto; fail).
  - destruct (CXoneMessagePayload.dict_truthy claims); simpl;
      [discriminate | intros [= <-]; left; eauto].
  - intros [= <-]. right. eauto.
Qed.

(** X21: when the authentication dependency raises, the message
    endpoint raises the same exception with nothing logged, sent or
    changed: the path id and the body are never looked at.  When the
    exception is one of the application it is answered with status
    401. *)
Theorem unauthenticated_post_is_refused_untouched authorization id request st e :
  outcome (ByocRoutes.get_bearer_token E settings authorization st) = Raise e ->
  ByocRoutes.post_message_endpoint E settings authorization id request st
  = ([], st, Raise e)
  /\ (isinstance e ApplicationErrorC = true ->
      exists response,
        outcome (Main.serve (ByocRoutes.post_message_endpoint E settings
                               authorization id request) st) = Ok response
        /\ Http.status_code response = 401).
Proof.
  intros Hauth.
  destruct (get_bearer_token_pure E settings authorization st) as [r Hr].
  assert (Hrun : ByocRoutes.post_message_endpoint E settings authorization id request st
                 = ([], st, Raise e)).
  { unfold ByocRoutes.post_message_endpoint, bind. rewrite Hr in *.
    unfold outcome in Hauth. simpl in Hauth. subst r. reflexivity. }
  split; [exact Hrun |].
  intros Happ.
  pose proof (bearer_token_raises authorization st e Hauth) as Hcase.
  destruct Hcase as [[message ->] | (tn & msg & ->)]; [| discriminate].
  eexists. split.
  - apply (outcome_serve_application_error _ st AuthenticationErrorC message 401 ∅).
    rewrite Hrun. reflexivity.
  - reflexivity.
Qed.

End Authentication.

(** ** app/routes/byoc.py: the message endpoint *)

Section MessageEndpoint.

Import Exceptions Runtime Spec Spec2 BaseHTTPClient.
Local Open Scope py_scope.
Context (E : env) (settings : Settings.t).
Implicit Types (st : store).

Lemma post_message_invalid_id id request token st :
  negb (Py.str_truthy id) || (Py.len id >? 128) = true ->
  ByocRoutes.post_message E settings id request token st
  = ([], st, Raise (ValidationError "Invalid post ID" None)).
Proof. intros H. unfold ByocRoutes.post_message. rewrite H. reflexivity. Qed.

Lemma post_message_invalid_body id request token st :
  negb (Py.str_truthy id) || (Py.len id >? 128) = false ->
  match ByocRoutes.json_body request with
  | Ok body =>
      match CXoneMessagePayload.validate body with Ok _ => False | Raise _ => True end
  | Raise _ => True
  end ->
  exists details,
    ByocRoutes.post_message E settings id request token st
    = ([], st, Raise (ValidationError "Invalid request payload" (Some details))).
Proof.
  intros Hid H. unfold ByocRoutes.post_message. rewrite Hid.
  unfold bind, try_except, lift, raise, ret.
  destruct (ByocRoutes.json_body request) as [body | [tn msg]]; simpl.
  - destruct (CXoneMessagePayload.validate body) as [payload | field]; [contradiction |].
    simpl. eexists. reflexivity.
  - eexists. reflexivity.
Qed.

Lemma send_text_message_network openid text st :
  openid <> "" -> text <> "" -> Py.len text <= 10000 ->
  List.filter is_network (events (WeChatClient.send_text_message E settings openid text st))
  = if Settings.mock_mode settings then [] else [WeChatSendText openid text].
Proof.
  intros Ho Ht Hlen.
  apply str_truthy_true in Ho. apply str_truthy_true in Ht.
  cbv beta iota zeta delta [WeChatClient.send_text_message WeChatClient.get_wechat_client
    WeChatClient.client_send_text_message WeChatClient.wrapper_send_text_message
    MockWeChatClient.get_mock_wechat_client MockWeChatClient.send_text_message
    bind try_except get_store modify ret raise emit log lift].
  destruct (Settings.mock_mode settings); simpl.
  - destruct (_mock_wechat_client st); reflexivity.
  - rewrite Ho, Ht. simpl.
    destruct (Z.gtb_spec (Py.len text) 10000) as [Hgt | _]; [lia |].
    destruct (wechat_send_text E openid text) as [d | [tn msg]]; reflexivity.
Qed.

Lemma post_message_valid_network id request token st body payload openid text :
  negb (Py.str_truthy id) || (Py.len id >? 128) = false ->
  ByocRoutes.json_body request = Ok body ->
  CXoneMessagePayload.validate body = Ok payload ->
  CXoneMessagePayload.get_openid payload = Some openid ->
  CXoneMessagePayload.get_text payload = Some text ->
  List.filter is_network (events (ByocRoutes.post_message E settings id request token st))
  = if Settings.mock_mode settings then [] else [WeChatSendText openid text].
Proof.
  intros Hid Hbody Hval Hgo Hgt.
  assert (Ho : openid <> "").
  { intros ->. apply (get_openid_not_empty payload). exact Hgo. }
  assert (Ht : text <> "").
  { intros ->. apply (get_text_not_empty payload). exact Hgt. }
  pose proof (validate_get_text_len body payload text Hval Hgt) as Hlt.
  unfold ByocRoutes.post_message. rewrite Hid.
  unfold events.
  rewrite (bind_ok _ _ st [] st payload);
    [| unfold try_except, bind, lift; rewrite Hbody; simpl; rewrite Hval;
       reflexivity].
  rewrite (bind_ok (log "info" "received_cxone_message") _ st
             [Log "info" "received_cxone_message"] st tt) by reflexivity.
  cbv zeta. rewrite Hgo, Hgt.
  change (Py.opt_truthy (Some openid)) with (Py.str_truthy openid).
  change (Py.opt_truthy (Some text)) with (Py.str_truthy text).
  rewrite (proj2 (str_truthy_true openid) Ho), (proj2 (str_truthy_true text) Ht).
  change (negb true) with false. cbv iota.
  change (default "" (Some openid)) with openid.
  change (default "" (Some text)) with text.
  destruct (send_text_message_outcome E settings openid text st Ho Ht Hlt) as (_ & Hout & _).
  pose proof (send_text_message_network openid text st Ho Ht Hlt) as Hnet.
  simpl fst.
  rewrite events_bind, outcome_try_except, events_try_except, outcome_bind, events_bind.
  destruct (outcome (WeChatClient.send_text_message E settings openid text st))
    as [d | e] eqn:Hsend.
  - simpl. rewrite !List.filter_app, Hnet. simpl.
    destruct (Settings.mock_mode settings); reflexivity.
  - rewrite Hout. simpl. rewrite !List.filter_app, Hnet. simpl.
    destruct (Settings.mock_mode settings); reflexivity.
Qed.


Lemma post_message_no_extraction id request token st body payload :
  negb (Py.str_truthy id) || (Py.len id >? 128) = false ->
  ByocRoutes.json_body request = Ok body ->
  CXoneMessagePayload.validate body = Ok payload ->
  CXoneMessagePayload.get_openid payload = None
  \/ CXoneMessagePayload.get_text payload = None ->
  events (ByocRoutes.post_message E settings id request token st)
  = [Log "info" "received_cxone_message"]
  /\ final (ByocRoutes.post_message E settings id request token st) = st.
Proof.
  intros Hid Hbody Hval H.
  unfold ByocRoutes.post_message. rewrite Hid.
  unfold events, final.
  rewrite (bind_ok _ _ st [] st payload);
    [| unfold try_except, bind, lift; rewrite Hbody; simpl; rewrite Hval;
       reflexivity].
  rewrite (bind_ok (log "info" "received_cxone_message") _ st
             [Log "info" "received_cxone_message"] st tt) by reflexivity.
  cbv zeta.
  pose proof (get_openid_not_empty payload) as Hno.
  destruct (CXoneMessagePayload.get_openid payload) as [o |] eqn:Hgo.
  - destruct H as [H | H]; [discriminate |]. rewrite H.
    assert (Ho : o <> "") by congruence.
    change (Py.opt_truthy (Some o)) with (Py.str_truthy o).
    rewrite (proj2 (str_truthy_true o) Ho). simpl. split; reflexivity.
  - simpl. split; reflexivity.
Qed.

(** X23: the message endpoint calls the messaging platform exactly once,
    with the extracted recipient and text, when the request is valid, both
    values can be extracted and mock mode is off; in every other case it
    puts nothing on the network. *)
Theorem byoc_post_sends_the_extracted_message id request token st :
  List.filter is_network (events (ByocRoutes.post_message E settings id request token st))
  = if negb (Py.str_truthy id) || (Py.len id >? 128) then []
    else
      match ByocRoutes.json_body request with
      | Raise _ => []
      | Ok body =>
          match CXoneMessagePayload.validate body with
          | Raise _ => []
          | Ok payload =>
              match CXoneMessagePayload.get_openid payload,
                    CXoneMessagePayload.get_text payload with
              | Some openid, Some text =>
                  if Settings.mock_mode settings then []
                  else [WeChatSendText openid text]
              | _, _ => []
              end
          end
      end.
Proof.
  destruct (negb (Py.str_truthy id) || (Py.len id >? 128)) eqn:Hid.
  { rewrite post_message_invalid_id by exact Hid. reflexivity. }
  assert (Hinv : match ByocRoutes.json_body request with
                 | Ok body =>
                     match CXoneMessagePayload.validate body with
                     | Ok _ => False | Raise _ => True end
                 | Raise _ => True
                 end ->
                 List.filter is_network
                   (events (ByocRoutes.post_message E settings id request token st)) = []).
  { intros H. destruct (post_message_invalid_body id request token st Hid H)
      as [details Hrun].
    rewrite Hrun. reflexivity. }
  destruct (ByocRoutes.json_body request) as [body | err] eqn:Hbody; [| apply Hinv; exact I].
  destruct (CXoneMessagePayload.validate body) as [payload | field] eqn:Hval;
    [| apply Hinv; exact I].
  clear Hinv.
  destruct (CXoneMessagePayload.get_openid payload) as [o |] eqn:Hgo.
  - destruct (CXoneMessagePayload.get_text payload) as [t |] eqn:Hgt.
    + apply (post_message_valid_network id request token st body payload o t);
        assumption.
    + destruct (post_message_no_extraction id request token st body payload
                  Hid Hbody Hval (or_intror Hgt)) as [-> _]. reflexivity.
  - destruct (post_message_no_extraction id request token st body payload
                Hid Hbody Hval (or_introl Hgo)) as [-> _]. reflexivity.
Qed.

End MessageEndpoint.

(** ** app/routes/byoc.py and app/auth.py: the token endpoint *)

Section TokenEndpointFacts.

Import Exceptions Runtime Spec Spec2 BaseHTTPClient.
Local Open Scope py_scope.
Context (E : env) (settings : Settings.t).
Context (jwt_encode : gmap string Py.pyval -> string -> string).
Implicit Types (st : store).

(** X24: the token endpoint always answers and changes no state.  A
    [grant_type] of 1 to 50 characters other than [client_credentials] is
    answered 500, whatever the other fields: its validator raises, the
    error list then holds the exception object, and the validation handler
    fails to build its JSON response.  Otherwise a field outside its
    length bounds is answered 422; a well-formed request whose client id
    or secret differs from the configured one is answered 401; and any
    other request is answered 200 with a bearer token that expires in 86400
    seconds and signs the client id and an expiry 24 hours ahead. *)
Theorem token_endpoint_answers_200_401_422_or_500 body st :
  let run :=
    App.handle_request TokenRequest.validate
      (TokenEndpoint.get_token jwt_encode settings) body st in
  final run = st
  /\ network_calls (events run) = 0%nat
  /\ outcome run
     = if TokenRequest.length_between 1 50 (TokenRequest.grant_type body)
          && negb (String.eqb (TokenRequest.grant_type body) "client_credentials")
       then
         Ok (App.Failure 500 "InternalServerError" "An unexpected error occurred")
       else if negb (TokenRequest.length_between 1 128 (TokenRequest.client_id body)
                     && TokenRequest.length_between 1 256
                          (TokenRequest.client_secret body)
                     && TokenRequest.length_between 1 50
                          (TokenRequest.grant_type body))
       then Ok (App.Failure 422 "ValidationError" "Request validation failed")
       else if String.eqb (TokenRequest.client_id body) (Settings.client_id settings)
               && String.eqb (TokenRequest.client_secret body)
                    (Settings.client_secret settings)
       then
         Ok (App.Success
               (TokenResponse.Build
                  (jwt_encode
                     (TokenEndpoint.token_claims (TokenRequest.client_id body) (now st))
                     (Settings.jwt_secret settings))
                  "Bearer" 86400))
       else Ok (App.Failure 401 "AuthenticationError" "Invalid client credentials").
Proof.
  unfold App.handle_request, TokenRequest.validate, TokenRequest.errors,
    TokenRequest.validate_grant_type, App.handle, TokenEndpoint.get_token.
  destruct (TokenRequest.length_between 1 128 (TokenRequest.client_id body));
    destruct (TokenRequest.length_between 1 256 (TokenRequest.client_secret body));
    destruct (TokenRequest.length_between 1 50 (TokenRequest.grant_type body));
    destruct (String.eqb (TokenRequest.grant_type body) "client_credentials");
    simpl; try (repeat split; reflexivity).
  destruct (String.eqb (TokenRequest.client_id body) (Settings.client_id settings));
    destruct (String.eqb (TokenRequest.client_secret body)
                (Settings.client_secret settings)); repeat split; reflexivity.
Qed.

Lemma split_space_no_space s : no_space s = true -> Py.split_space s = [s].
Proof.
  induction s as [| c s IH]; [reflexivity |]. simpl.
  destruct (Ascii.eqb c " "); simpl; [discriminate |].
  intros H. rewrite (IH H). reflexivity.
Qed.

Lemma split_space_cons c s :
  Ascii.eqb c " " = false ->
  Py.split_space (String c s)
  = match Py.split_space s with
    | piece :: rest => String c piece :: rest
    | [] => [String c EmptyString]
    end.
Proof. intros H. simpl. rewrite H. reflexivity. Qed.

Lemma split_space_space s :
  Py.split_space (String " " s) = EmptyString :: Py.split_space s.
Proof. reflexivity. Qed.

Lemma bearer_header_token s :
  no_space s = true ->
  Py.startswith "Bearer " ("Bearer " +:+ s) = true
  /\ nth 1 (Py.split_space ("Bearer " +:+ s)) "" = s.
Proof.
  intros H. split.
  - unfold Py.startswith. simpl. destruct s; reflexivity.
  - change ("Bearer " +:+ s)
      with (String "B" (String "e" (String "a" (String "r" (String "e"
              (String "r" (String " " s))))))).
    do 6 rewrite split_space_cons by reflexivity.
    rewrite split_space_space, (split_space_no_space s H). reflexivity.
Qed.

(** X25: a token the token endpoint issued is accepted by the
    authentication dependency when sent as [token_type], a space and the
    token, provided the JWT library decodes it to the claims that were
    signed and the token is non-empty and has no space in it. *)
Theorem issued_token_authenticates body st st' token_response :
  outcome (TokenEndpoint.get_token_endpoint jwt_encode settings body st)
  = Ok token_response ->
  let token := TokenResponse.access_token token_response in
  token <> "" -> no_space token = true ->
  jwt_decode E token (Settings.jwt_secret settings)
  = JwtPayload (TokenEndpoint.token_claims (TokenRequest.client_id body) (now st)) ->
  outcome (ByocRoutes.get_bearer_token E settings
             (Some (TokenResponse.token_type token_response +:+ " " +:+ token)) st')
  = Ok token.
Proof.
  intros Hissue token Hne Hns Hdec.
  assert (Htype : TokenResponse.token_type token_response = "Bearer").
  { unfold TokenEndpoint.get_token_endpoint, TokenEndpoint.get_token in Hissue.
    destruct (TokenRequest.validate body); [| discriminate].
    destruct (negb _ || negb _); [discriminate |].
    injection Hissue as <-. reflexivity. }
  rewrite Htype.
  change ("Bearer" +:+ " " +:+ token) with ("Bearer " +:+ token).
  destruct (bearer_header_token token Hns) as [Hprefix Hnth].
  unfold ByocRoutes.get_bearer_token.
  rewrite Hprefix, Hnth.
  change (Py.str_truthy ("Bearer " +:+ token)) with true.
  change (negb true || negb true) with false. cbv iota.
  apply str_truthy_true in Hne. rewrite Hne.
  change (negb true) with false. cbv iota.
  unfold Auth.verify_token. rewrite Hdec.
  reflexivity.
Qed.

End TokenEndpointFacts.

(** ** app/api/health.py: the health check *)

Section HealthCheck.

Import Exceptions Runtime Spec Spec2 BaseHTTPClient.
Local Open Scope py_scope.
Context (E : env) (settings : Settings.t).
Implicit Types (st : store).

Lemma length_append (s1 s2 : string) :
  String.length (s1 +:+ s2) = (String.length s1 + String.length s2)%nat.
Proof. induction s1 as [| c s1 IH]; simpl; [reflexivity | rewrite IH; reflexivity]. Qed.

(** X26: the health check puts nothing on the network.  In mock mode it
    logs nothing and changes no state; otherwise it keeps an existing client
    and its circuit breaker as they are.  The appid it reports is the first
    ten characters of the configured one followed by three dots. *)
Theorem health_check_is_local st :
  let run := Health.health settings st in
  network_calls (events run) = 0%nat
  /\ (Settings.mock_mode settings = true -> events run = [] /\ final run = st)
  /\ (forall client, _cxone_client st = Some client ->
        _cxone_client (final run) = Some client
        /\ circuit_breaker (final run) = circuit_breaker st)
  /\ forall status report appid,
       outcome run = Ok status ->
       Health.dependencies status !! "wechat" = Some report ->
       report !! "appid" = Some appid ->
       appid = Py.slice_to 10 (Settings.wechat_appid settings) +:+ "..."
       /\ (String.length appid <= 13)%nat.
Proof.
  unfold Health.health, CXoneClient.get_cxone_client, CXoneClient.init,
    BaseHTTPClient.init, WeChatClient.get_wechat_client,
    MockWeChatClient.get_mock_wechat_client.
  destruct (Settings.mock_mode settings) eqn:Hmock.
  - simpl. split; [reflexivity |]. split; [split; reflexivity |].
    split; [intros client Hcl; split; [exact Hcl | reflexivity] |].
    intros s0 r0 a0 [= <-]. simpl.
    rewrite lookup_insert_eq. intros [= <-].
    rewrite lookup_singleton_ne by discriminate. discriminate.
  - cbv beta iota zeta delta [negb try_except bind get_store modify ret raise emit log
      events final outcome fst snd].
    assert (Happid : forall (deps : gmap string (gmap string string)) r0 a0,
      <["wechat" := {[ "status" := "ok";
                       "appid" := Py.slice_to 10 (Settings.wechat_appid settings)
                                    +:+ "..." ]}]> deps !! "wechat" = Some r0 ->
      r0 !! "appid" = Some a0 ->
      a0 = Py.slice_to 10 (Settings.wechat_appid settings) +:+ "..."
      /\ (String.length a0 <= 13)%nat).
    { intros deps r0 a0. rewrite lookup_insert_eq. intros [= <-].
      rewrite lookup_insert_ne by discriminate. rewrite lookup_singleton_eq.
      intros [= <-]. split; [reflexivity |].
      rewrite length_append.
      pose proof (slice_to_length 10 (Settings.wechat_appid settings)). simpl. lia. }
    destruct (_cxone_client st) as [client |] eqn:Hcl; simpl; rewrite ?Hcl; simpl.
    + split; [reflexivity |]. split; [discriminate |].
      split; [intros c [= <-]; split; reflexivity |].
      intros s0 r0 a0 [= <-]. simpl. apply Happid.
    + split; [reflexivity |]. split; [discriminate |].
      split; [discriminate |].
      intros s0 r0 a0 [= <-]. simpl. apply Happid.
Qed.

End HealthCheck.

(** ** app/models/messages.py: validation and extraction *)

Section Messages.

Import Exceptions Runtime Spec Spec2 BaseHTTPClient.
Local Open Scope py_scope.
Import CXoneMessagePayload.

(** X27: model validation returns the payload unchanged, and on a
    validated payload an extracted text has 1 to 10000 characters, and a
    non-empty thread id is the extracted recipient and has at most 128
    characters. *)
Theorem validated_payload_bounds body payload :
  validate body = Ok payload ->
  payload = body
  /\ (forall txt, get_text payload = Some txt -> 1 <= Py.len txt <= 10000)
  /\ (forall th id, thread payload = Some th ->
        ThreadInfo.idOnExternalPlatform th = Some id -> id <> "" ->
        get_openid payload = Some id /\ Py.len id <= 128).
Proof.
  intros Hval.
  assert (Heq : payload = body).
  { unfold validate in Hval.
    repeat match type of Hval with
    | match ?x with _ => _ end = _ => destruct x; try discriminate
    | (if ?x then _ else _) = _ => destruct x; try discriminate
    end. congruence. }
  split; [exact Heq |]. split.
  - intros txt Htxt. split.
    + assert (txt <> "").
      { intros ->. exact (get_text_not_empty payload Htxt). }
      unfold Py.len. destruct txt; [contradiction | simpl; lia].
    + exact (validate_get_text_len body payload txt Hval Htxt).
  - intros th id Hth Hid Hne. subst payload.
    apply str_truthy_true in Hne.
    unfold get_openid. rewrite Hth, Hid. simpl. rewrite Hne. split; [exact Hid |].
    unfold validate in Hval. rewrite Hth, Hid in Hval. simpl in Hval.
    rewrite Hne in Hval. simpl in Hval.
    destruct (Z.gtb_spec (Py.len id) 128); [discriminate | lia].
Qed.

End Messages.

(** ** The further properties at concrete inputs *)

Lemma response_clears_failure_count_witness :
  CircuitBreaker.fail_counter
    (Runtime.circuit_breaker
       (Runtime.final
          (BaseHTTPClient._request_with_retry
             (Samples.cxone_answers 500 "Internal Server Error")
             Samples.cxone_client "POST" "/channels/test_channel_id/messages"
             Samples.kwargs Runtime.initial_store))) = 0.
Proof.
  refine (proj1 (proj2
    (response_clears_failure_count
       (Samples.cxone_answers 500 "Internal Server Error")
       Samples.cxone_client "POST" "/channels/test_channel_id/messages"
       Samples.kwargs Runtime.initial_store 500 "Internal Server Error" _ _))).
  - reflexivity.
  - reflexivity.
Defined.

Lemma transient_failures_are_retried_witness :
  Runtime.outcome
    (BaseHTTPClient._request_with_retry Scenarios.flaky Samples.cxone_client
       "POST" "/channels/test_channel_id/messages" Samples.kwargs
       Runtime.initial_store)
  = Ok (Response.Build 200 "{}")
  /\ Spec2.sleeps
       (Runtime.events
          (BaseHTTPClient._request_with_retry Scenarios.flaky Samples.cxone_client
             "POST" "/channels/test_channel_id/messages" Samples.kwargs
             Runtime.initial_store))
     = [2; 2].
Proof.
  pose proof
    (transient_failures_are_retried Scenarios.flaky Samples.cxone_client
       "POST" "/channels/test_channel_id/messages" Samples.kwargs
       Runtime.initial_store 2 200 "{}") as H.
  refine ((fun H' => conj (proj1 H') (proj1 (proj2 (proj2 H')))) (H _ _ _ _ _ _)).
  - vm_compute. reflexivity.
  - reflexivity.
  - vm_compute. reflexivity.
  - intros i Hi. destruct i as [| [| i]]; [reflexivity | reflexivity | lia].
  - reflexivity.
  - lia.
Defined.

Lemma transport_raises_only_transport_errors_witness :
  Spec2.transport_error (Exceptions.NetworkError "connection refused").
Proof.
  refine (transport_raises_only_transport_errors Samples.downstream_down
            Samples.cxone_client "POST" "/channels/test_channel_id/messages"
            Samples.kwargs Runtime.initial_store
            (Exceptions.NetworkError "connection refused") _).
  vm_compute. reflexivity.
Defined.

(** A redirect is no success for httpx: the answer is raised as its status
    error after the one request, and the poster wraps it like any other
    failure. *)
Example redirect_answer_is_raised :
  BaseHTTPClient._request_with_retry (Samples.cxone_answers 302 "Found")
    Samples.cxone_client "POST" "/channels/test_channel_id/messages"
    Samples.kwargs Runtime.initial_store
  = ([Runtime.HttpRequest "POST" "/channels/test_channel_id/messages" Samples.kwargs],
     Runtime.set_net_attempts Runtime.initial_store 1,
     Raise (Exceptions.HTTPStatusError 302 "Found")).
Proof. vm_compute. reflexivity. Qed.

Lemma post_message_failure_is_bad_gateway_witness :
  exists e,
    Runtime.outcome
      (CXoneClient.post_message Samples.downstream_down Samples.cxone_client
         "fromUser" "Hello WeChat" Runtime.initial_store) = Raise e
    /\ exists cause, e = Spec2.cxone_bad_gateway "fromUser" cause.
Proof.
  eexists. split; [reflexivity |].
  destruct (post_message_failure_is_bad_gateway Samples.downstream_down
              Samples.cxone_client "fromUser" "Hello WeChat" Runtime.initial_store
              _ eq_refl) as [[H _] | [(_ & H & _) | (_ & _ & cause & _ & H)]].
  - discriminate H.
  - discriminate H.
  - exists cause. exact H.
Defined.

Lemma post_message_sends_only_the_message_witness :
  Runtime.HttpRequest "POST" "/channels/test_channel_id/messages" Samples.kwargs
  = Runtime.HttpRequest "POST" (Spec2.cxone_url Samples.cxone_client)
      (Spec2.cxone_kwargs Samples.cxone_client "fromUser" "Hello WeChat").
Proof.
  refine (proj1
    (post_message_sends_only_the_message (Samples.cxone_answers 200 "{}")
       Samples.cxone_client "fromUser" "Hello WeChat" Runtime.initial_store
       (Runtime.HttpRequest "POST" "/channels/test_channel_id/messages" Samples.kwargs)
       _ _)).
  - vm_compute. right. left. reflexivity.
  - reflexivity.
Defined.

Lemma post_message_needs_a_json_object_witness :
  Runtime.outcome
    (CXoneClient.post_message (Samples.cxone_answers 200 "{}") Samples.cxone_client
       "fromUser" "Hello WeChat" Runtime.initial_store)
  = Ok (Runtime.JsonDict {[ "id" := Py.PStr "m1" ]}).
Proof.
  refine (proj2
    (post_message_needs_a_json_object (Samples.cxone_answers 200 "{}")
       Samples.cxone_client "fromUser" "Hello WeChat" Runtime.initial_store
       200 "{}" _ _ _ _ _)).
  - discriminate.
  - discriminate.
  - reflexivity.
  - reflexivity.
  - lia.
Defined.

Lemma sender_calls_the_platform_once_witness :
  List.filter Runtime.is_network
    (Runtime.events
       (WeChatClient.wrapper_send_text_message Samples.downstream_down
          "test_openid" "Hello from CXone" Runtime.initial_store))
  = [Runtime.WeChatSendText "test_openid" "Hello from CXone"]
  /\ Runtime.outcome
       (WeChatClient.wrapper_send_text_message Samples.downstream_down
          "test_openid" "Hello from CXone" Runtime.initial_store)
     = Raise (Spec2.wechat_bad_gateway "test_openid"
                (Exceptions.PyException "WeChatClientException" "system busy")).
Proof.
  refine (proj2
    (sender_calls_the_platform_once Samples.downstream_down
       "test_openid" "Hello from CXone" Runtime.initial_store _ _ _)).
  - discriminate.
  - discriminate.
  - vm_compute. discriminate.
Defined.

Lemma mock_mode_records_instead_of_sending_witness :
  Runtime._mock_wechat_client
    (Runtime.final
       (WeChatClient.send_text_message Samples.downstream_down
          Scenarios.mock_settings "" "" Runtime.initial_store))
  = Some [("", "")].
Proof.
  refine (proj1 (proj2 (proj2
    (mock_mode_records_instead_of_sending Samples.downstream_down
       Scenarios.mock_settings "" "" Runtime.initial_store _)))).
  reflexivity.
Defined.

Lemma rejected_webhook_post_does_nothing_witness :
  Runtime.final
    (WeChatRoutes.wechat_webhook_post (Samples.cxone_answers 200 "{}")
       Samples.settings Samples.webhook_request Scenarios.bad_signature
       Samples.timestamp Samples.nonce Runtime.initial_store)
  = Runtime.initial_store.
Proof.
  refine (proj1
    (rejected_webhook_post_does_nothing (Samples.cxone_answers 200 "{}")
       Samples.settings Samples.webhook_request Scenarios.bad_signature
       Samples.timestamp Samples.nonce Runtime.initial_store _)).
  left. vm_compute. reflexivity.
Defined.

Lemma decrypted_message_is_handled_as_plaintext_witness :
  WeChatRoutes.wechat_webhook_post (Samples.cxone_answers 200 "{}")
    Samples.settings_encrypted Samples.webhook_request Samples.signature
    Samples.timestamp Samples.nonce Runtime.initial_store
  = Runtime.prepend_events
      [Runtime.DecryptMessage Samples.xml_text_message "" Samples.timestamp
         Samples.nonce;
       Runtime.Log "debug" "wechat_message_decrypted"]
      (WeChatRoutes.wechat_webhook_post (Samples.cxone_answers 200 "{}")
         (Settings.with_wechat_encoding_aes_key Samples.settings_encrypted "")
         Samples.webhook_request Samples.signature Samples.timestamp
         Samples.nonce Runtime.initial_store).
Proof.
  refine (decrypted_message_is_handled_as_plaintext (Samples.cxone_answers 200 "{}")
            Samples.settings_encrypted Samples.webhook_request
            Samples.webhook_request Samples.signature Samples.timestamp
            Samples.nonce Runtime.initial_store Samples.xml_text_message
            Samples.xml_text_message _ _ _ _ _ _ _ _).
  - vm_compute. reflexivity.
  - vm_compute. discriminate.
  - reflexivity.
  - reflexivity.
  - reflexivity.
  - reflexivity.
  - vm_compute. discriminate.
  - reflexivity.
Defined.

Lemma unreadable_delivery_is_acknowledged_and_dropped_witness :
  WeChatRoutes.wechat_webhook_post Scenarios.undecodable Samples.settings
    Samples.webhook_request Samples.signature Samples.timestamp Samples.nonce
    Runtime.initial_store
  = ([Runtime.Log "exception" "wechat_webhook_processing_error"],
     Runtime.initial_store, Ok (Http.Response 200)).
Proof.
  refine (unreadable_delivery_is_acknowledged_and_dropped Scenarios.undecodable
            Samples.settings Samples.webhook_request Samples.signature
            Samples.timestamp Samples.nonce Runtime.initial_store _ _ _).
  - vm_compute. reflexivity.
  - vm_compute. discriminate.
  - left. eexists. reflexivity.
Defined.

Lemma webhook_forwards_only_parsed_text_messages_witness :
  exists raw msg openid text,
    Runtime.decode_utf8 (Samples.cxone_answers 200 "{}")
      (WeChatRoutes.body Samples.webhook_request) = Ok raw
    /\ Runtime.parse_message (Samples.cxone_answers 200 "{}") raw = Ok msg
    /\ WeChatMessage.source msg = Some openid
    /\ WeChatMessage.content msg = Some text
    /\ Runtime.HttpRequest "POST" "/channels/test_channel_id/messages" Samples.kwargs
       = Runtime.HttpRequest "POST"
           (Spec2.cxone_url (Spec2.current_client Samples.settings Runtime.initial_store))
           (Spec2.cxone_kwargs
              (Spec2.current_client Samples.settings Runtime.initial_store)
              openid text).
Proof.
  refine
    (match proj2 (proj2
       (webhook_forwards_only_parsed_text_messages (Samples.cxone_answers 200 "{}")
          Samples.settings Samples.webhook_request Samples.signature
          Samples.timestamp Samples.nonce Runtime.initial_store
          (Runtime.HttpRequest "POST" "/channels/test_channel_id/messages"
             Samples.kwargs) _ _))
     with
     | ex_intro _ raw (ex_intro _ msg (ex_intro _ openid (ex_intro _ text
         (conj Hraw (conj _ (conj Hparse (conj _ (conj Hsrc (conj _
            (conj Htext (conj _ Hev)))))))))))
       => ex_intro _ raw (ex_intro _ msg (ex_intro _ openid (ex_intro _ text
            (conj Hraw (conj Hparse (conj Hsrc (conj Htext Hev)))))))
     end).
  - vm_compute. right. right. right. left. reflexivity.
  - reflexivity.
Defined.

Lemma returned_response_is_a_success_witness :
  CircuitBreaker.current
    (Runtime.circuit_breaker
       (Runtime.final
          (BaseHTTPClient._request_with_retry Scenarios.flaky Samples.cxone_client
             "POST" "/channels/test_channel_id/messages" Samples.kwargs
             Runtime.initial_store)))
  = CircuitBreaker.Closed.
Proof.
  refine (proj1 (proj2 (proj2
    (returned_response_is_a_success Scenarios.flaky Samples.cxone_client
       "POST" "/channels/test_channel_id/messages" Samples.kwargs
       Runtime.initial_store (Response.Build 200 "{}") _)))).
  vm_compute. reflexivity.
Defined.

Lemma post_message_returns_a_json_object_witness :
  exists d, Runtime.JsonDict {[ "id" := Py.PStr "m1" ]} = Runtime.JsonDict d.
Proof.
  refine (proj1 (proj2 (proj2
    (post_message_returns_a_json_object (Samples.cxone_answers 200 "{}")
       Samples.cxone_client "fromUser" "Hello WeChat" Runtime.initial_store
       (Runtime.JsonDict {[ "id" := Py.PStr "m1" ]}) _)))).
  vm_compute. reflexivity.
Defined.

Lemma unauthenticated_post_is_refused_untouched_witness :
  ByocRoutes.post_message_endpoint Samples.downstream_down Samples.settings None
    "test123" (ByocRoutes.BuildRequest (Ok Samples.thread_payload))
    Runtime.initial_store
  = ([], Runtime.initial_store,
     Raise (Exceptions.AuthenticationError "Missing or invalid Authorization header")).
Proof.
  refine (proj1
    (unauthenticated_post_is_refused_untouched Samples.downstream_down
       Samples.settings None "test123"
       (ByocRoutes.BuildRequest (Ok Samples.thread_payload)) Runtime.initial_store
       (Exceptions.AuthenticationError "Missing or invalid Authorization header") _)).
  reflexivity.
Defined.

Lemma issued_token_authenticates_witness :
  Runtime.outcome
    (ByocRoutes.get_bearer_token Scenarios.token_issuer Samples.settings
       (Some "Bearer header.payload.signature") Runtime.initial_store)
  = Ok "header.payload.signature".
Proof.
  refine (issued_token_authenticates Scenarios.token_issuer Samples.settings
            Scenarios.jwt_encode Scenarios.token_request Runtime.initial_store
            Runtime.initial_store
            (TokenResponse.Build "header.payload.signature" "Bearer" 86400)
            _ _ _ _).
  - reflexivity.
  - discriminate.
  - reflexivity.
  - reflexivity.
Defined.

Lemma validated_payload_bounds_witness :
  1 <= Py.len "Hello from CXone" <= 10000.
Proof.
  refine (proj1 (proj2
    (validated_payload_bounds Samples.thread_payload Samples.thread_payload _))
    "Hello from CXone" _).
  - reflexivity.
  - reflexivity.
Defined.
